(** * SEO_Optimizer: the per-post workflow of [src/main.py]

    A shallow embedding of [WordPressSEOOptimizer].  Python values are the
    JSON values the script receives from the content API; strings are
    sequences of code points below 256 (Latin-1), which is closed under
    [str.lower] and [str.strip].  The one test of the workflow that
    compares a string as it is with a lower-cased one is given for strings
    of any code points as well ([PyUnicode]).  The two remote services (the content API
    behind [requests] and the text generator behind [generate_content]) are
    oracles that see the calls made so far; every call is recorded.
    Output on the console ([print]) and the pause between posts are left
    out. *)

From Stdlib Require Import ZArith List String Ascii Bool Arith Lia.
From Stdlib Require Import DecimalString.
Import ListNotations.
Local Open Scope string_scope.
Local Open Scope bool_scope.
Local Open Scope nat_scope.
Set Warnings "-register-all".

(** ** Python [str] operations *)

Module PyStr.

(** [str.isspace] on one code point below 256. *)
Definition is_space (c : ascii) : bool :=
  let n := nat_of_ascii c in
  ((9 <=? n) && (n <=? 13)) || ((28 <=? n) && (n <=? 32))
  || (n =? 133) || (n =? 160).

(** Code points that [str.lower] changes: A-Z and the Latin-1 capitals
    U+00C0..U+00DE without the multiplication sign U+00D7. *)
Definition is_upper (c : ascii) : bool :=
  let n := nat_of_ascii c in
  ((65 <=? n) && (n <=? 90))
  || ((192 <=? n) && (n <=? 222) && negb (n =? 215)).

Definition lower_char (c : ascii) : ascii :=
  if is_upper c then ascii_of_nat (nat_of_ascii c + 32) else c.

(** [s.lower()] *)
Fixpoint lower (s : string) : string :=
  match s with
  | EmptyString => EmptyString
  | String c s' => String (lower_char c) (lower s')
  end.

Fixpoint lstrip (s : string) : string :=
  match s with
  | EmptyString => EmptyString
  | String c s' => if is_space c then lstrip s' else s
  end.

Fixpoint rstrip (s : string) : string :=
  match s with
  | EmptyString => EmptyString
  | String c s' =>
      match rstrip s' with
      | EmptyString => if is_space c then EmptyString else String c EmptyString
      | r => String c r
      end
  end.

(** [s.strip()] *)
Definition strip (s : string) : string := rstrip (lstrip s).

(** [needle in hay] for two strings. *)
Fixpoint contains (needle hay : string) : bool :=
  prefix needle hay
  || match hay with
     | EmptyString => false
     | String _ hay' => contains needle hay'
     end.

(** [s[:n]] for a natural [n]. *)
Fixpoint take (n : nat) (s : string) : string :=
  match n, s with
  | S n', String c s' => String c (take n' s')
  | _, _ => EmptyString
  end.

Fixpoint drop (n : nat) (s : string) : string :=
  match n, s with
  | S n', String _ s' => drop n' s'
  | _, _ => s
  end.

(** [s[:k]] for an integer [k]: a negative bound counts from the end. *)
Definition slice_to (k : Z) (s : string) : string :=
  if (k <? 0)%Z
  then take (Z.to_nat (Z.of_nat (length s) + k)) s
  else take (Z.to_nat k) s.

(** [s.partition(sep)] when [sep] occurs: the text before the first
    occurrence and the text after it. *)
Fixpoint partition (sep s : string) : option (string * string) :=
  if prefix sep s then Some (EmptyString, drop (length sep) s)
  else match s with
       | EmptyString => None
       | String c s' =>
           match partition sep s' with
           | Some (before, after) => Some (String c before, after)
           | None => None
           end
       end.

(** [s.split(sep, 1)] *)
Definition split1 (sep s : string) : list string :=
  match partition sep s with
  | Some (before, after) => [before; after]
  | None => [s]
  end.

(** [s.replace(old, new)] for a non-empty [old]: [skip] characters of a
    replaced occurrence are still to be passed over. *)
Fixpoint replace_from (old new s : string) (skip : nat) : string :=
  match s with
  | EmptyString => EmptyString
  | String c s' =>
      match skip with
      | S k => replace_from old new s' k
      | O =>
          if prefix old s
          then new ++ replace_from old new s' (length old - 1)
          else String c (replace_from old new s' 0)
      end
  end.

(** [s.replace("", new)]: [new] before every character and at the end. *)
Fixpoint intersperse (new s : string) : string :=
  match s with
  | EmptyString => new
  | String c s' => new ++ String c (intersperse new s')
  end.

Definition replace (old new s : string) : string :=
  match old with
  | EmptyString => intersperse new s
  | _ => replace_from old new s 0
  end.

(** [re.sub(r'<[^>]+>', '', s)].  [pending] is [Some buf] while a ['<'] has
    been read and no ['>'] yet, [buf] being the characters after it in
    reverse; a ['<'] directly followed by ['>'] is no tag and stays. *)
Fixpoint strip_tags_from (s : string) (pending : option string) : string :=
  match s with
  | EmptyString =>
      match pending with
      | None => EmptyString
      | Some buf => String "<" (fold_left (fun acc c => String c acc) (list_ascii_of_string buf) EmptyString)
      end
  | String c s' =>
      match pending with
      | None =>
          if Ascii.eqb c "<" then strip_tags_from s' (Some EmptyString)
          else String c (strip_tags_from s' None)
      | Some buf =>
          if Ascii.eqb c ">" then
            match buf with
            | EmptyString => String "<" (String ">" (strip_tags_from s' None))
            | _ => strip_tags_from s' None
            end
          else strip_tags_from s' (Some (String c buf))
      end
  end.

Definition strip_tags (s : string) : string := strip_tags_from s None.

(** [re.search(r'<p>(.*?)</p>', s, re.DOTALL)], giving [group(1)]: the
    leftmost ["<p>"] and the nearest ["</p>"] after it.  When the leftmost
    ["<p>"] has no ["</p>"] after it, no later one has either. *)
Definition search_first_paragraph (s : string) : option string :=
  match partition "<p>" s with
  | None => None
  | Some (_, rest) =>
      match partition "</p>" rest with
      | None => None
      | Some (first_para, _) => Some first_para
      end
  end.

End PyStr.

(** ** Python [str] on all of Unicode: [str.lower] and [in] *)

(** A [str] as the sequence of its code points, with the case data of the
    Unicode Character Database 14.0.0 that CPython 3.11 carries.  A set of
    code points is a list of runs [(first, last, step)], standing for
    [first], [first + step], ... up to [last]. *)
Module PyUnicode.

Local Open Scope N_scope.

Definition str : Type := list N.

Definition in_runs (c : N) (runs : list (N * N * N)) : bool :=
  existsb (fun r =>
             let '(first, last, step) := r in
             (first <=? c) && (c <=? last) && ((c - first) mod step =? 0))
    runs.

(** The code points that [str.lower] maps to one other code point, in runs
    [(first, last, step, image)]: [first] goes to [image], [first + step]
    to [image + step], and so on up to [last]. *)
Definition lower_runs : list (N * N * N * N) :=
  [(0x41, 0x5A, 1, 0x61); (0xC0, 0xD6, 1, 0xE0); (0xD8, 0xDE, 1, 0xF8);
   (0x100, 0x12E, 2, 0x101); (0x132, 0x136, 2, 0x133);
   (0x139, 0x147, 2, 0x13A); (0x14A, 0x176, 2, 0x14B);
   (0x178, 0x178, 1, 0xFF); (0x179, 0x17D, 2, 0x17A);
   (0x181, 0x181, 1, 0x253); (0x182, 0x184, 2, 0x183);
   (0x186, 0x186, 1, 0x254); (0x187, 0x187, 1, 0x188);
   (0x189, 0x18A, 1, 0x256); (0x18B, 0x18B, 1, 0x18C);
   (0x18E, 0x18E, 1, 0x1DD); (0x18F, 0x18F, 1, 0x259);
   (0x190, 0x190, 1, 0x25B); (0x191, 0x191, 1, 0x192);
   (0x193, 0x193, 1, 0x260); (0x194, 0x194, 1, 0x263);
   (0x196, 0x196, 1, 0x269); (0x197, 0x197, 1, 0x268);
   (0x198, 0x198, 1, 0x199); (0x19C, 0x19C, 1, 0x26F);
   (0x19D, 0x19D, 1, 0x272); (0x19F, 0x19F, 1, 0x275);
   (0x1A0, 0x1A4, 2, 0x1A1); (0x1A6, 0x1A6, 1, 0x280);
   (0x1A7, 0x1A7, 1, 0x1A8); (0x1A9, 0x1A9, 1, 0x283);
   (0x1AC, 0x1AC, 1, 0x1AD); (0x1AE, 0x1AE, 1, 0x288);
   (0x1AF, 0x1AF, 1, 0x1B0); (0x1B1, 0x1B2, 1, 0x28A);
   (0x1B3, 0x1B5, 2, 0x1B4); (0x1B7, 0x1B7, 1, 0x292);
   (0x1B8, 0x1B8, 1, 0x1B9); (0x1BC, 0x1BC, 1, 0x1BD);
   (0x1C4, 0x1C4, 1, 0x1C6); (0x1C5, 0x1C5, 1, 0x1C6);
   (0x1C7, 0x1C7, 1, 0x1C9); (0x1C8, 0x1C8, 1, 0x1C9);
   (0x1CA, 0x1CA, 1, 0x1CC); (0x1CB, 0x1DB, 2, 0x1CC);
   (0x1DE, 0x1EE, 2, 0x1DF); (0x1F1, 0x1F1, 1, 0x1F3);
   (0x1F2, 0x1F4, 2, 0x1F3); (0x1F6, 0x1F6, 1, 0x195);
   (0x1F7, 0x1F7, 1, 0x1BF); (0x1F8, 0x21E, 2, 0x1F9);
   (0x220, 0x220, 1, 0x19E); (0x222, 0x232, 2, 0x223);
   (0x23A, 0x23A, 1, 0x2C65); (0x23B, 0x23B, 1, 0x23C);
   (0x23D, 0x23D, 1, 0x19A); (0x23E, 0x23E, 1, 0x2C66);
   (0x241, 0x241, 1, 0x242); (0x243, 0x243, 1, 0x180);
   (0x244, 0x244, 1, 0x289); (0x245, 0x245, 1, 0x28C);
   (0x246, 0x24E, 2, 0x247); (0x370, 0x372, 2, 0x371);
   (0x376, 0x376, 1, 0x377); (0x37F, 0x37F, 1, 0x3F3);
   (0x386, 0x386, 1, 0x3AC); (0x388, 0x38A, 1, 0x3AD);
   (0x38C, 0x38C, 1, 0x3CC); (0x38E, 0x38F, 1, 0x3CD);
   (0x391, 0x3A1, 1, 0x3B1); (0x3A3, 0x3AB, 1, 0x3C3);
   (0x3CF, 0x3CF, 1, 0x3D7); (0x3D8, 0x3EE, 2, 0x3D9);
   (0x3F4, 0x3F4, 1, 0x3B8); (0x3F7, 0x3F7, 1, 0x3F8);
   (0x3F9, 0x3F9, 1, 0x3F2); (0x3FA, 0x3FA, 1, 0x3FB);
   (0x3FD, 0x3FF, 1, 0x37B); (0x400, 0x40F, 1, 0x450);
   (0x410, 0x42F, 1, 0x430); (0x460, 0x480, 2, 0x461);
   (0x48A, 0x4BE, 2, 0x48B); (0x4C0, 0x4C0, 1, 0x4CF);
   (0x4C1, 0x4CD, 2, 0x4C2); (0x4D0, 0x52E, 2, 0x4D1);
   (0x531, 0x556, 1, 0x561); (0x10A0, 0x10C5, 1, 0x2D00);
   (0x10C7, 0x10C7, 1, 0x2D27); (0x10CD, 0x10CD, 1, 0x2D2D);
   (0x13A0, 0x13EF, 1, 0xAB70); (0x13F0, 0x13F5, 1, 0x13F8);
   (0x1C90, 0x1CBA, 1, 0x10D0); (0x1CBD, 0x1CBF, 1, 0x10FD);
   (0x1E00, 0x1E94, 2, 0x1E01); (0x1E9E, 0x1E9E, 1, 0xDF);
   (0x1EA0, 0x1EFE, 2, 0x1EA1); (0x1F08, 0x1F0F, 1, 0x1F00);
   (0x1F18, 0x1F1D, 1, 0x1F10); (0x1F28, 0x1F2F, 1, 0x1F20);
   (0x1F38, 0x1F3F, 1, 0x1F30); (0x1F48, 0x1F4D, 1, 0x1F40);
   (0x1F59, 0x1F5F, 2, 0x1F51); (0x1F68, 0x1F6F, 1, 0x1F60);
   (0x1F88, 0x1F8F, 1, 0x1F80); (0x1F98, 0x1F9F, 1, 0x1F90);
   (0x1FA8, 0x1FAF, 1, 0x1FA0); (0x1FB8, 0x1FB9, 1, 0x1FB0);
   (0x1FBA, 0x1FBB, 1, 0x1F70); (0x1FBC, 0x1FBC, 1, 0x1FB3);
   (0x1FC8, 0x1FCB, 1, 0x1F72); (0x1FCC, 0x1FCC, 1, 0x1FC3);
   (0x1FD8, 0x1FD9, 1, 0x1FD0); (0x1FDA, 0x1FDB, 1, 0x1F76);
   (0x1FE8, 0x1FE9, 1, 0x1FE0); (0x1FEA, 0x1FEB, 1, 0x1F7A);
   (0x1FEC, 0x1FEC, 1, 0x1FE5); (0x1FF8, 0x1FF9, 1, 0x1F78);
   (0x1FFA, 0x1FFB, 1, 0x1F7C); (0x1FFC, 0x1FFC, 1, 0x1FF3);
   (0x2126, 0x2126, 1, 0x3C9); (0x212A, 0x212A, 1, 0x6B);
   (0x212B, 0x212B, 1, 0xE5); (0x2132, 0x2132, 1, 0x214E);
   (0x2160, 0x216F, 1, 0x2170); (0x2183, 0x2183, 1, 0x2184);
   (0x24B6, 0x24CF, 1, 0x24D0); (0x2C00, 0x2C2F, 1, 0x2C30);
   (0x2C60, 0x2C60, 1, 0x2C61); (0x2C62, 0x2C62, 1, 0x26B);
   (0x2C63, 0x2C63, 1, 0x1D7D); (0x2C64, 0x2C64, 1, 0x27D);
   (0x2C67, 0x2C6B, 2, 0x2C68); (0x2C6D, 0x2C6D, 1, 0x251);
   (0x2C6E, 0x2C6E, 1, 0x271); (0x2C6F, 0x2C6F, 1, 0x250);
   (0x2C70, 0x2C70, 1, 0x252); (0x2C72, 0x2C72, 1, 0x2C73);
   (0x2C75, 0x2C75, 1, 0x2C76); (0x2C7E, 0x2C7F, 1, 0x23F);
   (0x2C80, 0x2CE2, 2, 0x2C81); (0x2CEB, 0x2CED, 2, 0x2CEC);
   (0x2CF2, 0x2CF2, 1, 0x2CF3); (0xA640, 0xA66C, 2, 0xA641);
   (0xA680, 0xA69A, 2, 0xA681); (0xA722, 0xA72E, 2, 0xA723);
   (0xA732, 0xA76E, 2, 0xA733); (0xA779, 0xA77B, 2, 0xA77A);
   (0xA77D, 0xA77D, 1, 0x1D79); (0xA77E, 0xA786, 2, 0xA77F);
   (0xA78B, 0xA78B, 1, 0xA78C); (0xA78D, 0xA78D, 1, 0x265);
   (0xA790, 0xA792, 2, 0xA791); (0xA796, 0xA7A8, 2, 0xA797);
   (0xA7AA, 0xA7AA, 1, 0x266); (0xA7AB, 0xA7AB, 1, 0x25C);
   (0xA7AC, 0xA7AC, 1, 0x261); (0xA7AD, 0xA7AD, 1, 0x26C);
   (0xA7AE, 0xA7AE, 1, 0x26A); (0xA7B0, 0xA7B0, 1, 0x29E);
   (0xA7B1, 0xA7B1, 1, 0x287); (0xA7B2, 0xA7B2, 1, 0x29D);
   (0xA7B3, 0xA7B3, 1, 0xAB53); (0xA7B4, 0xA7C2, 2, 0xA7B5);
   (0xA7C4, 0xA7C4, 1, 0xA794); (0xA7C5, 0xA7C5, 1, 0x282);
   (0xA7C6, 0xA7C6, 1, 0x1D8E); (0xA7C7, 0xA7C9, 2, 0xA7C8);
   (0xA7D0, 0xA7D0, 1, 0xA7D1); (0xA7D6, 0xA7D8, 2, 0xA7D7);
   (0xA7F5, 0xA7F5, 1, 0xA7F6); (0xFF21, 0xFF3A, 1, 0xFF41);
   (0x10400, 0x10427, 1, 0x10428); (0x104B0, 0x104D3, 1, 0x104D8);
   (0x10570, 0x10594, 2, 0x10597); (0x10571, 0x10579, 2, 0x10598);
   (0x1057D, 0x10589, 2, 0x105A4); (0x1058D, 0x10591, 2, 0x105B4);
   (0x10595, 0x10595, 1, 0x105BC); (0x10C80, 0x10CB2, 1, 0x10CC0);
   (0x118A0, 0x118BF, 1, 0x118C0); (0x16E40, 0x16E5F, 1, 0x16E60);
   (0x1E900, 0x1E921, 1, 0x1E922)].

(** The code points [c] with [chr(c).isupper()]. *)
Definition uppercase_runs : list (N * N * N) :=
  [(0x41, 0x5A, 1); (0xC0, 0xD6, 1); (0xD8, 0xDE, 1); (0x100, 0x136, 2);
   (0x139, 0x147, 2); (0x14A, 0x178, 2); (0x179, 0x17D, 2); (0x181, 0x182, 1);
   (0x184, 0x186, 2); (0x187, 0x18B, 2); (0x18A, 0x18A, 1); (0x18E, 0x191, 1);
   (0x193, 0x194, 1); (0x196, 0x198, 1); (0x19C, 0x19D, 1); (0x19F, 0x1A0, 1);
   (0x1A2, 0x1A6, 2); (0x1A7, 0x1A9, 2); (0x1AC, 0x1AE, 2); (0x1AF, 0x1B7, 2);
   (0x1B2, 0x1B2, 1); (0x1B8, 0x1B8, 1); (0x1BC, 0x1BC, 1); (0x1C4, 0x1C4, 1);
   (0x1C7, 0x1C7, 1); (0x1CA, 0x1CA, 1); (0x1CD, 0x1DB, 2); (0x1DE, 0x1EE, 2);
   (0x1F1, 0x1F1, 1); (0x1F4, 0x232, 2); (0x1F7, 0x1F7, 1); (0x23A, 0x23B, 1);
   (0x23D, 0x23E, 1); (0x241, 0x245, 2); (0x244, 0x24E, 2); (0x370, 0x372, 2);
   (0x376, 0x376, 1); (0x37F, 0x37F, 1); (0x386, 0x38E, 2); (0x389, 0x389, 1);
   (0x38F, 0x3AB, 2); (0x392, 0x3A0, 2); (0x3A4, 0x3AA, 2); (0x3CF, 0x3CF, 1);
   (0x3D2, 0x3D4, 1); (0x3D8, 0x3EE, 2); (0x3F4, 0x3F4, 1); (0x3F7, 0x3F9, 2);
   (0x3FA, 0x3FA, 1); (0x3FD, 0x42F, 1); (0x460, 0x480, 2); (0x48A, 0x4C0, 2);
   (0x4C1, 0x4CD, 2); (0x4D0, 0x52E, 2); (0x531, 0x556, 1);
   (0x10A0, 0x10C5, 1); (0x10C7, 0x10C7, 1); (0x10CD, 0x10CD, 1);
   (0x13A0, 0x13F5, 1); (0x1C90, 0x1CBA, 1); (0x1CBD, 0x1CBF, 1);
   (0x1E00, 0x1E94, 2); (0x1E9E, 0x1EFE, 2); (0x1F08, 0x1F0F, 1);
   (0x1F18, 0x1F1D, 1); (0x1F28, 0x1F2F, 1); (0x1F38, 0x1F3F, 1);
   (0x1F48, 0x1F4D, 1); (0x1F59, 0x1F5F, 2); (0x1F68, 0x1F6F, 1);
   (0x1FB8, 0x1FBB, 1); (0x1FC8, 0x1FCB, 1); (0x1FD8, 0x1FDB, 1);
   (0x1FE8, 0x1FEC, 1); (0x1FF8, 0x1FFB, 1); (0x2102, 0x2102, 1);
   (0x2107, 0x2107, 1); (0x210B, 0x210D, 1); (0x2110, 0x2112, 1);
   (0x2115, 0x2115, 1); (0x2119, 0x211D, 1); (0x2124, 0x212C, 2);
   (0x212B, 0x212D, 2); (0x2130, 0x2133, 1); (0x213E, 0x213F, 1);
   (0x2145, 0x2145, 1); (0x2160, 0x216F, 1); (0x2183, 0x2183, 1);
   (0x24B6, 0x24CF, 1); (0x2C00, 0x2C2F, 1); (0x2C60, 0x2C64, 2);
   (0x2C63, 0x2C63, 1); (0x2C67, 0x2C6F, 2); (0x2C6E, 0x2C72, 2);
   (0x2C75, 0x2C75, 1); (0x2C7E, 0x2CE2, 2); (0x2C7F, 0x2C7F, 1);
   (0x2CEB, 0x2CED, 2); (0x2CF2, 0x2CF2, 1); (0xA640, 0xA66C, 2);
   (0xA680, 0xA69A, 2); (0xA722, 0xA72E, 2); (0xA732, 0xA76E, 2);
   (0xA779, 0xA77D, 2); (0xA77E, 0xA786, 2); (0xA78B, 0xA78D, 2);
   (0xA790, 0xA792, 2); (0xA796, 0xA7C6, 2); (0xA7AB, 0xA7AD, 2);
   (0xA7B1, 0xA7B3, 2); (0xA7C5, 0xA7C9, 2); (0xA7D0, 0xA7D0, 1);
   (0xA7D6, 0xA7D8, 2); (0xA7F5, 0xA7F5, 1); (0xFF21, 0xFF3A, 1);
   (0x10400, 0x10427, 1); (0x104B0, 0x104D3, 1); (0x10570, 0x10594, 2);
   (0x10571, 0x10579, 2); (0x1057D, 0x10589, 2); (0x1058D, 0x10591, 2);
   (0x10595, 0x10595, 1); (0x10C80, 0x10CB2, 1); (0x118A0, 0x118BF, 1);
   (0x16E40, 0x16E5F, 1); (0x1D400, 0x1D419, 1); (0x1D434, 0x1D44D, 1);
   (0x1D468, 0x1D481, 1); (0x1D49C, 0x1D49E, 2); (0x1D49F, 0x1D49F, 1);
   (0x1D4A2, 0x1D4A2, 1); (0x1D4A5, 0x1D4A6, 1); (0x1D4A9, 0x1D4AC, 1);
   (0x1D4AE, 0x1D4B5, 1); (0x1D4D0, 0x1D4E9, 1); (0x1D504, 0x1D505, 1);
   (0x1D507, 0x1D50A, 1); (0x1D50D, 0x1D514, 1); (0x1D516, 0x1D51C, 1);
   (0x1D538, 0x1D539, 1); (0x1D53B, 0x1D53E, 1); (0x1D540, 0x1D544, 1);
   (0x1D546, 0x1D546, 1); (0x1D54A, 0x1D550, 1); (0x1D56C, 0x1D585, 1);
   (0x1D5A0, 0x1D5B9, 1); (0x1D5D4, 0x1D5ED, 1); (0x1D608, 0x1D621, 1);
   (0x1D63C, 0x1D655, 1); (0x1D670, 0x1D689, 1); (0x1D6A8, 0x1D6C0, 1);
   (0x1D6E2, 0x1D6FA, 1); (0x1D71C, 0x1D734, 1); (0x1D756, 0x1D76E, 1);
   (0x1D790, 0x1D7A8, 1); (0x1D7CA, 0x1D7CA, 1); (0x1E900, 0x1E921, 1);
   (0x1F130, 0x1F149, 1); (0x1F150, 0x1F169, 1); (0x1F170, 0x1F189, 1)].

(** The code points with the property Cased. *)
Definition cased_runs : list (N * N * N) :=
  [(0x41, 0x5A, 1); (0x61, 0x7A, 1); (0xAA, 0xAA, 1); (0xB5, 0xB5, 1);
   (0xBA, 0xBA, 1); (0xC0, 0x1BE, 2); (0xC1, 0xD5, 2); (0xD9, 0xF5, 2);
   (0xF9, 0x1B9, 2); (0x1BD, 0x1BF, 2); (0x1C4, 0x293, 1); (0x295, 0x2B8, 1);
   (0x2C0, 0x2C1, 1); (0x2E0, 0x2E4, 1); (0x345, 0x345, 1); (0x370, 0x373, 1);
   (0x376, 0x377, 1); (0x37A, 0x37D, 1); (0x37F, 0x37F, 1); (0x386, 0x3A0, 2);
   (0x389, 0x389, 1); (0x38F, 0x481, 2); (0x3A4, 0x3F4, 2); (0x3F8, 0x480, 2);
   (0x48A, 0x52F, 1); (0x531, 0x556, 1); (0x560, 0x588, 1);
   (0x10A0, 0x10C5, 1); (0x10C7, 0x10C7, 1); (0x10CD, 0x10CD, 1);
   (0x10D0, 0x10FA, 1); (0x10FD, 0x10FF, 1); (0x13A0, 0x13F5, 1);
   (0x13F8, 0x13FD, 1); (0x1C80, 0x1C88, 1); (0x1C90, 0x1CBA, 1);
   (0x1CBD, 0x1CBF, 1); (0x1D00, 0x1DBF, 1); (0x1E00, 0x1F15, 1);
   (0x1F18, 0x1F1D, 1); (0x1F20, 0x1F45, 1); (0x1F48, 0x1F4D, 1);
   (0x1F50, 0x1F57, 1); (0x1F59, 0x1F7D, 2); (0x1F60, 0x1F7C, 2);
   (0x1F80, 0x1FB4, 1); (0x1FB6, 0x1FBC, 1); (0x1FBE, 0x1FBE, 1);
   (0x1FC2, 0x1FCC, 2); (0x1FC3, 0x1FC3, 1); (0x1FC7, 0x1FCB, 2);
   (0x1FD0, 0x1FD3, 1); (0x1FD6, 0x1FDB, 1); (0x1FE0, 0x1FEC, 1);
   (0x1FF2, 0x1FFC, 2); (0x1FF3, 0x1FF3, 1); (0x1FF7, 0x1FFB, 2);
   (0x2071, 0x2071, 1); (0x207F, 0x207F, 1); (0x2090, 0x209C, 1);
   (0x2102, 0x2102, 1); (0x2107, 0x2107, 1); (0x210A, 0x2113, 1);
   (0x2115, 0x2115, 1); (0x2119, 0x211D, 1); (0x2124, 0x212C, 2);
   (0x212B, 0x2133, 2); (0x2130, 0x2134, 2); (0x2139, 0x2139, 1);
   (0x213C, 0x213F, 1); (0x2145, 0x2149, 1); (0x214E, 0x214E, 1);
   (0x2160, 0x217F, 1); (0x2183, 0x2184, 1); (0x24B6, 0x24E9, 1);
   (0x2C00, 0x2CE4, 1); (0x2CEB, 0x2CEE, 1); (0x2CF2, 0x2CF3, 1);
   (0x2D00, 0x2D25, 1); (0x2D27, 0x2D27, 1); (0x2D2D, 0x2D2D, 1);
   (0xA640, 0xA66D, 1); (0xA680, 0xA69D, 1); (0xA722, 0xA787, 1);
   (0xA78B, 0xA78E, 1); (0xA790, 0xA7CA, 1); (0xA7D0, 0xA7D1, 1);
   (0xA7D3, 0xA7D9, 2); (0xA7D6, 0xA7D8, 2); (0xA7F5, 0xA7F6, 1);
   (0xA7F8, 0xA7FA, 1); (0xAB30, 0xAB5A, 1); (0xAB5C, 0xAB68, 1);
   (0xAB70, 0xABBF, 1); (0xFB00, 0xFB06, 1); (0xFB13, 0xFB17, 1);
   (0xFF21, 0xFF3A, 1); (0xFF41, 0xFF5A, 1); (0x10400, 0x1044F, 1);
   (0x104B0, 0x104D3, 1); (0x104D8, 0x104FB, 1); (0x10570, 0x10594, 2);
   (0x10571, 0x10579, 2); (0x1057D, 0x10589, 2); (0x1058D, 0x10591, 2);
   (0x10595, 0x105BB, 2); (0x10598, 0x105A0, 2); (0x105A4, 0x105B0, 2);
   (0x105B4, 0x105B8, 2); (0x105BC, 0x105BC, 1); (0x10780, 0x10780, 1);
   (0x10783, 0x107AF, 2); (0x10784, 0x10784, 1); (0x10788, 0x107BA, 2);
   (0x107B3, 0x107B9, 2); (0x10C80, 0x10CB2, 1); (0x10CC0, 0x10CF2, 1);
   (0x118A0, 0x118DF, 1); (0x16E40, 0x16E7F, 1); (0x1D400, 0x1D454, 1);
   (0x1D456, 0x1D49C, 1); (0x1D49E, 0x1D49F, 1); (0x1D4A2, 0x1D4A2, 1);
   (0x1D4A5, 0x1D4A6, 1); (0x1D4A9, 0x1D4AC, 1); (0x1D4AE, 0x1D4B9, 1);
   (0x1D4BB, 0x1D509, 2); (0x1D4BE, 0x1D4C2, 2); (0x1D4C6, 0x1D504, 2);
   (0x1D508, 0x1D50A, 2); (0x1D50D, 0x1D514, 1); (0x1D516, 0x1D538, 2);
   (0x1D517, 0x1D51B, 2); (0x1D51F, 0x1D53D, 2); (0x1D53C, 0x1D546, 2);
   (0x1D541, 0x1D543, 2); (0x1D54A, 0x1D6A4, 2); (0x1D54B, 0x1D54F, 2);
   (0x1D553, 0x1D6A5, 2); (0x1D6A8, 0x1D7CA, 2); (0x1D6A9, 0x1D6BF, 2);
   (0x1D6C3, 0x1D6D9, 2); (0x1D6DD, 0x1D6F9, 2); (0x1D6FD, 0x1D713, 2);
   (0x1D717, 0x1D733, 2); (0x1D737, 0x1D74D, 2); (0x1D751, 0x1D76D, 2);
   (0x1D771, 0x1D787, 2); (0x1D78B, 0x1D7A7, 2); (0x1D7AB, 0x1D7C1, 2);
   (0x1D7C5, 0x1D7CB, 2); (0x1DF00, 0x1DF09, 1); (0x1DF0B, 0x1DF1E, 1);
   (0x1E900, 0x1E943, 1); (0x1F130, 0x1F149, 1); (0x1F150, 0x1F169, 1);
   (0x1F170, 0x1F189, 1)].

(** The code points with the property Case_Ignorable. *)
Definition case_ignorable_runs : list (N * N * N) :=
  [(0x27, 0x27, 1); (0x2E, 0x2E, 1); (0x3A, 0x3A, 1); (0x5E, 0x60, 2);
   (0xA8, 0xA8, 1); (0xAD, 0xAF, 2); (0xB4, 0xB4, 1); (0xB7, 0xB8, 1);
   (0x2B0, 0x36F, 1); (0x374, 0x375, 1); (0x37A, 0x37A, 1); (0x384, 0x385, 1);
   (0x387, 0x387, 1); (0x483, 0x489, 1); (0x559, 0x559, 1); (0x55F, 0x55F, 1);
   (0x591, 0x5BD, 1); (0x5BF, 0x5C1, 2); (0x5C2, 0x5C4, 2); (0x5C5, 0x5C7, 2);
   (0x5F4, 0x5F4, 1); (0x600, 0x605, 1); (0x610, 0x61A, 1); (0x61C, 0x61C, 1);
   (0x640, 0x640, 1); (0x64B, 0x65F, 1); (0x670, 0x670, 1); (0x6D6, 0x6DD, 1);
   (0x6DF, 0x6E8, 1); (0x6EA, 0x6ED, 1); (0x70F, 0x711, 2); (0x730, 0x74A, 1);
   (0x7A6, 0x7B0, 1); (0x7EB, 0x7F5, 1); (0x7FA, 0x7FA, 1); (0x7FD, 0x7FD, 1);
   (0x816, 0x82D, 1); (0x859, 0x85B, 1); (0x888, 0x888, 1); (0x890, 0x891, 1);
   (0x898, 0x89F, 1); (0x8C9, 0x902, 1); (0x93A, 0x93C, 2); (0x941, 0x948, 1);
   (0x94D, 0x94D, 1); (0x951, 0x957, 1); (0x962, 0x963, 1); (0x971, 0x971, 1);
   (0x981, 0x981, 1); (0x9BC, 0x9BC, 1); (0x9C1, 0x9C4, 1); (0x9CD, 0x9CD, 1);
   (0x9E2, 0x9E3, 1); (0x9FE, 0x9FE, 1); (0xA01, 0xA02, 1); (0xA3C, 0xA3C, 1);
   (0xA41, 0xA42, 1); (0xA47, 0xA48, 1); (0xA4B, 0xA4D, 1); (0xA51, 0xA51, 1);
   (0xA70, 0xA71, 1); (0xA75, 0xA75, 1); (0xA81, 0xA82, 1); (0xABC, 0xABC, 1);
   (0xAC1, 0xAC5, 1); (0xAC7, 0xAC8, 1); (0xACD, 0xACD, 1); (0xAE2, 0xAE3, 1);
   (0xAFA, 0xAFF, 1); (0xB01, 0xB01, 1); (0xB3C, 0xB3C, 1); (0xB3F, 0xB43, 2);
   (0xB42, 0xB44, 2); (0xB4D, 0xB4D, 1); (0xB55, 0xB56, 1); (0xB62, 0xB63, 1);
   (0xB82, 0xB82, 1); (0xBC0, 0xBC0, 1); (0xBCD, 0xBCD, 1); (0xC00, 0xC00, 1);
   (0xC04, 0xC04, 1); (0xC3C, 0xC40, 2); (0xC3F, 0xC3F, 1); (0xC46, 0xC4C, 2);
   (0xC47, 0xC47, 1); (0xC4B, 0xC4D, 2); (0xC55, 0xC56, 1); (0xC62, 0xC63, 1);
   (0xC81, 0xC81, 1); (0xCBC, 0xCBC, 1); (0xCBF, 0xCBF, 1); (0xCC6, 0xCC6, 1);
   (0xCCC, 0xCCD, 1); (0xCE2, 0xCE3, 1); (0xD00, 0xD01, 1); (0xD3B, 0xD3C, 1);
   (0xD41, 0xD44, 1); (0xD4D, 0xD4D, 1); (0xD62, 0xD63, 1); (0xD81, 0xD81, 1);
   (0xDCA, 0xDCA, 1); (0xDD2, 0xDD4, 1); (0xDD6, 0xDD6, 1); (0xE31, 0xE31, 1);
   (0xE34, 0xE3A, 1); (0xE46, 0xE4E, 1); (0xEB1, 0xEB1, 1); (0xEB4, 0xEBC, 1);
   (0xEC6, 0xECC, 2); (0xEC9, 0xECD, 2); (0xF18, 0xF19, 1); (0xF35, 0xF39, 2);
   (0xF71, 0xF7E, 1); (0xF80, 0xF84, 1); (0xF86, 0xF87, 1); (0xF8D, 0xFBB, 2);
   (0xF8E, 0xF96, 2); (0xF9A, 0xFBC, 2); (0xFC6, 0xFC6, 1);
   (0x102D, 0x1030, 1); (0x1032, 0x1037, 1); (0x1039, 0x103A, 1);
   (0x103D, 0x103E, 1); (0x1058, 0x1059, 1); (0x105E, 0x1060, 1);
   (0x1071, 0x1074, 1); (0x1082, 0x1082, 1); (0x1085, 0x1086, 1);
   (0x108D, 0x108D, 1); (0x109D, 0x109D, 1); (0x10FC, 0x10FC, 1);
   (0x135D, 0x135F, 1); (0x1712, 0x1714, 1); (0x1732, 0x1733, 1);
   (0x1752, 0x1753, 1); (0x1772, 0x1773, 1); (0x17B4, 0x17B5, 1);
   (0x17B7, 0x17BD, 1); (0x17C6, 0x17C6, 1); (0x17C9, 0x17D3, 1);
   (0x17D7, 0x17D7, 1); (0x17DD, 0x17DD, 1); (0x180B, 0x180F, 1);
   (0x1843, 0x1843, 1); (0x1885, 0x1886, 1); (0x18A9, 0x18A9, 1);
   (0x1920, 0x1922, 1); (0x1927, 0x1928, 1); (0x1932, 0x1932, 1);
   (0x1939, 0x193B, 1); (0x1A17, 0x1A18, 1); (0x1A1B, 0x1A1B, 1);
   (0x1A56, 0x1A62, 2); (0x1A59, 0x1A5D, 2); (0x1A65, 0x1A6C, 1);
   (0x1A73, 0x1A7C, 1); (0x1A7F, 0x1A7F, 1); (0x1AA7, 0x1AA7, 1);
   (0x1AB0, 0x1ACE, 1); (0x1B00, 0x1B03, 1); (0x1B34, 0x1B3C, 2);
   (0x1B37, 0x1B39, 2); (0x1B42, 0x1B42, 1); (0x1B6B, 0x1B73, 1);
   (0x1B80, 0x1B81, 1); (0x1BA2, 0x1BA5, 1); (0x1BA8, 0x1BA9, 1);
   (0x1BAB, 0x1BAD, 1); (0x1BE6, 0x1BE8, 2); (0x1BE9, 0x1BE9, 1);
   (0x1BED, 0x1BF1, 2); (0x1BF0, 0x1BF0, 1); (0x1C2C, 0x1C33, 1);
   (0x1C36, 0x1C37, 1); (0x1C78, 0x1C7D, 1); (0x1CD0, 0x1CE8, 2);
   (0x1CD1, 0x1CD1, 1); (0x1CD5, 0x1CDF, 2); (0x1CE3, 0x1CE7, 2);
   (0x1CED, 0x1CED, 1); (0x1CF4, 0x1CF4, 1); (0x1CF8, 0x1CF9, 1);
   (0x1D2C, 0x1D6A, 1); (0x1D78, 0x1D78, 1); (0x1D9B, 0x1DFF, 1);
   (0x1FBD, 0x1FC1, 2); (0x1FC0, 0x1FC0, 1); (0x1FCD, 0x1FCF, 1);
   (0x1FDD, 0x1FDF, 1); (0x1FED, 0x1FEF, 1); (0x1FFD, 0x1FFE, 1);
   (0x200B, 0x200F, 1); (0x2018, 0x2019, 1); (0x2024, 0x2024, 1);
   (0x2027, 0x2027, 1); (0x202A, 0x202E, 1); (0x2060, 0x206E, 2);
   (0x2061, 0x2063, 2); (0x2067, 0x2071, 2); (0x207F, 0x207F, 1);
   (0x2090, 0x209C, 1); (0x20D0, 0x20F0, 1); (0x2C7C, 0x2C7D, 1);
   (0x2CEF, 0x2CF1, 1); (0x2D6F, 0x2D6F, 1); (0x2D7F, 0x2D7F, 1);
   (0x2DE0, 0x2DFF, 1); (0x2E2F, 0x2E2F, 1); (0x3005, 0x3005, 1);
   (0x302A, 0x302D, 1); (0x3031, 0x3035, 1); (0x303B, 0x303B, 1);
   (0x3099, 0x309E, 1); (0x30FC, 0x30FE, 1); (0xA015, 0xA015, 1);
   (0xA4F8, 0xA4FD, 1); (0xA60C, 0xA60C, 1); (0xA66F, 0xA672, 1);
   (0xA674, 0xA67D, 1); (0xA67F, 0xA67F, 1); (0xA69C, 0xA69F, 1);
   (0xA6F0, 0xA6F1, 1); (0xA700, 0xA721, 1); (0xA770, 0xA770, 1);
   (0xA788, 0xA78A, 1); (0xA7F2, 0xA7F4, 1); (0xA7F8, 0xA7F9, 1);
   (0xA802, 0xA802, 1); (0xA806, 0xA806, 1); (0xA80B, 0xA80B, 1);
   (0xA825, 0xA826, 1); (0xA82C, 0xA82C, 1); (0xA8C4, 0xA8C5, 1);
   (0xA8E0, 0xA8F1, 1); (0xA8FF, 0xA8FF, 1); (0xA926, 0xA92D, 1);
   (0xA947, 0xA951, 1); (0xA980, 0xA982, 1); (0xA9B3, 0xA9B3, 1);
   (0xA9B6, 0xA9B9, 1); (0xA9BC, 0xA9BD, 1); (0xA9CF, 0xA9CF, 1);
   (0xA9E5, 0xA9E6, 1); (0xAA29, 0xAA2E, 1); (0xAA31, 0xAA32, 1);
   (0xAA35, 0xAA36, 1); (0xAA43, 0xAA43, 1); (0xAA4C, 0xAA4C, 1);
   (0xAA70, 0xAA70, 1); (0xAA7C, 0xAA7C, 1); (0xAAB0, 0xAAB4, 2);
   (0xAAB3, 0xAAB3, 1); (0xAAB7, 0xAAB8, 1); (0xAABE, 0xAABF, 1);
   (0xAAC1, 0xAAC1, 1); (0xAADD, 0xAADD, 1); (0xAAEC, 0xAAED, 1);
   (0xAAF3, 0xAAF4, 1); (0xAAF6, 0xAAF6, 1); (0xAB5B, 0xAB5F, 1);
   (0xAB69, 0xAB6B, 1); (0xABE5, 0xABE5, 1); (0xABE8, 0xABE8, 1);
   (0xABED, 0xABED, 1); (0xFB1E, 0xFB1E, 1); (0xFBB2, 0xFBC2, 1);
   (0xFE00, 0xFE0F, 1); (0xFE13, 0xFE13, 1); (0xFE20, 0xFE2F, 1);
   (0xFE52, 0xFE52, 1); (0xFE55, 0xFE55, 1); (0xFEFF, 0xFEFF, 1);
   (0xFF07, 0xFF07, 1); (0xFF0E, 0xFF0E, 1); (0xFF1A, 0xFF1A, 1);
   (0xFF3E, 0xFF40, 2); (0xFF70, 0xFF70, 1); (0xFF9E, 0xFF9F, 1);
   (0xFFE3, 0xFFE3, 1); (0xFFF9, 0xFFFB, 1); (0x101FD, 0x101FD, 1);
   (0x102E0, 0x102E0, 1); (0x10376, 0x1037A, 1); (0x10780, 0x10785, 1);
   (0x10787, 0x107B0, 1); (0x107B2, 0x107BA, 1); (0x10A01, 0x10A03, 1);
   (0x10A05, 0x10A06, 1); (0x10A0C, 0x10A0F, 1); (0x10A38, 0x10A3A, 1);
   (0x10A3F, 0x10A3F, 1); (0x10AE5, 0x10AE6, 1); (0x10D24, 0x10D27, 1);
   (0x10EAB, 0x10EAC, 1); (0x10F46, 0x10F50, 1); (0x10F82, 0x10F85, 1);
   (0x11001, 0x11001, 1); (0x11038, 0x11046, 1); (0x11070, 0x11070, 1);
   (0x11073, 0x11074, 1); (0x1107F, 0x11081, 1); (0x110B3, 0x110B6, 1);
   (0x110B9, 0x110BA, 1); (0x110BD, 0x110BD, 1); (0x110C2, 0x110C2, 1);
   (0x110CD, 0x110CD, 1); (0x11100, 0x11102, 1); (0x11127, 0x11133, 2);
   (0x11128, 0x1112A, 2); (0x1112E, 0x11134, 2); (0x11173, 0x11173, 1);
   (0x11180, 0x11181, 1); (0x111B6, 0x111BE, 1); (0x111C9, 0x111CC, 1);
   (0x111CF, 0x111CF, 1); (0x1122F, 0x11231, 1); (0x11234, 0x11236, 2);
   (0x11237, 0x11237, 1); (0x1123E, 0x1123E, 1); (0x112DF, 0x112DF, 1);
   (0x112E3, 0x112EA, 1); (0x11300, 0x11301, 1); (0x1133B, 0x1133C, 1);
   (0x11340, 0x11340, 1); (0x11366, 0x1136C, 1); (0x11370, 0x11374, 1);
   (0x11438, 0x1143F, 1); (0x11442, 0x11444, 1); (0x11446, 0x11446, 1);
   (0x1145E, 0x1145E, 1); (0x114B3, 0x114B8, 1); (0x114BA, 0x114BA, 1);
   (0x114BF, 0x114C0, 1); (0x114C2, 0x114C3, 1); (0x115B2, 0x115B5, 1);
   (0x115BC, 0x115BD, 1); (0x115BF, 0x115C0, 1); (0x115DC, 0x115DD, 1);
   (0x11633, 0x1163A, 1); (0x1163D, 0x1163F, 2); (0x11640, 0x11640, 1);
   (0x116AB, 0x116AD, 2); (0x116B0, 0x116B5, 1); (0x116B7, 0x116B7, 1);
   (0x1171D, 0x1171F, 1); (0x11722, 0x11725, 1); (0x11727, 0x1172B, 1);
   (0x1182F, 0x11837, 1); (0x11839, 0x1183A, 1); (0x1193B, 0x1193C, 1);
   (0x1193E, 0x1193E, 1); (0x11943, 0x11943, 1); (0x119D4, 0x119D7, 1);
   (0x119DA, 0x119DB, 1); (0x119E0, 0x119E0, 1); (0x11A01, 0x11A0A, 1);
   (0x11A33, 0x11A38, 1); (0x11A3B, 0x11A3E, 1); (0x11A47, 0x11A47, 1);
   (0x11A51, 0x11A56, 1); (0x11A59, 0x11A5B, 1); (0x11A8A, 0x11A96, 1);
   (0x11A98, 0x11A99, 1); (0x11C30, 0x11C36, 1); (0x11C38, 0x11C3D, 1);
   (0x11C3F, 0x11C3F, 1); (0x11C92, 0x11CA7, 1); (0x11CAA, 0x11CB0, 1);
   (0x11CB2, 0x11CB3, 1); (0x11CB5, 0x11CB6, 1); (0x11D31, 0x11D36, 1);
   (0x11D3A, 0x11D3C, 2); (0x11D3D, 0x11D47, 2); (0x11D40, 0x11D44, 2);
   (0x11D90, 0x11D91, 1); (0x11D95, 0x11D97, 2); (0x11EF3, 0x11EF4, 1);
   (0x13430, 0x13438, 1); (0x16AF0, 0x16AF4, 1); (0x16B30, 0x16B36, 1);
   (0x16B40, 0x16B43, 1); (0x16F4F, 0x16F4F, 1); (0x16F8F, 0x16F9F, 1);
   (0x16FE0, 0x16FE1, 1); (0x16FE3, 0x16FE4, 1); (0x1AFF0, 0x1AFF3, 1);
   (0x1AFF5, 0x1AFFB, 1); (0x1AFFD, 0x1AFFE, 1); (0x1BC9D, 0x1BC9E, 1);
   (0x1BCA0, 0x1BCA3, 1); (0x1CF00, 0x1CF2D, 1); (0x1CF30, 0x1CF46, 1);
   (0x1D167, 0x1D169, 1); (0x1D173, 0x1D182, 1); (0x1D185, 0x1D18B, 1);
   (0x1D1AA, 0x1D1AD, 1); (0x1D242, 0x1D244, 1); (0x1DA00, 0x1DA36, 1);
   (0x1DA3B, 0x1DA6C, 1); (0x1DA75, 0x1DA75, 1); (0x1DA84, 0x1DA84, 1);
   (0x1DA9B, 0x1DAAF, 2); (0x1DA9C, 0x1DA9E, 2); (0x1DAA2, 0x1DAAE, 2);
   (0x1E000, 0x1E018, 2); (0x1E001, 0x1E005, 2); (0x1E009, 0x1E017, 2);
   (0x1E01B, 0x1E021, 1); (0x1E023, 0x1E024, 1); (0x1E026, 0x1E02A, 1);
   (0x1E130, 0x1E13D, 1); (0x1E2AE, 0x1E2AE, 1); (0x1E2EC, 0x1E2EF, 1);
   (0x1E8D0, 0x1E8D6, 1); (0x1E944, 0x1E94B, 1); (0x1F3FB, 0x1F3FF, 1);
   (0xE0001, 0xE0001, 1); (0xE0020, 0xE007F, 1); (0xE0100, 0xE01EF, 1)].

Definition is_upper (c : N) : bool := in_runs c uppercase_runs.

Definition is_cased (c : N) : bool := in_runs c cased_runs.

Definition is_case_ignorable (c : N) : bool := in_runs c case_ignorable_runs.

(** The code points of such runs, each with its image. *)
Definition expand (runs : list (N * N * N * N)) : list (N * N) :=
  flat_map
    (fun r =>
       let '(first, last, step, image) := r in
       map (fun i => let d := N.of_nat i * step in (first + d, image + d))
         (seq 0 (S (N.to_nat ((last - first) / step)))))
    runs.

Definition lower_pairs : list (N * N) := Eval vm_compute in expand lower_runs.

(** The lowercase mapping of one code point; U+0130 alone has two code
    points as its image. *)
Definition to_lower (c : N) : list N :=
  if c =? 0x130 then [0x69; 0x307]
  else match find (fun p => fst p =? c) lower_pairs with
       | Some p => [snd p]
       | None => [c]
       end.

(** Whether the first code point of [s] that is not case-ignorable is
    cased. *)
Fixpoint cased_follows (s : str) : bool :=
  match s with
  | [] => false
  | c :: s' => if is_case_ignorable c then cased_follows s' else is_cased c
  end.

(** [s.lower()] for the rest [s] of a string; [after_cased] tells whether
    the nearest code point before [s] that is not case-ignorable is cased.
    U+03A3 becomes the final sigma U+03C2 when it ends a word: after a
    cased code point and not before one. *)
Fixpoint lower_from (after_cased : bool) (s : str) : str :=
  match s with
  | [] => []
  | c :: s' =>
      ((if c =? 0x3A3
        then [if after_cased && negb (cased_follows s') then 0x3C2 else 0x3C3]
        else to_lower c)
       ++ lower_from (if is_case_ignorable c then after_cased else is_cased c)
            s')%list
  end.

(** [s.lower()] *)
Definition lower (s : str) : str := lower_from false s.

Fixpoint starts_with (needle hay : str) : bool :=
  match needle, hay with
  | [], _ => true
  | _ :: _, [] => false
  | a :: needle', b :: hay' => (a =? b) && starts_with needle' hay'
  end.

(** [needle in hay] for two strings. *)
Fixpoint contains (needle hay : str) : bool :=
  starts_with needle hay
  || match hay with
     | [] => false
     | _ :: hay' => contains needle hay'
     end.

(** [chr(c).lower() != chr(c)] *)
Definition lower_changes (c : N) : bool :=
  match lower [c] with
  | [c'] => negb (c' =? c)
  | _ => true
  end.

(** A string of code points below 256. *)
Definition of_latin1 (s : string) : str :=
  map N_of_ascii (list_ascii_of_string s).

End PyUnicode.

(** Line 338 of [process_post] for a keyword and a description of any
    code points: [keyword not in meta_description.lower()]. *)
Definition lacks_keyword (keyword meta_description : PyUnicode.str) : bool :=
  negb (PyUnicode.contains keyword (PyUnicode.lower meta_description)).

(** ** Python values and exceptions *)

(** The values that [response.json()] and [json.loads] produce; numbers
    are integers. *)
Inductive value : Type :=
| VNone
| VBool (b : bool)
| VInt (n : Z)
| VStr (s : string)
| VList (items : list value)
| VDict (fields : list (string * value)).

(** The exceptions the script can meet.  [RemoteError] is whatever a
    library call raises (connection failure, blocked response, invalid
    JSON). *)
Inductive exn : Type :=
| KeyError (key : string)
| IndexError
| TypeError
| AttributeError
| RemoteError (msg : string).

Inductive result (A : Type) : Type :=
| Ok (a : A)
| Raise (e : exn).
Arguments Ok {A} a.
Arguments Raise {A} e.

Module Py.

Definition bind {A B} (r : result A) (k : A -> result B) : result B :=
  match r with
  | Ok a => k a
  | Raise e => Raise e
  end.

(** [try: r except: handler] for an operation without effects. *)
Definition try_except {A} (r : result A) (handler : exn -> result A)
    : result A :=
  match r with
  | Ok a => Ok a
  | Raise e => handler e
  end.

(** An insertion-ordered [dict] with [str] keys. *)
Definition dict := list (string * value).

Fixpoint dict_get (key : string) (d : dict) : option value :=
  match d with
  | [] => None
  | (k, v) :: d' => if String.eqb k key then Some v else dict_get key d'
  end.

(** [d[key] = v]: an existing key keeps its place. *)
Fixpoint dict_set (key : string) (v : value) (d : dict) : dict :=
  match d with
  | [] => [(key, v)]
  | (k, w) :: d' =>
      if String.eqb k key then (k, v) :: d' else (k, w) :: dict_set key v d'
  end.

(** [bool(v)] *)
Definition truthy (v : value) : bool :=
  match v with
  | VNone => false
  | VBool b => b
  | VInt n => negb (n =? 0)%Z
  | VStr s => negb (String.eqb s "")
  | VList items => match items with [] => false | _ => true end
  | VDict fields => match fields with [] => false | _ => true end
  end.

(** [key in v] for a [str] key: substring, element or key membership. *)
Definition str_in (key : string) (v : value) : result bool :=
  match v with
  | VStr s => Ok (PyStr.contains key s)
  | VList items =>
      Ok (existsb (fun x => match x with
                            | VStr s => String.eqb s key
                            | _ => false
                            end) items)
  | VDict fields =>
      Ok (match dict_get key fields with Some _ => true | None => false end)
  | VNone | VBool _ | VInt _ => Raise TypeError
  end.

(** [x in s] where [s] is a [str]: [x] must be a [str] too. *)
Definition in_str (x : value) (s : string) : result bool :=
  match x with
  | VStr k => Ok (PyStr.contains k s)
  | _ => Raise TypeError
  end.

(** [v[key]] for a [str] key. *)
Definition getitem (v : value) (key : string) : result value :=
  match v with
  | VDict fields =>
      match dict_get key fields with
      | Some x => Ok x
      | None => Raise (KeyError key)
      end
  | _ => Raise TypeError
  end.

(** [v[key] = x] for a [str] key, giving the updated object. *)
Definition setitem (v : value) (key : string) (x : value) : result value :=
  match v with
  | VDict fields => Ok (VDict (dict_set key x fields))
  | _ => Raise TypeError
  end.

(** [v.get(key, default)] *)
Definition get (v : value) (key : string) (default : value) : result value :=
  match v with
  | VDict fields =>
      Ok (match dict_get key fields with Some x => x | None => default end)
  | _ => Raise AttributeError
  end.

(** The receiver of a [str] method such as [v.lower()]. *)
Definition str_method (v : value) : result string :=
  match v with
  | VStr s => Ok s
  | _ => Raise AttributeError
  end.

(** [keyword.lower() not in text.lower()] *)
Definition lacks (keyword text : value) : result bool :=
  bind (str_method keyword) (fun k =>
  bind (str_method text) (fun t =>
  Ok (negb (PyStr.contains (PyStr.lower k) (PyStr.lower t))))).

(** The subject of [re.sub(pattern, repl, v)]. *)
Definition re_subject (v : value) : result string :=
  match v with
  | VStr s => Ok s
  | _ => Raise TypeError
  end.

(** The elements [list.extend(v)] appends. *)
Definition iter (v : value) : result (list value) :=
  match v with
  | VList items => Ok items
  | VDict fields => Ok (map (fun kv => VStr (fst kv)) fields)
  | VStr s =>
      Ok (map (fun c => VStr (String c EmptyString)) (list_ascii_of_string s))
  | VNone | VBool _ | VInt _ => Raise TypeError
  end.

(** [len(v)] *)
Definition len (v : value) : result Z :=
  match v with
  | VList items => Ok (Z.of_nat (List.length items))
  | VDict fields => Ok (Z.of_nat (List.length fields))
  | VStr s => Ok (Z.of_nat (String.length s))
  | VNone | VBool _ | VInt _ => Raise TypeError
  end.

End Py.

(** ** The remote services *)

(** What a prompt interpolates into its fixed template. *)
Inductive prompt : Type :=
| Prompt_meta_description (sample_content : string) (keyword : value)
| Prompt_keyword (title : value) (sample_content : string)
| Prompt_title (keyword title : string)
| Prompt_paragraph (keyword first_para_clean : string).

(** The three requests the script sends to the content API. *)
Inductive http_request : Type :=
| Get_posts (per_page page : Z)
| Get_post_edit (post_id : value)
| Post_post (post_id : value) (data : value).

Inductive call : Type :=
| Http (r : http_request)
| Gemini (p : prompt).

Record response : Type := {
  status_code : Z;
  text : string;
  json : result value
}.

(** The text of a log line, as its template and interpolated values. *)
Inductive message : Type :=
| No_keyword_found
| Generated_keyword (keyword : value)
| Updated_rank_math_keyword
| Failed_to_update_rank_math_keyword
| No_meta_description_found
| Generated_meta_description (meta_description : value)
| Meta_description_lacks_keyword (keyword : value)
| Updated_meta_description (meta_description : value)
| Updated_title (new_title : string)
| Updated_first_paragraph
| Successfully_updated_post
| Failed_to_update_post (status : Z) (body : string)
| Error_updating_post (e : exn)
| Error_processing_post (e : exn).

Record ReportEntry : Type := {
  post_id : value;
  post_slug : value;
  original_title : value;
  updated_title : value;
  meta_description_added : bool;
  keyword_added : bool
}.

(** The optimizer object and what it has done: the remote calls made so
    far, [self.log_data], [self.report_data], and the [report_entry] dict of
    the running [process_post]. *)
Record state : Type := {
  calls : list call;
  log_data : list (value * message);
  report_data : list ReportEntry;
  report_entry : ReportEntry
}.

Definition empty_entry : ReportEntry :=
  {| post_id := VNone; post_slug := VNone; original_title := VNone;
     updated_title := VNone; meta_description_added := false;
     keyword_added := false |}.

Definition initial_state : state :=
  {| calls := []; log_data := []; report_data := [];
     report_entry := empty_entry |}.

(** ** Computations: state passing with Python exceptions *)

Definition M (A : Type) : Type := state -> result A * state.

Definition ret {A} (a : A) : M A := fun s => (Ok a, s).

Definition raise {A} (e : exn) : M A := fun s => (Raise e, s).

Definition bind {A B} (m : M A) (k : A -> M B) : M B :=
  fun s =>
    match m s with
    | (Ok a, s') => k a s'
    | (Raise e, s') => (Raise e, s')
    end.

(** A pure Python operation that may raise. *)
Definition lift {A} (r : result A) : M A := fun s => (r, s).

(** [try: body except Exception as e: handler] *)
Definition try_except {A} (body : M A) (handler : exn -> M A) : M A :=
  fun s =>
    match body s with
    | (Ok a, s') => (Ok a, s')
    | (Raise e, s') => handler e s'
    end.

Declare Scope py_scope.
Delimit Scope py_scope with py.
Notation "x <- m ;; k" := (bind m (fun x => k))
  (at level 100, m at next level, right associativity) : py_scope.
Notation "m ;; k" := (bind m (fun _ => k))
  (at level 100, right associativity) : py_scope.
Notation "x <~ r ;; k" := (Py.bind r (fun x => k))
  (at level 100, r at next level, right associativity) : py_scope.
Local Open Scope py_scope.

Definition record_call (c : call) (s : state) : state :=
  {| calls := calls s ++ [c]; log_data := log_data s;
     report_data := report_data s; report_entry := report_entry s |}.

(** [self.log(post_id, message)] *)
Definition log (post_id : value) (msg : message) : M unit :=
  fun s =>
    (Ok tt,
     {| calls := calls s; log_data := log_data s ++ [(post_id, msg)];
        report_data := report_data s; report_entry := report_entry s |}).

Definition get_entry : M ReportEntry := fun s => (Ok (report_entry s), s).

Definition set_entry (e : ReportEntry) : M unit :=
  fun s =>
    (Ok tt,
     {| calls := calls s; log_data := log_data s;
        report_data := report_data s; report_entry := e |}).

(** [report_entry["updated_title"] = new_title] *)
Definition set_updated_title (new_title : value) : M unit :=
  e <- get_entry ;;
  set_entry {| post_id := post_id e; post_slug := post_slug e;
               original_title := original_title e;
               updated_title := new_title;
               meta_description_added := meta_description_added e;
               keyword_added := keyword_added e |}.

(** [report_entry["meta_description_added"] = True] *)
Definition set_meta_description_added : M unit :=
  e <- get_entry ;;
  set_entry {| post_id := post_id e; post_slug := post_slug e;
               original_title := original_title e;
               updated_title := updated_title e;
               meta_description_added := true;
               keyword_added := keyword_added e |}.

(** [report_entry["keyword_added"] = True] *)
Definition set_keyword_added : M unit :=
  e <- get_entry ;;
  set_entry {| post_id := post_id e; post_slug := post_slug e;
               original_title := original_title e;
               updated_title := updated_title e;
               meta_description_added := meta_description_added e;
               keyword_added := true |}.

(** [self.report_data.append(report_entry)] *)
Definition append_report : M unit :=
  fun s =>
    (Ok tt,
     {| calls := calls s; log_data := log_data s;
        report_data := report_data s ++ [report_entry s];
        report_entry := report_entry s |}).

(** [per_page = 100] and the default of [max_length]. *)
Definition per_page : Z := 100.
Definition max_length_default : Z := 160.
Definition sample_length : nat := 1500.

(** A post as [process_post] needs it: the four fields read before the
    [try] block are there. *)
Definition content_item (post : value) : bool :=
  match post with
  | VDict fields =>
      match Py.dict_get "id" fields, Py.dict_get "title" fields,
            Py.dict_get "content" fields, Py.dict_get "slug" fields with
      | Some _, Some (VDict title), Some (VDict content), Some _ =>
          match Py.dict_get "rendered" title,
                Py.dict_get "rendered" content with
          | Some _, Some _ => true
          | _, _ => false
          end
      | _, _, _, _ => false
      end
  | _ => false
  end.

(** ** What a computation leaves behind *)

(** [s'] comes after [s]: at most [n] more calls, some more log lines,
    and the same post in the running report entry. *)
Definition extends (n : nat) (s s' : state) : Prop :=
  (exists extra,
      calls s' = (calls s ++ extra)%list /\ List.length extra <= n)
  /\ (exists lines, log_data s' = (log_data s ++ lines)%list)
  /\ post_id (report_entry s') = post_id (report_entry s)
  /\ post_slug (report_entry s') = post_slug (report_entry s)
  /\ original_title (report_entry s') = original_title (report_entry s).

Definition is_ok {A} (r : result A) : bool :=
  match r with
  | Ok _ => true
  | Raise _ => false
  end.

(** A computation that makes at most [n] calls and keeps the post of the
    running entry; it leaves [self.report_data] alone or, when [rows] is
    set and it returns, ends by appending the running entry to it. *)
Definition frame (n : nat) (rows : bool) {A} (m : M A) : Prop :=
  forall s,
    extends n s (snd (m s))
    /\ report_data (snd (m s))
       = if rows && is_ok (fst (m s))
         then (report_data s ++ [report_entry (snd (m s))])%list
         else report_data s.

(** A computation that leaves one component of the state as it is. *)
Definition keeps {F A} (proj : state -> F) (m : M A) : Prop :=
  forall s, proj (snd (m s)) = proj s.

(** The [dict] that lines 373-375 of [process_post] write the description
    into: the bag that was read, or an empty one. *)
Definition bag_of (rank_math_data : value) : Py.dict :=
  match rank_math_data with
  | VDict bag => bag
  | _ => []
  end.



(** A computation all of whose calls satisfy [P]. *)
Definition sends (P : call -> Prop) {A} (m : M A) : Prop :=
  forall s,
    exists extra,
      calls (snd (m s)) = (calls s ++ extra)%list /\ Forall P extra.

(** A call made for [post]: a request to the text generator, or a read or
    an update of this very post at the content API. *)
Definition call_for (post : value) (c : call) : Prop :=
  match c with
  | Http (Get_post_edit id) | Http (Post_post id _) =>
      Py.getitem post "id" = Ok id
  | Http (Get_posts _ _) => False
  | Gemini _ => True
  end.

(** A report row for [post]: it carries the post's id, slug and title. *)
Definition row_for (post : value) (row : ReportEntry) : Prop :=
  Py.getitem post "id" = Ok (post_id row)
  /\ Py.getitem post "slug" = Ok (post_slug row)
  /\ exists title,
       Py.getitem post "title" = Ok title
       /\ Py.getitem title "rendered" = Ok (original_title row).

(** What the loop of [run] may leave behind for one post: the report rows
    it adds and the calls it makes. *)
Definition post_step (post : value) (step : list ReportEntry * list call)
    : Prop :=
  (fst step = [] \/ exists row, fst step = [row] /\ row_for post row)
  /\ List.length (snd step) <= 8
  /\ Forall (call_for post) (snd step).

(** [s.rstrip('/')] *)
Fixpoint rstrip_slash (s : string) : string :=
  match s with
  | EmptyString => EmptyString
  | String c s' =>
      match rstrip_slash s' with
      | EmptyString =>
          if Ascii.eqb c "/" then EmptyString else String c EmptyString
      | r => String c r
      end
  end.

(** [self.base_url] and [self.api_url] of [__init__], lines 22-23. *)
Definition base_url_of (base_url : string) : string := rstrip_slash base_url.

Definition api_url_of (base_url : string) : string :=
  base_url_of base_url ++ "/wp-json/wp/v2".

Fixpoint slashes (n : nat) : string :=
  match n with
  | O => EmptyString
  | S n' => String "/" (slashes n')
  end.

(** ** Stand-ins for the examples *)

(** An encoder in the manner of [json.dumps], for values whose strings
    need no escaping. *)
Fixpoint demo_dumps (v : value) : string :=
  let quote s := String (ascii_of_nat 34) (s ++ String (ascii_of_nat 34) "") in
  match v with
  | VNone => "null"
  | VBool true => "true"
  | VBool false => "false"
  | VInt n => NilZero.string_of_int (Z.to_int n)
  | VStr s => quote s
  | VList items =>
      "["
      ++ (fix go (l : list value) : string :=
            match l with
            | [] => ""
            | [x] => demo_dumps x
            | x :: l' => demo_dumps x ++ ", " ++ go l'
            end) items
      ++ "]"
  | VDict fields =>
      "{"
      ++ (fix go (l : list (string * value)) : string :=
            match l with
            | [] => ""
            | [(k, x)] => quote k ++ ": " ++ demo_dumps x
            | (k, x) :: l' => quote k ++ ": " ++ demo_dumps x ++ ", " ++ go l'
            end) fields
      ++ "}"
  end.

(** A decoder that knows no encoded bag. *)
Definition demo_loads (encoded : string) : result value :=
  Raise (RemoteError "Expecting value").

(** Content without character references. *)
Definition demo_unescape (s : string) : string := s.

(** A post that already has its keyword everywhere: in the Rank Math
    description, in the title and in the body. *)
Definition widget_post : value :=
  VDict [("id", VInt 7);
         ("slug", VStr "blue-widgets");
         ("title", VDict [("rendered", VStr "Blue Widgets for Beginners")]);
         ("content",
          VDict [("rendered", VStr "<p>All about blue widgets.</p>")])].

Definition widget_bag : Py.dict :=
  [("description", VStr "learn how blue widgets work");
   ("focus_keyword", VStr "blue widgets")].

(** A content API that holds [widget_bag] for every post and accepts every
    update; its listing is empty. *)
Definition widget_requests (history : list call) (r : http_request)
    : result response :=
  match r with
  | Get_posts _ _ =>
      Ok {| status_code := 200; text := "[]"; json := Ok (VList []) |}
  | Get_post_edit _ =>
      Ok {| status_code := 200; text := "";
            json := Ok (VDict [("meta",
                                VDict [("rank_math_data", VDict widget_bag)])]) |}
  | Post_post _ _ =>
      Ok {| status_code := 200; text := ""; json := Ok (VDict []) |}
  end.

(** A text generator that is down. *)
Definition no_generate (history : list call) (p : prompt) : result string :=
  Raise (RemoteError "backend unavailable").

(** A text generator with a long answer and one with a labelled answer. *)
Definition long_text : string :=
  "  Discover how blue widgets are designed, built and tested, which models suit beginners best, what they cost, where to buy them, and how to keep yours running smoothly for many years.  ".

Definition long_generate (history : list call) (p : prompt) : result string :=
  Ok long_text.

Definition label_generate (history : list call) (p : prompt) : result string :=
  Ok "Keyword: vintage cameras ".

(** A post whose Yoast field is a number. *)
Definition odd_post : value :=
  VDict [("id", VInt 8);
         ("slug", VStr "odd");
         ("title", VDict [("rendered", VStr "Odd")]);
         ("content", VDict [("rendered", VStr "<p>Odd.</p>")]);
         ("yoast_head_json", VInt 5)].

Definition listed_post (n : Z) : value :=
  VDict [("id", VInt n)].

Definition full_batch : list value := repeat (listed_post 1) 100.
Definition last_batch : list value := [listed_post 2; listed_post 3].

(** A content API whose listing has a full first page and a short second
    one. *)
Definition paged_requests (history : list call) (r : http_request)
    : result response :=
  match r with
  | Get_posts _ 1 =>
      Ok {| status_code := 200; text := ""; json := Ok (VList full_batch) |}
  | Get_posts _ _ =>
      Ok {| status_code := 200; text := ""; json := Ok (VList last_batch) |}
  | _ => Raise (RemoteError "connection refused")
  end.

(** A post without keyword and description, a content API that holds no
    bag for it and accepts every update, and a text generator that answers
    each kind of prompt. *)
Definition fresh_post : value :=
  VDict [("id", VInt 11);
         ("slug", VStr "old-film-gear");
         ("title", VDict [("rendered", VStr "Collecting Old Film Gear")]);
         ("content",
          VDict [("rendered",
                  VStr "<p>Film gear of the last century is fun to collect.</p>")])].

Definition fresh_requests (history : list call) (r : http_request)
    : result response :=
  match r with
  | Get_posts _ _ =>
      Ok {| status_code := 200; text := ""; json := Ok (VList [fresh_post]) |}
  | Get_post_edit _ =>
      Ok {| status_code := 200; text := "";
            json := Ok (VDict [("id", VInt 11); ("meta", VDict [])]) |}
  | Post_post _ _ =>
      Ok {| status_code := 200; text := ""; json := Ok (VDict []) |}
  end.

Definition fresh_generate (history : list call) (p : prompt) : result string :=
  match p with
  | Prompt_keyword _ _ => Ok "vintage cameras"
  | Prompt_meta_description _ _ =>
      Ok "Explore the world of vintage cameras."
  | Prompt_title _ _ => Ok "Collecting Vintage Cameras and Old Film Gear"
  | Prompt_paragraph _ _ =>
      Ok "Vintage cameras and film gear of the last century are fun to collect."
  end.

(** A content API that holds [widget_bag] in its encoded form, and a
    decoder that knows that one encoding. *)
Definition encoded_requests (history : list call) (r : http_request)
    : result response :=
  match r with
  | Get_post_edit _ =>
      Ok {| status_code := 200; text := "";
            json := Ok (VDict [("id", VInt 7);
                               ("meta",
                                VDict [("rank_math_data",
                                        VStr (demo_dumps (VDict widget_bag)))])]) |}
  | _ => Raise (RemoteError "connection refused")
  end.

Definition widget_loads (encoded : string) : result value :=
  if String.eqb encoded (demo_dumps (VDict widget_bag))
  then Ok (VDict widget_bag)
  else Raise (RemoteError "Expecting value").

(** A content API whose connection breaks after the first page. *)
Definition failing_requests (history : list call) (r : http_request)
    : result response :=
  match r with
  | Get_posts _ 1 =>
      Ok {| status_code := 200; text := ""; json := Ok (VList full_batch) |}
  | _ => Raise (RemoteError "connection reset")
  end.

(** A text generator that gives one paragraph back. *)
Definition echo_generate (history : list call) (p : prompt) : result string :=
  Ok " Plain words about gardens. ".

(** A post of a type without titles. *)
Definition untitled_post : value :=
  VDict [("id", VInt 9);
         ("slug", VStr "untitled");
         ("content", VDict [("rendered", VStr "<p>Body.</p>")])].

(** ** The optimizer *)

Section Optimizer.

(** Library functions the script calls. *)
Variable json_dumps : value -> string.
Variable json_loads : string -> result value.
Variable html_unescape : string -> string.

(** The content API: the outcome of [requests.get] / [requests.post] after
    the calls made so far. *)
Variable requests : list call -> http_request -> result response.

(** The text generator: [generate_content(prompt).text] after the calls
    made so far. *)
Variable generate_content : list call -> prompt -> result string.

Definition requests_send (r : http_request) : M response :=
  fun s => (requests (calls s) r, record_call (Http r) s).

Definition gemini_generate (p : prompt) : M string :=
  fun s => (generate_content (calls s) p, record_call (Gemini p) s).

(** [while True:] of [get_all_published_posts], lines 47-71; [None] when
    the fuel runs out before the loop breaks. *)
Fixpoint get_all_published_posts_loop (fuel : nat) (posts : list value)
    (page : Z) : M (option (list value)) :=
  match fuel with
  | O => ret None
  | S fuel' =>
      response <- requests_send (Get_posts per_page page) ;;
      if negb (status_code response =? 200)%Z then ret (Some posts)
      else
        batch <- lift (json response) ;;
        if negb (Py.truthy batch) then ret (Some posts)
        else
          items <- lift (Py.iter batch) ;;
          let posts := (posts ++ items)%list in
          let page := (page + 1)%Z in
          n <- lift (Py.len batch) ;;
          if (n <? per_page)%Z then ret (Some posts)
          else get_all_published_posts_loop fuel' posts page
  end.

(** [get_all_published_posts], lines 41-74 *)
Definition get_all_published_posts (fuel : nat) : M (option (list value)) :=
  get_all_published_posts_loop fuel [] 1%Z.

(** Lines 78-83 and 117-122: the cleaned, truncated content sample. *)
Definition sample_text (content : string) : string :=
  let clean_content := PyStr.strip_tags content in
  let clean_content := html_unescape clean_content in
  PyStr.take sample_length clean_content.

Definition sample_of (content : value) : result string :=
  c <~ Py.re_subject content ;;
  Ok (sample_text c).

(** The prompt of [generate_meta_description], lines 85-100. *)
Definition meta_description_prompt (sample_content : string)
    (keyword : value) : prompt :=
  Prompt_meta_description sample_content
    (if Py.truthy keyword then keyword
     else VStr "[generate appropriate keyword]").

(** [generate_meta_description], lines 76-113 *)
Definition generate_meta_description (content keyword : value)
    (max_length : Z) : M value :=
  sample_content <- lift (sample_of content) ;;
  let prompt := meta_description_prompt sample_content keyword in
  try_except
    (response_text <- gemini_generate prompt ;;
     let meta_description := PyStr.strip response_text in
     let meta_description :=
       if (Z.of_nat (String.length meta_description) >? max_length)%Z
       then PyStr.slice_to (max_length - 3) meta_description ++ "..."
       else meta_description in
     ret (VStr meta_description))
    (fun _ => ret VNone).

(** [generate_keyword], lines 115-147 *)
Definition generate_keyword (content title : value) : M value :=
  sample_content <- lift (sample_of content) ;;
  let prompt := Prompt_keyword title sample_content in
  try_except
    (response_text <- gemini_generate prompt ;;
     let keyword := PyStr.strip response_text in
     if PyStr.contains ":" keyword then
       match nth_error (PyStr.split1 ":" keyword) 1 with
       | Some rest => ret (VStr (PyStr.strip rest))
       | None => raise IndexError
       end
     else ret (VStr keyword))
    (fun _ => ret VNone).

(** [update_post_title], lines 149-177 *)
Definition update_post_title (title keyword : string) : M string :=
  if PyStr.contains (PyStr.lower keyword) (PyStr.lower title) then ret title
  else
    try_except
      (response_text <- gemini_generate (Prompt_title keyword title) ;;
       let new_title := PyStr.strip response_text in
       if negb (PyStr.contains (PyStr.lower keyword) (PyStr.lower new_title))
       then ret title
       else ret new_title)
      (fun _ => ret title).

(** [update_first_paragraph], lines 179-214 *)
Definition update_first_paragraph (content keyword : string) : M string :=
  match PyStr.search_first_paragraph content with
  | None => ret content
  | Some first_para =>
      let first_para_clean := PyStr.strip_tags first_para in
      if PyStr.contains (PyStr.lower keyword) (PyStr.lower first_para_clean)
      then ret content
      else
        try_except
          (response_text <-
             gemini_generate (Prompt_paragraph keyword first_para_clean) ;;
           let new_para := PyStr.strip response_text in
           let updated_content := PyStr.replace first_para new_para content in
           ret updated_content)
          (fun _ => ret content)
  end.

(** Lines 230-239 of [get_rank_math_data]: the bag inside [post_data]. *)
Definition rank_math_of (post_data : value) : result value :=
  has_meta <~ Py.str_in "meta" post_data ;;
  has_bag <~
    (if has_meta then
       meta <~ Py.getitem post_data "meta" ;;
       Py.str_in "rank_math_data" meta
     else Ok false) ;;
  if has_bag then
    Py.try_except
      (meta <~ Py.getitem post_data "meta" ;;
       raw <~ Py.getitem meta "rank_math_data" ;;
       match raw with
       | VStr encoded => json_loads encoded
       | _ => Ok raw
       end)
      (fun _ => Ok VNone)
  else Ok VNone.

(** [get_rank_math_data], lines 216-244 *)
Definition get_rank_math_data (post_id : value) : M value :=
  try_except
    (response <- requests_send (Get_post_edit post_id) ;;
     if negb (status_code response =? 200)%Z then ret VNone
     else
       post_data <- lift (json response) ;;
       lift (rank_math_of post_data))
    (fun _ => ret VNone).

(** What [update_rank_math_keyword] and [process_post] send under [meta]
    for a bag: the bag encoded by [json.dumps], under [rank_math_data]. *)
Definition meta_payload (rank_math_data : value) : value :=
  VDict [("rank_math_data", VStr (json_dumps rank_math_data))].

(** [update_rank_math_keyword], lines 246-272 *)
Definition update_rank_math_keyword (post_id keyword : value) : M bool :=
  try_except
    (rank_math_data <- get_rank_math_data post_id ;;
     let rank_math_data :=
       match rank_math_data with
       | VNone => VDict []
       | _ => rank_math_data
       end in
     rank_math_data <- lift (Py.setitem rank_math_data "focus_keyword" keyword) ;;
     response <-
       requests_send
         (Post_post post_id (VDict [("meta", meta_payload rank_math_data)])) ;;
     ret (status_code response =? 200)%Z)
    (fun _ => ret false).

(** Lines 292-300 of [process_post]: the Yoast description, giving
    [(meta_description, meta_description_exists)]. *)
Definition read_yoast (post : value) : result (value * bool) :=
  has_yoast <~ Py.str_in "yoast_head_json" post ;;
  if has_yoast then
    yoast <~ Py.getitem post "yoast_head_json" ;;
    if Py.truthy yoast then
      has_description <~ Py.str_in "description" yoast ;;
      if has_description then
        meta_description <~ Py.getitem yoast "description" ;;
        Ok (meta_description, Py.truthy meta_description)
      else Ok (VNone, false)
    else Ok (VNone, false)
  else Ok (VNone, false).

(** Lines 304-312: what the Rank Math bag adds, giving
    [(meta_description, meta_description_exists, keyword, keyword_exists)]. *)
Definition read_rank_math (rank_math_data meta_description : value)
    (meta_description_exists : bool) : result (value * bool * value * bool) :=
  if Py.truthy rank_math_data then
    use_bag <~ (if negb meta_description_exists
                then Py.str_in "description" rank_math_data
                else Ok false) ;;
    found <~ (if use_bag then
                d <~ Py.get rank_math_data "description" (VStr "") ;;
                Ok (d, Py.truthy d)
              else Ok (meta_description, meta_description_exists)) ;;
    keyword <~ Py.get rank_math_data "focus_keyword" (VStr "") ;;
    Ok (fst found, snd found, keyword, Py.truthy keyword)
  else Ok (meta_description, meta_description_exists, VNone, false).

(** Lines 314-328: generate and store a keyword when none exists, giving
    [(keyword, keyword_exists)]. *)
Definition ensure_keyword (post_id post_title post_content keyword : value)
    (keyword_exists : bool) : M (value * bool) :=
  if negb keyword_exists then
    log post_id No_keyword_found ;;
    keyword <- generate_keyword post_content post_title ;;
    if Py.truthy keyword then
      log post_id (Generated_keyword keyword) ;;
      updated <- update_rank_math_keyword post_id keyword ;;
      if updated then
        log post_id Updated_rank_math_keyword ;;
        set_keyword_added ;;
        ret (keyword, true)
      else
        log post_id Failed_to_update_rank_math_keyword ;;
        ret (keyword, keyword_exists)
    else ret (keyword, keyword_exists)
  else ret (keyword, keyword_exists).

(** Lines 333-337 and 341-345: generate a description and flag it. *)
Definition write_meta_description (post_id post_content keyword : value)
    (announce : value -> message) : M value :=
  meta_description <-
    generate_meta_description post_content keyword max_length_default ;;
  if Py.truthy meta_description then
    log post_id (announce meta_description) ;;
    set_meta_description_added ;;
    ret meta_description
  else ret meta_description.

(** Lines 330-345: the description step, giving [meta_description]. *)
Definition ensure_meta_description (post_id post_content meta_description : value)
    (meta_description_exists : bool) (keyword : value) (keyword_exists : bool)
    : M value :=
  if negb meta_description_exists then
    log post_id No_meta_description_found ;;
    write_meta_description post_id post_content keyword
      Generated_meta_description
  else
    lacks_keyword <-
      (if keyword_exists then
         lift (d <~ Py.str_method meta_description ;;
               found <~ Py.in_str keyword (PyStr.lower d) ;;
               Ok (negb found))
       else ret false) ;;
    if lacks_keyword then
      log post_id (Meta_description_lacks_keyword keyword) ;;
      write_meta_description post_id post_content keyword
        Updated_meta_description
    else ret meta_description.

(** Lines 347-379: the title and first-paragraph edits and the update
    payload, giving [(update_data, updates_needed)]. *)
Definition prepare_update (post_id post_title post_content
    meta_description keyword : value) (keyword_exists : bool)
    (rank_math_data : value) : M (Py.dict * bool) :=
  entry <- get_entry ;;
  let updates_needed := keyword_added entry || meta_description_added entry in
  title_lacks <-
    (if keyword_exists then lift (Py.lacks keyword post_title)
     else ret false) ;;
  updates_needed <-
    (if title_lacks then
       match post_title, keyword with
       | VStr title, VStr k =>
           new_title <- update_post_title title k ;;
           if negb (String.eqb new_title title) then
             log post_id (Updated_title new_title) ;;
             set_updated_title (VStr new_title) ;;
             ret true
           else ret updates_needed
       | _, _ => raise AttributeError
       end
     else ret updates_needed) ;;
  let update_data : Py.dict := [] in
  entry <- get_entry ;;
  let update_data :=
    if Py.truthy (updated_title entry)
    then Py.dict_set "title" (updated_title entry) update_data
    else update_data in
  content_lacks <-
    (if keyword_exists then lift (Py.lacks keyword post_content)
     else ret false) ;;
  update_data <-
    (if content_lacks then
       match post_content, keyword with
       | VStr content, VStr k =>
           new_content <- update_first_paragraph content k ;;
           if negb (String.eqb new_content content) then
             log post_id Updated_first_paragraph ;;
             ret (Py.dict_set "content" (VStr new_content) update_data)
           else ret update_data
       | _, _ => raise AttributeError
       end
     else ret update_data) ;;
  update_data <-
    (if Py.truthy meta_description then
       let rank_math_data :=
         if negb (Py.truthy rank_math_data) then VDict []
         else rank_math_data in
       rank_math_data <-
         lift (Py.setitem rank_math_data "description" meta_description) ;;
       ret (Py.dict_set "meta" (meta_payload rank_math_data) update_data)
     else ret update_data) ;;
  ret (update_data, updates_needed).

(** Lines 381-395: send the payload when it is not empty. *)
Definition submit_update (post_id : value) (update_data : Py.dict) : M unit :=
  match update_data with
  | [] => ret tt
  | _ =>
      try_except
        (response <- requests_send (Post_post post_id (VDict update_data)) ;;
         if (status_code response =? 200)%Z
         then log post_id Successfully_updated_post
         else log post_id
                (Failed_to_update_post (status_code response) (text response)))
        (fun e => log post_id (Error_updating_post e))
  end.

(** The [try] block of [process_post], lines 291-398. *)
Definition process_post_try (post post_id post_title post_content : value)
    : M unit :=
  yoast <- lift (read_yoast post) ;;
  rank_math_data <- get_rank_math_data post_id ;;
  existing <- lift (read_rank_math rank_math_data (fst yoast) (snd yoast)) ;;
  let '(meta_description, meta_description_exists, keyword, keyword_exists) :=
    existing in
  kw <- ensure_keyword post_id post_title post_content keyword keyword_exists ;;
  let '(keyword, keyword_exists) := kw in
  meta_description <-
    ensure_meta_description post_id post_content meta_description
      meta_description_exists keyword keyword_exists ;;
  prepared <-
    prepare_update post_id post_title post_content meta_description keyword
      keyword_exists rank_math_data ;;
  submit_update post_id (fst prepared) ;;
  append_report.

(** [process_post], lines 274-403 *)
Definition process_post (post : value) : M ReportEntry :=
  id <- lift (Py.getitem post "id") ;;
  title <- lift (Py.getitem post "title") ;;
  post_title <- lift (Py.getitem title "rendered") ;;
  content <- lift (Py.getitem post "content") ;;
  post_content <- lift (Py.getitem content "rendered") ;;
  slug <- lift (Py.getitem post "slug") ;;
  set_entry {| post_id := id; post_slug := slug;
               original_title := post_title; updated_title := VNone;
               meta_description_added := false; keyword_added := false |} ;;
  try_except
    (process_post_try post id post_title post_content)
    (fun e => log id (Error_processing_post e)) ;;
  get_entry.

(** The loop of [run], lines 439-443. *)
Fixpoint run_posts (posts : list value) : M unit :=
  match posts with
  | [] => ret tt
  | post :: rest =>
      lift (Py.getitem post "id") ;;
      process_post post ;;
      run_posts rest
  end.


(** Lines 330-398: the [try] block of [process_post] from the description
    step on. *)
Definition finish_post (post_id post_title post_content meta_description
    : value) (meta_description_exists : bool) (rank_math_data keyword : value)
    (keyword_exists : bool) : M unit :=
  meta_description <-
    ensure_meta_description post_id post_content meta_description
      meta_description_exists keyword keyword_exists ;;
  prepared <-
    prepare_update post_id post_title post_content meta_description keyword
      keyword_exists rank_math_data ;;
  submit_update post_id (fst prepared) ;;
  append_report.

(** The state once the listing requests for [page], [page + 1], ... up to
    [n] of them have been sent. *)
Fixpoint after_pages (n : nat) (page : Z) (s : state) : state :=
  match n with
  | O => s
  | S n' =>
      after_pages n' (page + 1)%Z (record_call (Http (Get_posts per_page page)) s)
  end.

(** From state [s] on, the content API answers the listing requests for
    [page], [page + 1], ... with status 200 and full pages, after each of
    which the loop goes on; [pages] are the posts of these pages. *)
Fixpoint serves_full_pages (pages : list (list value)) (page : Z)
    (s : state) : Prop :=
  match pages with
  | [] => True
  | items :: rest =>
      (exists r batch n,
          requests (calls s) (Get_posts per_page page) = Ok r
          /\ status_code r = 200%Z
          /\ json r = Ok batch
          /\ Py.truthy batch = true
          /\ Py.iter batch = Ok items
          /\ Py.len batch = Ok n
          /\ (per_page <= n)%Z)
      /\ serves_full_pages rest (page + 1)%Z
           (record_call (Http (Get_posts per_page page)) s)
  end.

(** ** Facts about the string operations *)

Lemma append_length (a b : string) :
  String.length (a ++ b) = String.length a + String.length b.
Proof.
  induction a as [|c a IH]; simpl; [reflexivity | now rewrite IH].
Qed.

Lemma append_assoc (a b c : string) : (a ++ b) ++ c = a ++ (b ++ c).
Proof.
  induction a as [|x a IH]; simpl; [reflexivity | now rewrite IH].
Qed.

Lemma prefix_append (sep rest : string) : prefix sep (sep ++ rest) = true.
Proof.
  induction sep as [|c sep IH]; simpl.
  - now destruct rest.
  - destruct (ascii_dec c c) as [_|ne]; [exact IH | now elim ne].
Qed.

Lemma prefix_drop (sep s : string) :
  prefix sep s = true -> s = sep ++ PyStr.drop (String.length sep) s.
Proof.
  revert s; induction sep as [|c sep IH]; intros s H.
  - now destruct s.
  - destruct s as [|d s]; simpl in H; [discriminate|].
    destruct (ascii_dec c d) as [->|_]; [|discriminate].
    simpl. f_equal. now apply IH.
Qed.

Lemma drop_append (a b : string) : PyStr.drop (String.length a) (a ++ b) = b.
Proof.
  induction a as [|c a IH]; simpl; [now destruct b | exact IH].
Qed.

Lemma take_length (n : nat) (s : string) :
  n <= String.length s -> String.length (PyStr.take n s) = n.
Proof.
  revert s; induction n as [|n IH]; intros s H.
  - now destruct s.
  - destruct s as [|c s]; simpl in *; [lia|]. rewrite IH; lia.
Qed.

Lemma partition_unfold (sep s : string) :
  PyStr.partition sep s =
  if prefix sep s then Some (EmptyString, PyStr.drop (String.length sep) s)
  else match s with
       | EmptyString => None
       | String c s' =>
           match PyStr.partition sep s' with
           | Some (before, rest) => Some (String c before, rest)
           | None => None
           end
       end.
Proof. destruct s; reflexivity. Qed.

(** [partition] cuts at an occurrence of the separator ... *)
Lemma partition_sound (sep s before rest : string) :
  PyStr.partition sep s = Some (before, rest) -> s = before ++ sep ++ rest.
Proof.
  revert before rest; induction s as [|c s IH]; intros before rest H;
    rewrite partition_unfold in H;
    (destruct (prefix sep _) eqn:P;
     [injection H as <- <-; simpl; now apply prefix_drop|]).
  - discriminate.
  - destruct (PyStr.partition sep s) as [[b r]|] eqn:E; [|discriminate].
    injection H as <- <-. simpl. f_equal. now apply IH.
Qed.

(** ... the leftmost one ... *)
Lemma partition_leftmost (sep s before rest : string) :
  PyStr.partition sep s = Some (before, rest) ->
  forall a b, s = a ++ sep ++ b -> String.length before <= String.length a.
Proof.
  revert before rest; induction s as [|c s IH]; intros before rest H a b Hs;
    rewrite partition_unfold in H;
    (destruct (prefix sep _) eqn:P; [injection H as <- <-; simpl; lia|]).
  - discriminate.
  - destruct (PyStr.partition sep s) as [[b0 r0]|] eqn:E; [|discriminate].
    injection H as <- <-.
    destruct a as [|x a]; simpl in Hs.
    + rewrite Hs, prefix_append in P. discriminate.
    + injection Hs as -> ->. simpl.
      specialize (IH b0 r0 eq_refl a b eq_refl). lia.
Qed.

(** ... and finds one whenever there is one. *)
Lemma partition_complete (sep s a b : string) :
  s = a ++ sep ++ b -> PyStr.partition sep s <> None.
Proof.
  revert s; induction a as [|x a IH]; intros s ->; rewrite partition_unfold.
  - change ("" ++ sep ++ b) with (sep ++ b).
    rewrite prefix_append. discriminate.
  - change (String x a ++ sep ++ b) with (String x (a ++ sep ++ b)).
    destruct (prefix sep (String x (a ++ sep ++ b))); [discriminate|].
    specialize (IH _ eq_refl).
    destruct (PyStr.partition sep (a ++ sep ++ b)) as [[? ?]|];
      [discriminate | now elim IH].
Qed.

Lemma contains_unfold (needle hay : string) :
  PyStr.contains needle hay =
  prefix needle hay
  || match hay with
     | EmptyString => false
     | String _ hay' => PyStr.contains needle hay'
     end.
Proof. destruct hay; reflexivity. Qed.

(** [contains] is the substring test. *)
Lemma contains_spec (needle hay : string) :
  PyStr.contains needle hay = true <->
  exists a b, hay = a ++ needle ++ b.
Proof.
  split.
  - induction hay as [|c hay IH]; rewrite contains_unfold; intros H;
      apply orb_true_iff in H as [H|H].
    + exists "", (PyStr.drop (String.length needle) ""). now apply prefix_drop.
    + discriminate.
    + exists "", (PyStr.drop (String.length needle) (String c hay)).
      now apply prefix_drop.
    + destruct (IH H) as (a & b & ->). now exists (String c a), b.
  - intros (a & b & ->). induction a as [|c a IH].
    + change ("" ++ needle ++ b) with (needle ++ b).
      now rewrite contains_unfold, prefix_append.
    + change (String c a ++ needle ++ b) with (String c (a ++ needle ++ b)).
      rewrite contains_unfold, IH. apply orb_true_r.
Qed.

(** ** [str.lower] on all of Unicode *)

Lemma lower_pairs_fixed :
  forallb (fun p => negb (PyUnicode.lower_changes (snd p)))
    PyUnicode.lower_pairs = true.
Proof. vm_compute. reflexivity. Qed.

Lemma lower_changes_unfold (c : N) :
  PyUnicode.lower_changes c
  = match (if (c =? 0x3A3)%N then [0x3C3%N] else PyUnicode.to_lower c) with
    | [c'] => negb (c' =? c)%N
    | _ => true
    end.
Proof.
  unfold PyUnicode.lower_changes, PyUnicode.lower.
  cbn [PyUnicode.lower_from andb]. now rewrite app_nil_r.
Qed.

(** What [str.lower] puts in the place of a code point, it leaves alone. *)
Lemma to_lower_fixed (c : N) :
  Forall (fun x => PyUnicode.lower_changes x = false) (PyUnicode.to_lower c).
Proof.
  unfold PyUnicode.to_lower.
  destruct (c =? 0x130)%N eqn:D; [repeat constructor|].
  destruct (find _ PyUnicode.lower_pairs) as [p|] eqn:F.
  - apply find_some in F as (I & _).
    pose proof lower_pairs_fixed as T.
    rewrite forallb_forall in T. specialize (T p I).
    constructor; [|constructor]. now apply negb_true_iff.
  - constructor; [|constructor]. rewrite lower_changes_unfold.
    destruct (c =? 0x3A3)%N eqn:S.
    + apply N.eqb_eq in S. subst c. vm_compute in F. discriminate F.
    + unfold PyUnicode.to_lower. now rewrite D, F, N.eqb_refl.
Qed.

Lemma lower_from_fixed (after_cased : bool) (s : PyUnicode.str) :
  Forall (fun x => PyUnicode.lower_changes x = false)
    (PyUnicode.lower_from after_cased s).
Proof.
  revert after_cased; induction s as [|c s IH]; intros after_cased;
    cbn [PyUnicode.lower_from]; [constructor|].
  apply Forall_app. split; [|apply IH].
  destruct (c =? 0x3A3)%N; [|apply to_lower_fixed].
  constructor; [|constructor].
  now destruct (after_cased && negb (PyUnicode.cased_follows s)).
Qed.

Lemma starts_with_incl (needle hay : PyUnicode.str) :
  PyUnicode.starts_with needle hay = true -> incl needle hay.
Proof.
  revert hay; induction needle as [|a needle IH]; intros hay H x I;
    [destruct I|].
  destruct hay as [|b hay]; [discriminate|]. cbn in H.
  apply andb_true_iff in H as (E & H). apply N.eqb_eq in E. subst b.
  destruct I as [<-|I]; [now left | right; now apply (IH hay)].
Qed.

Lemma contains_incl (needle hay : PyUnicode.str) :
  PyUnicode.contains needle hay = true -> incl needle hay.
Proof.
  induction hay as [|b hay IH]; cbn [PyUnicode.contains]; intros H;
    apply orb_true_iff in H as [H|H].
  - now apply starts_with_incl.
  - discriminate.
  - now apply starts_with_incl.
  - intros x I. right. now apply IH.
Qed.

(** A keyword with a code point that [str.lower] changes is in no
    lower-cased string. *)
Lemma changed_not_in_lower (keyword description : PyUnicode.str) (c : N) :
  In c keyword -> PyUnicode.lower_changes c = true ->
  PyUnicode.contains keyword (PyUnicode.lower description) = false.
Proof.
  intros I C.
  destruct (PyUnicode.contains keyword (PyUnicode.lower description)) eqn:K;
    [|reflexivity].
  apply contains_incl in K.
  pose proof (lower_from_fixed false description) as F.
  rewrite Forall_forall in F. rewrite (F c (K c I)) in C. discriminate.
Qed.

(** Below 256 the two renderings of [str] agree. *)
Lemma to_lower_latin1 (c : ascii) :
  PyUnicode.to_lower (N_of_ascii c) = [N_of_ascii (PyStr.lower_char c)]
  /\ (N_of_ascii c =? 0x3A3)%N = false
  /\ PyUnicode.is_upper (N_of_ascii c) = PyStr.is_upper c.
Proof.
  destruct c as [[] [] [] [] [] [] [] []]; vm_compute; repeat split.
Qed.

Lemma lower_of_latin1 (after_cased : bool) (s : string) :
  PyUnicode.lower_from after_cased (PyUnicode.of_latin1 s)
  = PyUnicode.of_latin1 (PyStr.lower s).
Proof.
  revert after_cased; induction s as [|c s IH]; intros after_cased;
    [reflexivity|].
  change (PyUnicode.of_latin1 (String c s))
    with (N_of_ascii c :: PyUnicode.of_latin1 s).
  cbn [PyUnicode.lower_from].
  destruct (to_lower_latin1 c) as (L & S & _). rewrite S, L, IH.
  reflexivity.
Qed.

Lemma starts_with_of_latin1 (needle hay : string) :
  PyUnicode.starts_with (PyUnicode.of_latin1 needle) (PyUnicode.of_latin1 hay)
  = prefix needle hay.
Proof.
  revert hay; induction needle as [|a needle IH]; intros hay;
    [now destruct hay|].
  destruct hay as [|b hay]; [reflexivity|].
  change (PyUnicode.starts_with (PyUnicode.of_latin1 (String a needle))
            (PyUnicode.of_latin1 (String b hay)))
    with ((N_of_ascii a =? N_of_ascii b)%N
          && PyUnicode.starts_with (PyUnicode.of_latin1 needle)
               (PyUnicode.of_latin1 hay)).
  rewrite IH. simpl prefix.
  destruct (ascii_dec a b) as [->|ne].
  - now rewrite N.eqb_refl.
  - destruct (N.eqb_spec (N_of_ascii a) (N_of_ascii b)) as [E|_];
      [|reflexivity].
    elim ne. now rewrite <- (ascii_N_embedding a), E, ascii_N_embedding.
Qed.

Lemma contains_of_latin1 (needle hay : string) :
  PyUnicode.contains (PyUnicode.of_latin1 needle) (PyUnicode.of_latin1 hay)
  = PyStr.contains needle hay.
Proof.
  induction hay as [|b hay IH]; rewrite contains_unfold.
  - change (PyUnicode.of_latin1 "") with (@nil N).
    cbn [PyUnicode.contains].
    now rewrite <- (starts_with_of_latin1 needle "").
  - change (PyUnicode.of_latin1 (String b hay))
      with (N_of_ascii b :: PyUnicode.of_latin1 hay).
    cbn [PyUnicode.contains]. rewrite IH.
    now rewrite <- (starts_with_of_latin1 needle (String b hay)).
Qed.

(** The test of line 338 as the model has it is the test on all of
    Unicode. *)
Lemma lacks_keyword_of_latin1 (keyword description : string) :
  lacks_keyword (PyUnicode.of_latin1 keyword) (PyUnicode.of_latin1 description)
  = negb (PyStr.contains keyword (PyStr.lower description)).
Proof.
  unfold lacks_keyword, PyUnicode.lower.
  now rewrite lower_of_latin1, contains_of_latin1.
Qed.

Lemma prefix_char (a c : ascii) (s : string) :
  prefix (String a "") (String c s) = if ascii_dec a c then true else false.
Proof.
  change (prefix (String a "") (String c s))
    with (match ascii_dec a c with
          | left _ => prefix "" s
          | right _ => false
          end).
  destruct (ascii_dec a c); [now destruct s | reflexivity].
Qed.

(** A label without a colon is what [split(":", 1)] cuts off. *)
Lemma partition_colon (label rest : string) :
  PyStr.contains ":" label = false ->
  PyStr.partition ":" (label ++ ":" ++ rest) = Some (label, rest).
Proof.
  induction label as [|c label IH]; intros H.
  - change ("" ++ ":" ++ rest) with (":" ++ rest).
    now rewrite partition_unfold, prefix_append, drop_append.
  - rewrite contains_unfold in H. apply orb_false_iff in H as [P H].
    rewrite partition_unfold.
    change (String c label ++ ":" ++ rest)
      with (String c (label ++ ":" ++ rest)).
    rewrite prefix_char in *. now rewrite P, (IH H).
Qed.

Lemma contains_colon_partition (s : string) :
  PyStr.contains ":" s = true ->
  exists label rest,
    PyStr.partition ":" s = Some (label, rest) /\ s = label ++ ":" ++ rest.
Proof.
  intros H. apply contains_spec in H as (a & b & E).
  pose proof (partition_complete ":" s a b E) as N.
  destruct (PyStr.partition ":" s) as [[label rest]|] eqn:P; [|now elim N].
  exists label, rest. split; [reflexivity|]. now apply partition_sound.
Qed.

(** ** The generation client *)

(** C4: with the default [max_length], the description that
    [generate_meta_description] returns for a backend text has at most 160
    characters; when the trimmed text has more than 160, the returned value
    has exactly 160 and ends in three dots. *)
Theorem generate_meta_description_length
    (content : string) (keyword : value) (s : state) (response_text : string) :
  generate_content (calls s)
    (meta_description_prompt (sample_text content) keyword)
  = Ok response_text ->
  exists d,
    fst (generate_meta_description (VStr content) keyword max_length_default s)
    = Ok (VStr d)
    /\ String.length d <= 160
    /\ (160 < String.length (PyStr.strip response_text) ->
        String.length d = 160 /\ exists p, d = p ++ "...").
Proof.
  intros H.
  unfold generate_meta_description, sample_of, bind, lift, try_except,
    gemini_generate, ret; simpl.
  rewrite H; simpl.
  set (md := PyStr.strip response_text).
  unfold max_length_default.
  destruct (Z.of_nat (String.length md) >? 160)%Z eqn:L.
  - apply Z.gtb_lt in L.
    eexists; split; [reflexivity|].
    change (PyStr.slice_to _ md) with (PyStr.take 157 md).
    rewrite append_length, take_length by lia.
    repeat split; try (simpl; lia). now eexists.
  - eexists; split; [reflexivity|].
    assert (String.length md <= 160) by
      (destruct (Z.gtb_spec (Z.of_nat (String.length md)) 160); [discriminate | lia]).
    split; [assumption | lia].
Qed.

Lemma partition_colon_label (s label rest : string) :
  PyStr.partition ":" s = Some (label, rest) ->
  PyStr.contains ":" label = false.
Proof.
  intros P. destruct (PyStr.contains ":" label) eqn:C; [|reflexivity].
  apply contains_spec in C as (a & b & E).
  pose proof (partition_sound _ _ _ _ P) as S.
  assert (L : String.length label <= String.length a).
  { apply (partition_leftmost _ _ _ _ P a (b ++ ":" ++ rest)).
    rewrite S, E. now rewrite !append_assoc. }
  rewrite E, !append_length in L. simpl in L. lia.
Qed.

Ltac run :=
  unfold bind, lift, try_except, ret, raise, gemini_generate, requests_send;
  simpl.

(** C9: [generate_keyword] gives the trimmed backend text when it has no
    colon, and otherwise the trimmed text after the label that ends at the
    first colon; it gives [None] when the backend call raises. *)
Theorem generate_keyword_strips_label
    (content : string) (title : value) (s : state) :
  let out := fst (generate_keyword (VStr content) title s) in
  match generate_content (calls s)
          (Prompt_keyword title (sample_text content)) with
  | Raise _ => out = Ok VNone
  | Ok response_text =>
      let keyword := PyStr.strip response_text in
      if PyStr.contains ":" keyword then
        exists label rest,
          keyword = label ++ ":" ++ rest
          /\ PyStr.contains ":" label = false
          /\ out = Ok (VStr (PyStr.strip rest))
      else out = Ok (VStr keyword)
  end.
Proof.
  unfold generate_keyword, sample_of. run.
  destruct (generate_content _ _) as [response_text|e]; simpl;
    [|reflexivity].
  destruct (PyStr.contains ":" (PyStr.strip response_text)) eqn:C;
    [|reflexivity].
  destruct (contains_colon_partition _ C) as (label & rest & P & E).
  exists label, rest. split; [exact E|]. split.
  - exact (partition_colon_label _ _ _ P).
  - unfold PyStr.split1. now rewrite P.
Qed.

(** C5: [update_post_title] gives the title back, without a backend call,
    when the keyword is already in it (case-insensitively), and also when
    the backend raises or its trimmed answer lacks the keyword; otherwise it
    gives the trimmed answer.  So the result is the title or has the
    keyword. *)
Theorem update_post_title_result (title keyword : string) (s : state) :
  let out := update_post_title title keyword s in
  (if PyStr.contains (PyStr.lower keyword) (PyStr.lower title)
   then out = (Ok title, s)
   else
     match generate_content (calls s) (Prompt_title keyword title) with
     | Raise _ => fst out = Ok title
     | Ok response_text =>
         let new_title := PyStr.strip response_text in
         fst out =
         Ok (if PyStr.contains (PyStr.lower keyword) (PyStr.lower new_title)
             then new_title else title)
     end)
  /\ exists r,
       fst out = Ok r
       /\ (r = title
           \/ PyStr.contains (PyStr.lower keyword) (PyStr.lower r) = true).
Proof.
  unfold update_post_title.
  destruct (PyStr.contains (PyStr.lower keyword) (PyStr.lower title)) eqn:T.
  - split; [reflexivity|]. exists title. auto.
  - run. destruct (generate_content _ _) as [response_text|e]; simpl.
    + destruct (PyStr.contains _ (PyStr.lower (PyStr.strip response_text)))
        eqn:N; simpl; (split; [reflexivity|]); eauto.
    + split; [reflexivity|]. exists title. auto.
Qed.

Lemma append_split (u v w z : string) :
  u ++ v = w ++ z -> String.length u <= String.length w ->
  exists m, w = u ++ m /\ v = m ++ z.
Proof.
  revert w; induction u as [|x u IH]; intros w E L.
  - exists w. now split.
  - destruct w as [|y w]; simpl in L; [lia|].
    simpl in E. injection E as -> E.
    destruct (IH w E) as (m & -> & ->); [lia|].
    exists m. now split.
Qed.

(** [search_first_paragraph] finds a paragraph block of the content ... *)
Lemma search_first_paragraph_sound (content first_para : string) :
  PyStr.search_first_paragraph content = Some first_para ->
  exists a c, content = a ++ "<p>" ++ first_para ++ "</p>" ++ c.
Proof.
  unfold PyStr.search_first_paragraph.
  destruct (PyStr.partition "<p>" content) as [[a rest]|] eqn:P;
    [|discriminate].
  destruct (PyStr.partition "</p>" rest) as [[para c]|] eqn:Q;
    [|discriminate].
  intros [= <-]. exists a, c.
  rewrite (partition_sound _ _ _ _ P). f_equal. f_equal.
  exact (partition_sound _ _ _ _ Q).
Qed.

(** ... and finds one whenever the content has one. *)
Lemma search_first_paragraph_complete (content a b c : string) :
  content = a ++ "<p>" ++ b ++ "</p>" ++ c ->
  PyStr.search_first_paragraph content <> None.
Proof.
  intros E. unfold PyStr.search_first_paragraph.
  pose proof (partition_complete "<p>" content a _ E) as N.
  destruct (PyStr.partition "<p>" content) as [[a' rest]|] eqn:P;
    [|now elim N].
  pose proof (partition_leftmost _ _ _ _ P a _ E) as L.
  pose proof (partition_sound _ _ _ _ P) as S.
  destruct (append_split (a' ++ "<p>") rest (a ++ "<p>" ++ b) ("</p>" ++ c))
    as (m & _ & R).
  - rewrite !append_assoc. now rewrite <- S, <- E.
  - rewrite !append_length. simpl. lia.
  - pose proof (partition_complete "</p>" rest m c R) as N'.
    destruct (PyStr.partition "</p>" rest) as [[para c']|];
      [discriminate | now elim N'].
Qed.

(** What [update_first_paragraph] does, case by case. *)
Lemma update_first_paragraph_cases (content keyword : string) (s : state) :
  let out := update_first_paragraph content keyword s in
  match PyStr.search_first_paragraph content with
  | None => out = (Ok content, s)
  | Some first_para =>
      let first_para_clean := PyStr.strip_tags first_para in
      if PyStr.contains (PyStr.lower keyword) (PyStr.lower first_para_clean)
      then out = (Ok content, s)
      else
        match generate_content (calls s)
                (Prompt_paragraph keyword first_para_clean) with
        | Raise _ => fst out = Ok content
        | Ok response_text =>
            fst out =
            Ok (PyStr.replace first_para (PyStr.strip response_text) content)
        end
  end.
Proof.
  unfold update_first_paragraph.
  destruct (PyStr.search_first_paragraph content) as [first_para|];
    [|reflexivity].
  destruct (PyStr.contains _ _); [reflexivity|].
  run. now destruct (generate_content _ _).
Qed.

(** C6: [update_first_paragraph] gives the content back as it is when the
    content has no paragraph block, when the keyword is already in the
    first paragraph's plain text (case-insensitively), and when the backend
    call raises. *)
Theorem update_first_paragraph_unchanged (content keyword : string)
    (s : state) :
  let out := update_first_paragraph content keyword s in
  ((forall a b c, content <> a ++ "<p>" ++ b ++ "</p>" ++ c) ->
   out = (Ok content, s))
  /\ (forall first_para,
        PyStr.search_first_paragraph content = Some first_para ->
        let first_para_clean := PyStr.strip_tags first_para in
        (PyStr.contains (PyStr.lower keyword) (PyStr.lower first_para_clean)
         = true -> out = (Ok content, s))
        /\ (forall e,
              generate_content (calls s)
                (Prompt_paragraph keyword first_para_clean) = Raise e ->
              fst out = Ok content)).
Proof.
  pose proof (update_first_paragraph_cases content keyword s) as H.
  cbv zeta in *. split.
  - intros N.
    destruct (PyStr.search_first_paragraph content) as [first_para|] eqn:F;
      [|exact H].
    destruct (search_first_paragraph_sound _ _ F) as (a & c & E).
    now elim (N a first_para c).
  - intros first_para F. rewrite F in H. split.
    + intros C. now rewrite C in H.
    + intros e G. rewrite G in H.
      destruct (PyStr.contains _ _); [now rewrite H | exact H].
Qed.

(** ** The content source adapter *)

Lemma loop_unfold (fuel : nat) (posts : list value) (page : Z) (s : state) :
  get_all_published_posts_loop (S fuel) posts page s =
  match requests (calls s) (Get_posts per_page page) with
  | Raise e => (Raise e, record_call (Http (Get_posts per_page page)) s)
  | Ok response =>
      let s' := record_call (Http (Get_posts per_page page)) s in
      if negb (status_code response =? 200)%Z then (Ok (Some posts), s')
      else
        match json response with
        | Raise e => (Raise e, s')
        | Ok batch =>
            if negb (Py.truthy batch) then (Ok (Some posts), s')
            else
              match Py.iter batch, Py.len batch with
              | Ok items, Ok n =>
                  if (n <? per_page)%Z then (Ok (Some (posts ++ items)%list), s')
                  else get_all_published_posts_loop fuel (posts ++ items)%list
                         (page + 1)%Z s'
              | Raise e, _ => (Raise e, s')
              | Ok _, Raise e => (Raise e, s')
              end
        end
  end.
Proof.
  simpl. run.
  destruct (requests _ _) as [response|e]; [|reflexivity].
  destruct (negb _); [reflexivity|].
  destruct (json response) as [batch|e]; [|reflexivity].
  destruct (negb _); [reflexivity|].
  destruct (Py.iter batch) as [items|e]; [|reflexivity].
  destruct (Py.len batch) as [n|e]; [|reflexivity].
  now destruct (n <? per_page)%Z.
Qed.

(** While the pages are full, the loop goes on to the next page. *)
Lemma loop_full_pages (pages : list (list value)) :
  forall (fuel : nat) (posts : list value) (page : Z) (s : state),
    serves_full_pages pages page s ->
    get_all_published_posts_loop (List.length pages + fuel) posts page s =
    get_all_published_posts_loop fuel (posts ++ List.concat pages)%list
      (page + Z.of_nat (List.length pages))%Z
      (after_pages (List.length pages) page s).
Proof.
  induction pages as [|items rest IH]; intros fuel posts page s H.
  - simpl. now rewrite app_nil_r, Z.add_0_r.
  - destruct H as ((r & batch & n & R & St & J & T & It & Len & Full) & H).
    change (List.length (items :: rest) + fuel)
      with (S (List.length rest + fuel)).
    rewrite loop_unfold, R. cbv zeta. rewrite St, J. cbv beta iota.
    rewrite T, It, Len.
    change (200 =? 200)%Z with true. cbv beta iota. simpl negb. cbv iota.
    destruct (Z.ltb_spec n per_page); [lia|].
    rewrite (IH _ _ _ _ H). simpl List.concat. simpl after_pages.
    rewrite app_assoc. f_equal.
    change (List.length (items :: rest)) with (S (List.length rest)). lia.
Qed.

Lemma after_pages_calls (n : nat) :
  forall (page : nat) (s : state),
    calls (after_pages n (Z.of_nat page) s) =
    (calls s
     ++ map (fun p => Http (Get_posts per_page (Z.of_nat p))) (seq page n))%list.
Proof.
  induction n as [|n IH]; intros page s; simpl.
  - now rewrite app_nil_r.
  - replace (Z.of_nat page + 1)%Z with (Z.of_nat (S page)) by lia.
    rewrite IH. simpl. now rewrite <- app_assoc.
Qed.

(** C7: [get_all_published_posts] asks for pages of 100.  After any number
    of full pages, (a) a response that is not 200 ends the loop without an
    exception and gives the posts of the earlier pages; (b) an empty page
    gives the same, and a page shorter than 100 gives them with its own
    posts added.  In each case the request for that page is the last one:
    the calls are the requests for pages 1, 2, ... up to that page. *)
Theorem get_all_published_posts_stops
    (pages : list (list value)) (fuel : nat) (s : state) (r : response) :
  serves_full_pages pages 1 s ->
  List.length pages < fuel ->
  let page := Z.of_nat (S (List.length pages)) in
  let s' := after_pages (List.length pages) 1 s in
  requests (calls s') (Get_posts 100 page) = Ok r ->
  let final := record_call (Http (Get_posts 100 page)) s' in
  (status_code r <> 200%Z ->
   get_all_published_posts fuel s = (Ok (Some (List.concat pages)), final))
  /\ (status_code r = 200%Z ->
      forall batch, json r = Ok batch -> Py.truthy batch = false ->
      get_all_published_posts fuel s = (Ok (Some (List.concat pages)), final))
  /\ (status_code r = 200%Z ->
      forall batch items n,
        json r = Ok batch -> Py.truthy batch = true ->
        Py.iter batch = Ok items -> Py.len batch = Ok n -> (n < 100)%Z ->
        get_all_published_posts fuel s
        = (Ok (Some (List.concat pages ++ items)%list), final))
  /\ calls final =
     (calls s
      ++ map (fun p => Http (Get_posts 100 (Z.of_nat p)))
           (seq 1 (S (List.length pages))))%list.
Proof.
  intros Full Fuel page s' R final.
  assert (E : forall out,
             get_all_published_posts_loop (S (fuel - S (List.length pages)))
               (List.concat pages) page s' = out ->
             get_all_published_posts fuel s = out).
  { intros out <-. unfold get_all_published_posts.
    replace fuel
      with (List.length pages + S (fuel - S (List.length pages))) at 1
      by lia.
    rewrite (loop_full_pages _ _ _ _ _ Full). simpl app. f_equal.
    unfold page. lia. }
  change 100%Z with per_page in *.
  repeat split.
  - intros St. apply E. rewrite loop_unfold, R. cbv zeta.
    destruct (Z.eqb_spec (status_code r) 200); [contradiction | reflexivity].
  - intros St batch J T. apply E. rewrite loop_unfold, R. cbv zeta.
    rewrite St, J. cbv beta iota. now rewrite T.
  - intros St batch items n J T It Len L. apply E.
    rewrite loop_unfold, R. cbv zeta.
    rewrite St, J. cbv beta iota. rewrite T, It, Len.
    change (200 =? 200)%Z with true. cbv beta iota. simpl negb. cbv iota.
    destruct (Z.ltb_spec n per_page); [reflexivity | lia].
  - unfold final, s'. simpl calls.
    rewrite (after_pages_calls _ 1 s).
    rewrite seq_S, map_app, app_assoc. simpl. reflexivity.
Qed.

(** ** The update writer *)

Lemma dict_get_set_same (key : string) (v : value) (d : Py.dict) :
  Py.dict_get key (Py.dict_set key v d) = Some v.
Proof.
  induction d as [|[k w] d IH]; simpl.
  - now rewrite String.eqb_refl.
  - destruct (String.eqb k key) eqn:E; simpl; rewrite E; [reflexivity | exact IH].
Qed.

Lemma dict_get_set_other (key key' : string) (v : value) (d : Py.dict) :
  key' <> key ->
  Py.dict_get key' (Py.dict_set key v d) = Py.dict_get key' d.
Proof.
  intros N. induction d as [|[k w] d IH]; simpl.
  - destruct (String.eqb_spec key key'); [now elim N | reflexivity].
  - destruct (String.eqb_spec k key) as [->|Nk]; simpl.
    + destruct (String.eqb_spec key key'); [now elim N | reflexivity].
    + now rewrite IH.
Qed.

(** C10: when the Rank Math bag of the post reads as a dictionary,
    [update_rank_math_keyword] sends one update whose encoded bag has the
    given keyword under [focus_keyword] and, under every other key, what
    the bag that was read has there. *)
Theorem update_rank_math_keyword_frame
    (id keyword : value) (s s1 : state) (bag : Py.dict) :
  get_rank_math_data id s = (Ok (VDict bag), s1) ->
  exists bag',
    calls (snd (update_rank_math_keyword id keyword s))
    = (calls s1
       ++ [Http (Post_post id
                   (VDict [("meta",
                            VDict [("rank_math_data",
                                    VStr (json_dumps (VDict bag')))])]))])%list
    /\ Py.dict_get "focus_keyword" bag' = Some keyword
    /\ forall key,
         key <> "focus_keyword" -> Py.dict_get key bag' = Py.dict_get key bag.
Proof.
  intros G. exists (Py.dict_set "focus_keyword" keyword bag).
  split; [|split].
  - unfold update_rank_math_keyword, try_except, bind. rewrite G.
    unfold lift, requests_send, ret, meta_payload. simpl.
    now destruct (requests _ _).
  - apply dict_get_set_same.
  - intros key N. now apply dict_get_set_other.
Qed.

(** ** The post workflow *)


(** [generate_meta_description] on content that is a string: one request
    to the text generator, and a result that depends on the calls made so
    far alone. *)
Lemma generate_meta_description_runs
    (content : string) (keyword : value) (max_length : Z) (s : state) :
  exists generated,
    forall s',
      calls s' = calls s ->
      generate_meta_description (VStr content) keyword max_length s'
      = (Ok generated,
         record_call
           (Gemini (meta_description_prompt (sample_text content) keyword)) s').
Proof.
  destruct (generate_content (calls s)
              (meta_description_prompt (sample_text content) keyword))
    as [response_text|e] eqn:G;
    eexists; intros s' E; unfold generate_meta_description, sample_of; run;
    rewrite E, G; reflexivity.
Qed.

(** C2: in the description step, with an existing description and an
    existing keyword, the description is generated again exactly when the
    keyword as it is does not occur in the lower-cased description.  Then
    one request goes to the text generator, the step gives what
    [generate_meta_description] gives, and a description that is not
    empty is logged and flagged in the report entry; otherwise the step
    gives the old description and changes nothing.  The test is the one
    on all of Unicode, where a keyword with a code point that [str.lower]
    changes always has the description generated again. *)
Theorem description_regenerated_iff
    (id : value) (content d k : string) (s : state) :
  let out :=
    ensure_meta_description id (VStr content) (VStr d) true (VStr k) true s in
  let regenerate :=
    Gemini (meta_description_prompt (sample_text content) (VStr k)) in
  let lacks_line := (id, Meta_description_lacks_keyword (VStr k)) in
  (if lacks_keyword (PyUnicode.of_latin1 k) (PyUnicode.of_latin1 d)
   then exists generated,
          fst (generate_meta_description (VStr content) (VStr k)
                 max_length_default s) = Ok generated
          /\ fst out = Ok generated
          /\ calls (snd out) = (calls s ++ [regenerate])%list
          /\ report_data (snd out) = report_data s
          /\ (if Py.truthy generated
              then log_data (snd out)
                   = (log_data s
                      ++ [lacks_line;
                          (id, Updated_meta_description generated)])%list
                   /\ meta_description_added (report_entry (snd out)) = true
                   /\ report_entry (snd out)
                      = report_entry (snd (set_meta_description_added s))
              else log_data (snd out) = (log_data s ++ [lacks_line])%list
                   /\ report_entry (snd out) = report_entry s)
   else out = (Ok (VStr d), s))
  /\ (forall (keyword description : PyUnicode.str) (c : N),
        In c keyword -> PyUnicode.lower_changes c = true ->
        lacks_keyword keyword description = true).
Proof.
  cbv zeta. rewrite lacks_keyword_of_latin1. split.
  2:{ intros keyword description c I L. unfold lacks_keyword.
      now rewrite (changed_not_in_lower keyword description c I L). }
  destruct (PyStr.contains k (PyStr.lower d)) eqn:C; cbn [negb].
  - unfold ensure_meta_description. run. now rewrite C.
  - destruct (generate_meta_description_runs content (VStr k)
                max_length_default s) as (generated & G).
    exists generated. rewrite (G s eq_refl). split; [reflexivity|].
    assert (E : ensure_meta_description id (VStr content) (VStr d) true
                  (VStr k) true s
                = write_meta_description id (VStr content) (VStr k)
                    Updated_meta_description
                    (snd (log id (Meta_description_lacks_keyword (VStr k)) s))).
    { unfold ensure_meta_description, bind, lift, Py.bind, log. simpl.
      now rewrite C. }
    rewrite E. unfold write_meta_description, bind.
    rewrite (G (snd (log id (Meta_description_lacks_keyword (VStr k)) s))
               eq_refl).
    destruct (Py.truthy generated); simpl; rewrite <- ?app_assoc;
      repeat split.
Qed.

(** [process_post] reads the four fields, runs its [try] block, and logs
    what the block raises. *)
Lemma process_post_catches (post : value) (s : state) :
  content_item post = true ->
  exists id title content slug,
    Py.getitem post "id" = Ok id
    /\ let s0 :=
         snd (set_entry
                {| post_id := id; post_slug := slug; original_title := title;
                   updated_title := VNone; meta_description_added := false;
                   keyword_added := false |} s) in
       match process_post_try post id title content s0 with
       | (Ok _, s1) => process_post post s = (Ok (report_entry s1), s1)
       | (Raise e, s1) =>
           process_post post s
           = (Ok (report_entry s1), snd (log id (Error_processing_post e) s1))
       end.
Proof.
  intros C. destruct post as [| | | | |fields]; try discriminate.
  unfold content_item in C.
  destruct (Py.dict_get "id" fields) as [id|] eqn:Eid; [|discriminate].
  destruct (Py.dict_get "title" fields) as [[| | | | |tf]|] eqn:Et;
    try discriminate.
  destruct (Py.dict_get "content" fields) as [[| | | | |cf]|] eqn:Ec;
    try discriminate.
  destruct (Py.dict_get "slug" fields) as [slug|] eqn:Es; [|discriminate].
  destruct (Py.dict_get "rendered" tf) as [title|] eqn:Etr; [|discriminate].
  destruct (Py.dict_get "rendered" cf) as [content|] eqn:Ecr; [|discriminate].
  exists id, title, content, slug. split.
  - unfold Py.getitem. now rewrite Eid.
  - unfold process_post, bind, lift, Py.getitem.
    rewrite Eid, Et, Etr, Ec, Ecr, Es.
    unfold try_except, set_entry, get_entry. cbv beta iota zeta.
    destruct (process_post_try _ _ _ _ _) as [[u|e] s1]; reflexivity.
Qed.


(** The workflow on a post that needs nothing. *)

Lemma read_rank_math_keyword (rmd md : value) (ex : bool) (d k : value) :
  read_rank_math rmd md ex = Ok (d, true, k, true) ->
  exists bag, rmd = VDict bag /\ bag <> [].
Proof.
  unfold read_rank_math. destruct (Py.truthy rmd) eqn:T; [|discriminate].
  intros H. destruct rmd as [| | | | |bag];
    try (destruct (negb ex); simpl in H; discriminate).
  - destruct (negb ex); simpl in H; [|discriminate].
    destruct (PyStr.contains _ _); simpl in H; discriminate.
  - destruct (negb ex); simpl in H; [|discriminate].
    destruct (existsb _ _); simpl in H; discriminate.
  - exists bag. split; [reflexivity|]. now destruct bag.
Qed.

Lemma prepare_update_settled
    (id : value) (title content d k : string) (bag : Py.dict) (s : state) :
  updated_title (report_entry s) = VNone ->
  d <> "" -> bag <> [] ->
  PyStr.contains (PyStr.lower k) (PyStr.lower title) = true ->
  PyStr.contains (PyStr.lower k) (PyStr.lower content) = true ->
  prepare_update id (VStr title) (VStr content) (VStr d) (VStr k) true
    (VDict bag) s
  = (Ok ([("meta",
           meta_payload (VDict (Py.dict_set "description" (VStr d) bag)))],
         keyword_added (report_entry s)
         || meta_description_added (report_entry s)),
     s).
Proof.
  intros U D B T C.
  unfold prepare_update, bind, lift, get_entry, ret, Py.lacks, Py.bind.
  simpl. rewrite T. simpl. rewrite U. simpl. rewrite C. simpl.
  destruct (String.eqb_spec d ""); [contradiction|].
  destruct bag; [contradiction | reflexivity].
Qed.

Lemma submit_update_sends (id : value) (update_data : Py.dict) (s : state) :
  update_data <> [] ->
  let s' := snd (submit_update id update_data s) in
  fst (submit_update id update_data s) = Ok tt
  /\ calls s' = (calls s ++ [Http (Post_post id (VDict update_data))])%list
  /\ report_entry s' = report_entry s.
Proof.
  intros N. destruct update_data as [|kv rest]; [contradiction|].
  unfold submit_update. run.
  destruct (requests _ _) as [r|e]; simpl; [|now repeat split].
  destruct (status_code r =? 200)%Z; now repeat split.
Qed.

(** Every post that satisfies the presence checks is written to: the
    update carries the bag that was read, with the existing description
    under [description]. *)
Lemma process_post_try_settled
    (post id : value) (title content d k : string) (rmd : value)
    (y : value * bool) (s s1 : state) :
  read_yoast post = Ok y ->
  get_rank_math_data id s = (Ok rmd, s1) ->
  read_rank_math rmd (fst y) (snd y) = Ok (VStr d, true, VStr k, true) ->
  updated_title (report_entry s1) = VNone ->
  d <> "" ->
  PyStr.contains k (PyStr.lower d) = true ->
  PyStr.contains (PyStr.lower k) (PyStr.lower title) = true ->
  PyStr.contains (PyStr.lower k) (PyStr.lower content) = true ->
  exists bag s',
    rmd = VDict bag
    /\ process_post_try post id (VStr title) (VStr content) s = (Ok tt, s')
    /\ calls s'
       = (calls s1
          ++ [Http (Post_post id
                      (VDict [("meta",
                               meta_payload
                                 (VDict (Py.dict_set "description" (VStr d)
                                           bag)))]))])%list
    /\ report_entry s' = report_entry s1.
Proof.
  intros Y G R U D Cd Ct Cc.
  destruct (read_rank_math_keyword _ _ _ _ _ R) as (bag & -> & B).
  set (update_data :=
         [("meta",
           meta_payload (VDict (Py.dict_set "description" (VStr d) bag)))]).
  destruct (submit_update_sends id update_data s1) as (F & Cs & Es);
    [discriminate|].
  cbv zeta in Cs, Es.
  exists bag, (snd (append_report (snd (submit_update id update_data s1)))).
  split; [reflexivity|]. split; [|split; [exact Cs | exact Es]].
  assert (E : ensure_meta_description id (VStr content) (VStr d) true (VStr k)
                true s1 = (Ok (VStr d), s1)).
  { unfold ensure_meta_description, bind, lift, Py.bind, ret. simpl.
    now rewrite Cd. }
  unfold process_post_try. unfold bind at 1. unfold lift at 1. rewrite Y.
  unfold bind at 1. rewrite G. unfold bind at 1. unfold lift at 1. rewrite R.
  cbv beta iota. unfold bind at 1.
  change (ensure_keyword id (VStr title) (VStr content) (VStr k) true s1)
    with (@Ok (value * bool) (VStr k, true), s1).
  cbv beta iota. unfold bind at 1. rewrite E. unfold bind at 1.
  rewrite (prepare_update_settled id title content d k bag s1 U D B Ct Cc).
  unfold fst at 1. fold update_data. unfold bind.
  destruct (submit_update id update_data s1) as [[[]|e] s2]; simpl in F |- *;
    [reflexivity | discriminate].
Qed.

(** ** Calls, log lines and report rows *)

Lemma extends_refl (n : nat) (s : state) : extends n s s.
Proof.
  repeat split; try reflexivity.
  - exists []. split; [now rewrite app_nil_r | simpl; lia].
  - exists []. now rewrite app_nil_r.
Qed.

Lemma extends_trans (n k t : nat) (s s1 s2 : state) :
  extends n s s1 -> extends k s1 s2 -> n + k <= t -> extends t s s2.
Proof.
  intros ((x1 & C1 & L1) & (l1 & G1) & I1 & S1 & T1)
         ((x2 & C2 & L2) & (l2 & G2) & I2 & S2 & T2) Le.
  repeat split; try congruence.
  - exists (x1 ++ x2)%list. split.
    + now rewrite C2, C1, app_assoc.
    + rewrite length_app. lia.
  - exists (l1 ++ l2)%list. now rewrite G2, G1, app_assoc.
Qed.

Lemma extends_entry (n : nat) (s : state) (e : ReportEntry) :
  post_id e = post_id (report_entry s) ->
  post_slug e = post_slug (report_entry s) ->
  original_title e = original_title (report_entry s) ->
  extends n s (snd (set_entry e s)).
Proof.
  intros I S T. repeat split; simpl; try assumption.
  - exists []. split; [now rewrite app_nil_r | simpl; lia].
  - exists []. now rewrite app_nil_r.
Qed.

Lemma extends_call (n : nat) (c : call) (s : state) :
  1 <= n -> extends n s (record_call c s).
Proof.
  intros L. repeat split; simpl.
  - exists [c]. split; [reflexivity | simpl; lia].
  - exists []. now rewrite app_nil_r.
Qed.

Lemma frame_ret {A} (n : nat) (a : A) : frame n false (ret a).
Proof. intros s. split; [apply extends_refl | reflexivity]. Qed.

Lemma frame_raise {A} (n : nat) (e : exn) :
  frame n false (@raise A e).
Proof. intros s. split; [apply extends_refl | reflexivity]. Qed.

Lemma frame_lift {A} (n : nat) (r : result A) :
  frame n false (lift r).
Proof. intros s. split; [apply extends_refl | reflexivity]. Qed.

Lemma frame_bind {A B} (n k t : nat) (rows : bool) (m : M A) (f : A -> M B) :
  frame n false m -> (forall a, frame k rows (f a)) -> n + k <= t ->
  frame t rows (bind m f).
Proof.
  intros Hm Hf Le s. unfold bind.
  destruct (Hm s) as (Em & Rm). destruct (m s) as [[a|e] s1]; simpl in *.
  - destruct (Hf a s1) as (Ef & Rf). split.
    + exact (extends_trans _ _ _ _ _ _ Em Ef Le).
    + rewrite <- Rm. exact Rf.
  - split.
    + apply (extends_trans n 0 t s s1 s1 Em (extends_refl 0 s1)). lia.
    + now rewrite andb_false_r.
Qed.

Lemma frame_try_except {A} (n k t : nat) (body : M A) (handler : exn -> M A) :
  frame n false body -> (forall e, frame k false (handler e)) -> n + k <= t ->
  frame t false (try_except body handler).
Proof.
  intros Hb Hh Le s. unfold try_except.
  destruct (Hb s) as (Eb & Rb). destruct (body s) as [[a|e] s1]; simpl in *.
  - split; [|exact Rb].
    apply (extends_trans n 0 t s s1 s1 Eb (extends_refl 0 s1)). lia.
  - destruct (Hh e s1) as (Eh & Rh). split.
    + exact (extends_trans _ _ _ _ _ _ Eb Eh Le).
    + simpl in Rh. congruence.
Qed.

Lemma frame_log (n : nat) (id : value) (msg : message) :
  frame n false (log id msg).
Proof.
  intros s. split; [|reflexivity]. repeat split; simpl.
  - exists []. split; [now rewrite app_nil_r | simpl; lia].
  - now exists [(id, msg)].
Qed.

Lemma frame_get_entry (n : nat) : frame n false get_entry.
Proof. intros s. split; [apply extends_refl | reflexivity]. Qed.

Lemma frame_set_updated_title (n : nat) (t : value) :
  frame n false (set_updated_title t).
Proof. intros s. split; [now apply extends_entry | reflexivity]. Qed.

Lemma frame_set_meta_description_added (n : nat) :
  frame n false set_meta_description_added.
Proof. intros s. split; [now apply extends_entry | reflexivity]. Qed.

Lemma frame_set_keyword_added (n : nat) :
  frame n false set_keyword_added.
Proof. intros s. split; [now apply extends_entry | reflexivity]. Qed.

Lemma frame_append_report (n : nat) : frame n true append_report.
Proof.
  intros s. split; [|reflexivity].
  repeat split; simpl.
  - exists []. split; [now rewrite app_nil_r | simpl; lia].
  - exists []. now rewrite app_nil_r.
Qed.

Lemma frame_requests_send (n : nat) (r : http_request) :
  1 <= n -> frame n false (requests_send r).
Proof. intros L s. split; [now apply extends_call | reflexivity]. Qed.

Lemma frame_gemini_generate (n : nat) (p : prompt) :
  1 <= n -> frame n false (gemini_generate p).
Proof. intros L s. split; [now apply extends_call | reflexivity]. Qed.

Ltac frame_leaf :=
  first
    [ apply frame_ret | apply frame_raise | apply frame_lift | apply frame_log
    | apply frame_get_entry | apply frame_set_updated_title
    | apply frame_set_meta_description_added | apply frame_set_keyword_added
    | apply frame_append_report
    | apply frame_requests_send; lia | apply frame_gemini_generate; lia ].

Lemma frame_generate_meta_description
    (n : nat) (content keyword : value) (max_length : Z) :
  1 <= n -> frame n false (generate_meta_description content keyword max_length).
Proof.
  intros L. unfold generate_meta_description.
  apply (frame_bind 0 n); [frame_leaf | intros sample | lia].
  apply (frame_try_except 1 0); [| intros; frame_leaf | lia].
  apply (frame_bind 1 0); [frame_leaf | intros; frame_leaf | lia].
Qed.

Lemma frame_generate_keyword
    (n : nat) (content title : value) :
  1 <= n -> frame n false (generate_keyword content title).
Proof.
  intros L. unfold generate_keyword.
  apply (frame_bind 0 n); [frame_leaf | intros sample | lia].
  apply (frame_try_except 1 0); [| intros; frame_leaf | lia].
  apply (frame_bind 1 0); [frame_leaf | intros text | lia].
  destruct (PyStr.contains _ _); [|frame_leaf].
  destruct (nth_error _ _); frame_leaf.
Qed.

Lemma frame_update_post_title
    (n : nat) (title keyword : string) :
  1 <= n -> frame n false (update_post_title title keyword).
Proof.
  intros L. unfold update_post_title.
  destruct (PyStr.contains _ _); [frame_leaf|].
  apply (frame_try_except 1 0); [| intros; frame_leaf | lia].
  apply (frame_bind 1 0); [frame_leaf | intros text | lia].
  destruct (negb _); frame_leaf.
Qed.

Lemma frame_update_first_paragraph
    (n : nat) (content keyword : string) :
  1 <= n -> frame n false (update_first_paragraph content keyword).
Proof.
  intros L. unfold update_first_paragraph.
  destruct (PyStr.search_first_paragraph content); [|frame_leaf].
  destruct (PyStr.contains _ _); [frame_leaf|].
  apply (frame_try_except 1 0); [| intros; frame_leaf | lia].
  apply (frame_bind 1 0); [frame_leaf | intros; frame_leaf | lia].
Qed.

Lemma frame_get_rank_math_data (n : nat) (id : value) :
  1 <= n -> frame n false (get_rank_math_data id).
Proof.
  intros L. unfold get_rank_math_data.
  apply (frame_try_except 1 0); [| intros; frame_leaf | lia].
  apply (frame_bind 1 0); [frame_leaf | intros r | lia].
  destruct (negb _); [frame_leaf|].
  apply (frame_bind 0 0); [frame_leaf | intros; frame_leaf | lia].
Qed.

Lemma frame_update_rank_math_keyword
    (n : nat) (id keyword : value) :
  2 <= n -> frame n false (update_rank_math_keyword id keyword).
Proof.
  intros L. unfold update_rank_math_keyword.
  apply (frame_try_except 2 0); [| intros; frame_leaf | lia].
  apply (frame_bind 1 1); [now apply frame_get_rank_math_data | intros rmd | lia].
  apply (frame_bind 0 1); [frame_leaf | intros bag | lia].
  apply (frame_bind 1 0); [frame_leaf | intros; frame_leaf | lia].
Qed.

Lemma frame_ensure_keyword
    (n : nat) (id title content keyword : value) (ke : bool) :
  3 <= n -> frame n false (ensure_keyword id title content keyword ke).
Proof.
  intros L. unfold ensure_keyword. destruct (negb ke); [|frame_leaf].
  apply (frame_bind 0 3); [frame_leaf | intros _ | lia].
  apply (frame_bind 1 2); [now apply frame_generate_keyword | intros k | lia].
  destruct (Py.truthy k); [|frame_leaf].
  apply (frame_bind 0 2); [frame_leaf | intros _ | lia].
  apply (frame_bind 2 0);
    [now apply frame_update_rank_math_keyword | intros updated | lia].
  destruct updated.
  - apply (frame_bind 0 0); [frame_leaf | intros _ | lia].
    apply (frame_bind 0 0); [frame_leaf | intros; frame_leaf | lia].
  - apply (frame_bind 0 0); [frame_leaf | intros; frame_leaf | lia].
Qed.

Lemma frame_write_meta_description
    (n : nat) (id content keyword : value)
    (announce : value -> message) :
  1 <= n -> frame n false (write_meta_description id content keyword announce).
Proof.
  intros L. unfold write_meta_description.
  apply (frame_bind 1 0);
    [now apply frame_generate_meta_description | intros md | lia].
  destruct (Py.truthy md); [|frame_leaf].
  apply (frame_bind 0 0); [frame_leaf | intros _ | lia].
  apply (frame_bind 0 0); [frame_leaf | intros; frame_leaf | lia].
Qed.

Lemma frame_ensure_meta_description
    (n : nat) (id content md : value) (mde : bool)
    (keyword : value) (ke : bool) :
  1 <= n ->
  frame n false (ensure_meta_description id content md mde keyword ke).
Proof.
  intros L. unfold ensure_meta_description.
  destruct (negb mde).
  - apply (frame_bind 0 1); [frame_leaf | intros _ | lia].
    now apply frame_write_meta_description.
  - apply (frame_bind 0 1); [destruct ke; frame_leaf | intros lacks | lia].
    destruct lacks; [|frame_leaf].
    apply (frame_bind 0 1); [frame_leaf | intros _ | lia].
    now apply frame_write_meta_description.
Qed.

Lemma frame_prepare_update
    (n : nat) (id title content md keyword : value) (ke : bool)
    (rmd : value) :
  2 <= n -> frame n false (prepare_update id title content md keyword ke rmd).
Proof.
  intros L. unfold prepare_update.
  apply (frame_bind 0 2); [frame_leaf | intros entry | lia].
  apply (frame_bind 0 2); [destruct ke; frame_leaf | intros title_lacks | lia].
  apply (frame_bind 1 1); [ | intros un | lia].
  { destruct title_lacks; [|frame_leaf].
    destruct title; try frame_leaf. destruct keyword; try frame_leaf.
    apply (frame_bind 1 0);
      [now apply frame_update_post_title | intros new_title | lia].
    destruct (negb _); [|frame_leaf].
    apply (frame_bind 0 0); [frame_leaf | intros _ | lia].
    apply (frame_bind 0 0); [frame_leaf | intros; frame_leaf | lia]. }
  apply (frame_bind 0 1); [frame_leaf | intros entry' | lia].
  apply (frame_bind 0 1); [destruct ke; frame_leaf | intros content_lacks | lia].
  apply (frame_bind 1 0); [ | intros ud | lia].
  { destruct content_lacks; [|frame_leaf].
    destruct content; try frame_leaf. destruct keyword; try frame_leaf.
    apply (frame_bind 1 0);
      [now apply frame_update_first_paragraph | intros new_content | lia].
    destruct (negb _); [|frame_leaf].
    apply (frame_bind 0 0); [frame_leaf | intros; frame_leaf | lia]. }
  apply (frame_bind 0 0); [ | intros; frame_leaf | lia].
  destruct (Py.truthy md); [|frame_leaf].
  apply (frame_bind 0 0); [frame_leaf | intros; frame_leaf | lia].
Qed.

Lemma frame_submit_update
    (n : nat) (id : value) (update_data : Py.dict) :
  1 <= n -> frame n false (submit_update id update_data).
Proof.
  intros L. unfold submit_update. destruct update_data; [frame_leaf|].
  apply (frame_try_except 1 0); [| intros; frame_leaf | lia].
  apply (frame_bind 1 0); [frame_leaf | intros r | lia].
  destruct (status_code r =? 200)%Z; frame_leaf.
Qed.

Lemma frame_process_post_try (post id title content : value) :
  frame 8 true (process_post_try post id title content).
Proof.
  unfold process_post_try.
  apply (frame_bind 0 8); [frame_leaf | intros yoast | lia].
  apply (frame_bind 1 7); [now apply frame_get_rank_math_data | intros rmd | lia].
  apply (frame_bind 0 7); [frame_leaf | intros [[[md mde] kw] ke] | lia].
  apply (frame_bind 3 4); [now apply frame_ensure_keyword | intros [kw' ke'] | lia].
  apply (frame_bind 1 3);
    [now apply frame_ensure_meta_description | intros md' | lia].
  apply (frame_bind 2 1); [now apply frame_prepare_update | intros prepared | lia].
  apply (frame_bind 1 0); [now apply frame_submit_update | intros _ | lia].
  apply frame_append_report.
Qed.

(** [process_post] either fails on one of the four fields, leaving the
    state as it was, or runs its [try] block on them. *)
Lemma process_post_cases (post : value) (s : state) :
  (exists e, process_post post s = (Raise e, s))
  \/ (exists id t title c content slug,
        Py.getitem post "id" = Ok id
        /\ Py.getitem post "title" = Ok t
        /\ Py.getitem t "rendered" = Ok title
        /\ Py.getitem post "content" = Ok c
        /\ Py.getitem c "rendered" = Ok content
        /\ Py.getitem post "slug" = Ok slug
        /\ process_post post s
           = match process_post_try post id title content
                     (snd (set_entry
                             {| post_id := id; post_slug := slug;
                                original_title := title;
                                updated_title := VNone;
                                meta_description_added := false;
                                keyword_added := false |} s)) with
             | (Ok _, s1) => (Ok (report_entry s1), s1)
             | (Raise e, s1) =>
                 (Ok (report_entry s1),
                  snd (log id (Error_processing_post e) s1))
             end).
Proof.
  unfold process_post, bind, lift.
  destruct (Py.getitem post "id") as [id|e] eqn:Eid; [|left; now exists e].
  destruct (Py.getitem post "title") as [t|e] eqn:Et; [|left; now exists e].
  destruct (Py.getitem t "rendered") as [title|e] eqn:Etr;
    [|left; now exists e].
  destruct (Py.getitem post "content") as [c|e] eqn:Ec; [|left; now exists e].
  destruct (Py.getitem c "rendered") as [content|e] eqn:Ecr;
    [|left; now exists e].
  destruct (Py.getitem post "slug") as [slug|e] eqn:Es; [|left; now exists e].
  right. exists id, t, title, c, content, slug.
  repeat (split; [reflexivity || assumption|]).
  unfold try_except, set_entry, get_entry. cbv beta iota zeta.
  destruct (process_post_try _ _ _ _ _) as [[u|e] s1]; reflexivity.
Qed.

(** X1: [process_post] makes at most eight remote calls for a post, and
    only adds to the calls made before. *)
Theorem process_post_call_budget (post : value) (s : state) :
  exists extra,
    calls (snd (process_post post s)) = (calls s ++ extra)%list
    /\ List.length extra <= 8.
Proof.
  destruct (process_post_cases post s)
    as [(e & E)|(id & t & title & c & content & slug & _ & _ & _ & _ & _ & _ & E)];
    rewrite E.
  - exists []. split; [now rewrite app_nil_r | simpl; lia].
  - match goal with
    | |- context [process_post_try post id title content ?s0] =>
        destruct (frame_process_post_try post id title content s0)
          as (((extra & C & L) & _) & _);
        destruct (process_post_try post id title content s0) as [[u|e] s1]
    end; simpl in *; exists extra; now split.
Qed.

(** X2: a post that lacks one of its four fields leaves no trace.  For any
    other post the entry [process_post] returns names the post and is the
    running entry; it has been appended to [self.report_data], or else the
    [try] block raised: then the report has no row for the post and the
    log ends with the error under the post's id. *)
Theorem process_post_report (post : value) (s : state) :
  match process_post post s with
  | (Raise _, s') => s' = s
  | (Ok e, s') =>
      report_entry s' = e
      /\ Py.getitem post "id" = Ok (post_id e)
      /\ Py.getitem post "slug" = Ok (post_slug e)
      /\ (exists t,
            Py.getitem post "title" = Ok t
            /\ Py.getitem t "rendered" = Ok (original_title e))
      /\ (report_data s' = (report_data s ++ [e])%list
          \/ (report_data s' = report_data s
              /\ exists x lines,
                   log_data s'
                   = (log_data s ++ lines
                      ++ [(post_id e, Error_processing_post x)])%list))
  end.
Proof.
  destruct (process_post_cases post s)
    as [(e & E)|(id & t & title & c & content & slug
                 & Eid & Et & Etr & _ & _ & Es & E)];
    rewrite E; [reflexivity|].
  match goal with
  | |- context [process_post_try post id title content ?s0] =>
      destruct (frame_process_post_try post id title content s0)
        as ((_ & (lines & G) & I & S & T) & R);
      destruct (process_post_try post id title content s0) as [[u|x] s1]
  end; simpl in *.
  - rewrite I, S, T. repeat (split; [reflexivity || assumption|]).
    split; [now exists t|]. now left.
  - rewrite I, S, T. repeat (split; [reflexivity || assumption|]).
    split; [now exists t|]. right. split; [exact R|].
    exists x, lines. now rewrite G, app_assoc.
Qed.

(** ** The loop of [run], post by post *)

Lemma sends_quiet {A} (P : call -> Prop) (m : M A) :
  (forall s, calls (snd (m s)) = calls s) -> sends P m.
Proof.
  intros H s. exists []. split; [now rewrite H, app_nil_r | constructor].
Qed.

Lemma sends_bind {A B} (P : call -> Prop) (m : M A) (f : A -> M B) :
  sends P m -> (forall a, sends P (f a)) -> sends P (bind m f).
Proof.
  intros Hm Hf s. unfold bind. destruct (Hm s) as (x & C & F).
  destruct (m s) as [[a|e] s1]; simpl in *.
  - destruct (Hf a s1) as (y & C' & F'). exists (x ++ y)%list.
    split; [now rewrite C', C, app_assoc | now apply Forall_app].
  - now exists x.
Qed.

Lemma sends_try_except {A} (P : call -> Prop) (body : M A)
    (handler : exn -> M A) :
  sends P body -> (forall e, sends P (handler e)) ->
  sends P (try_except body handler).
Proof.
  intros Hb Hh s. unfold try_except. destruct (Hb s) as (x & C & F).
  destruct (body s) as [[a|e] s1]; simpl in *.
  - now exists x.
  - destruct (Hh e s1) as (y & C' & F'). exists (x ++ y)%list.
    split; [now rewrite C', C, app_assoc | now apply Forall_app].
Qed.

Lemma sends_requests_send (P : call -> Prop) (r : http_request) :
  P (Http r) -> sends P (requests_send r).
Proof. intros H s. exists [Http r]. split; [reflexivity | now constructor]. Qed.

Lemma sends_gemini_generate (P : call -> Prop) (p : prompt) :
  P (Gemini p) -> sends P (gemini_generate p).
Proof. intros H s. exists [Gemini p]. split; [reflexivity | now constructor]. Qed.

(** Takes a computation apart down to its requests. *)
Ltac sends_steps :=
  repeat
    first
      [ apply sends_quiet; solve [intros ?; reflexivity]
      | apply sends_requests_send; solve [assumption | exact I]
      | apply sends_gemini_generate; exact I
      | apply sends_bind; [|intros ?]
      | apply sends_try_except; [|intros ?]
      | match goal with
        | |- sends _ (if ?c then _ else _) => destruct c
        | |- sends _ (match ?x with _ => _ end) => destruct x
        end ].

(** Every call of the [try] block is made for the post at hand. *)
Lemma sends_process_post_try (post id title content : value) :
  Py.getitem post "id" = Ok id ->
  sends (call_for post) (process_post_try post id title content).
Proof.
  intros Id.
  assert (Get : call_for post (Http (Get_post_edit id))) by exact Id.
  assert (Post : forall data, call_for post (Http (Post_post id data)))
    by (intros data; exact Id).
  unfold process_post_try, ensure_keyword, ensure_meta_description,
    write_meta_description, prepare_update, submit_update,
    generate_meta_description, generate_keyword, update_post_title,
    update_first_paragraph, update_rank_math_keyword, get_rank_math_data.
  sends_steps.
Qed.

(** What [process_post] leaves behind for its post. *)
Lemma process_post_step (post : value) (s : state) :
  exists step,
    post_step post step
    /\ report_data (snd (process_post post s))
       = (report_data s ++ fst step)%list
    /\ calls (snd (process_post post s)) = (calls s ++ snd step)%list.
Proof.
  destruct (process_post_cases post s)
    as [(e & E)|(id & t & title & c & content & slug
                 & Eid & Et & Etr & _ & _ & Es & E)]; rewrite E.
  { exists ([], []). simpl. rewrite !app_nil_r.
    split; [|now split]. split; [now left|]. split; [simpl; lia|constructor]. }
  match goal with
  | |- context [process_post_try post id title content ?s0] =>
      destruct (frame_process_post_try post id title content s0)
        as (((extra & C & L) & _ & I & S & T) & R);
      destruct (sends_process_post_try post id title content Eid s0)
        as (extra' & C' & F);
      destruct (process_post_try post id title content s0) as [[u|x] s1]
  end; simpl in C, C', I, S, T, R |- *;
    rewrite C in C'; apply app_inv_head in C'; subst extra'.
  - exists ([report_entry s1], extra). simpl.
    split; [|now split]. split; [|now split].
    right. exists (report_entry s1).
    split; [reflexivity|]. unfold row_for. rewrite I, S, T.
    split; [assumption|]. split; [assumption|]. now exists t.
  - exists ([], extra). simpl. rewrite app_nil_r.
    split; [|now split]. split; [now left | now split].
Qed.

Lemma idle_steps (posts : list value) :
  exists steps,
    Forall2 post_step posts steps
    /\ List.concat (map fst steps) = []
    /\ List.concat (map snd steps) = [].
Proof.
  induction posts as [|post rest (steps & F & R & C)].
  - exists []. repeat split. constructor.
  - exists (([], []) :: steps). simpl. rewrite R, C.
    split; [|now split]. constructor; [|exact F].
    split; [now left|]. split; [simpl; lia | constructor].
Qed.

(** X3: the loop of [run] deals with the posts one after the other.  For
    each post it adds at most one report row, which carries that post's
    id, slug and title, and makes at most eight remote calls; its requests
    to the content API are reads and updates of that post. *)
Theorem run_posts_bounds (posts : list value) :
  forall s,
    exists steps,
      Forall2 post_step posts steps
      /\ report_data (snd (run_posts posts s))
         = (report_data s ++ List.concat (map fst steps))%list
      /\ calls (snd (run_posts posts s))
         = (calls s ++ List.concat (map snd steps))%list.
Proof.
  induction posts as [|post rest IH]; intros s.
  - exists []. simpl. rewrite !app_nil_r. split; [constructor | now split].
  - assert (U : run_posts (post :: rest) s
                = match Py.getitem post "id" with
                  | Ok _ =>
                      match process_post post s with
                      | (Ok _, s1) => run_posts rest s1
                      | (Raise e, s1) => (Raise e, s1)
                      end
                  | Raise e => (Raise e, s)
                  end).
    { simpl. unfold bind, lift. destruct (Py.getitem post "id"); reflexivity. }
    rewrite U. clear U.
    destruct (Py.getitem post "id") as [id0|e0] eqn:E0.
    2:{ destruct (idle_steps (post :: rest)) as (steps & F & R & C).
        exists steps. simpl. rewrite R, C, !app_nil_r. now split. }
    destruct (process_post_step post s) as (step & Hs & Rd & Cl).
    destruct (process_post post s) as [[e|x] s1]; simpl in Rd, Cl.
    + destruct (IH s1) as (steps & F & R & C).
      exists (step :: steps). simpl.
      rewrite R, C, Rd, Cl, <- !app_assoc.
      split; [now constructor | now split].
    + destruct (idle_steps rest) as (steps & F & R & C).
      exists (step :: steps). simpl. rewrite R, C, !app_nil_r.
      split; [now constructor | now split].
Qed.

(** ** The metadata reader and the update writer on errors *)

Lemma get_rank_math_data_ok (id : value) (s : state) :
  exists v,
    get_rank_math_data id s = (Ok v, record_call (Http (Get_post_edit id)) s).
Proof.
  unfold get_rank_math_data. run.
  destruct (requests (calls s) (Get_post_edit id)) as [r|e]; simpl;
    [|now exists VNone].
  destruct (negb _); simpl; [now exists VNone|].
  destruct (json r) as [post_data|e]; simpl; [|now exists VNone].
  destruct (rank_math_of post_data) as [bag|e]; simpl; eauto.
Qed.

(** X4: [get_rank_math_data] never raises and sends exactly one request;
    it gives [None] when the request fails, when the status is not 200 and
    when the body is no JSON, and otherwise what [rank_math_of] finds in
    the body, [None] again when that raises. *)
Theorem get_rank_math_data_never_raises (id : value) (s : state) :
  exists v,
    get_rank_math_data id s = (Ok v, record_call (Http (Get_post_edit id)) s)
    /\ match requests (calls s) (Get_post_edit id) with
       | Raise _ => v = VNone
       | Ok r =>
           if (status_code r =? 200)%Z then
             match json r with
             | Raise _ => v = VNone
             | Ok post_data =>
                 v = match rank_math_of post_data with
                     | Ok bag => bag
                     | Raise _ => VNone
                     end
             end
           else v = VNone
       end.
Proof.
  unfold get_rank_math_data. run.
  destruct (requests (calls s) (Get_post_edit id)) as [r|e]; simpl;
    [|now exists VNone].
  destruct (status_code r =? 200)%Z; simpl; [|now exists VNone].
  destruct (json r) as [post_data|e]; simpl; [|now exists VNone].
  destruct (rank_math_of post_data) as [bag|e]; simpl; eauto.
Qed.

(** X5: reading back what was written.  When the content API answers the
    read with a post whose [meta] holds a bag the way the writer encodes
    it, and [json.loads] undoes [json.dumps] on that bag, then
    [get_rank_math_data] gives the bag. *)
Theorem get_rank_math_data_decodes
    (id bag : value) (s : state) (r : response) (fields meta : Py.dict) :
  requests (calls s) (Get_post_edit id) = Ok r ->
  status_code r = 200%Z ->
  json r = Ok (VDict fields) ->
  Py.dict_get "meta" fields = Some (VDict meta) ->
  Py.dict_get "rank_math_data" meta = Some (VStr (json_dumps bag)) ->
  json_loads (json_dumps bag) = Ok bag ->
  fst (get_rank_math_data id s) = Ok bag.
Proof.
  intros R St J M B L. unfold get_rank_math_data. run.
  rewrite R. simpl. rewrite St, J. simpl.
  unfold rank_math_of, Py.bind, Py.try_except. simpl.
  rewrite M. simpl. rewrite B. simpl. now rewrite L.
Qed.

(** X6: [update_rank_math_keyword] never raises, and it returns [True]
    only when it has sent the update after its read and the content API
    has answered that update with status 200. *)
Theorem update_rank_math_keyword_never_raises
    (id keyword : value) (s : state) :
  exists ok s',
    update_rank_math_keyword id keyword s = (Ok ok, s')
    /\ (ok = true ->
        exists data r,
          calls s'
          = (calls s
             ++ [Http (Get_post_edit id); Http (Post_post id data)])%list
          /\ requests (calls s ++ [Http (Get_post_edit id)])%list
               (Post_post id data) = Ok r
          /\ status_code r = 200%Z).
Proof.
  destruct (get_rank_math_data_ok id s) as (v & G).
  unfold update_rank_math_keyword, try_except, bind. rewrite G.
  unfold lift.
  destruct (Py.setitem match v with VNone => VDict [] | _ => v end
              "focus_keyword" keyword) as [bag|e]; simpl.
  2:{ exists false. eexists. split; [reflexivity | discriminate]. }
  unfold requests_send, ret. simpl.
  destruct (requests _ _) as [r|e] eqn:R; simpl.
  - exists (status_code r =? 200)%Z. eexists. split; [reflexivity|].
    intros St. eexists. exists r. split; [|split; [exact R|]].
    + simpl. now rewrite <- app_assoc.
    + now apply Z.eqb_eq.
  - exists false. eexists. split; [reflexivity | discriminate].
Qed.

(** X7: when no bag is read, [update_rank_math_keyword] sends a bag with
    the keyword alone; when what is read is neither [None] nor a
    dictionary, it sends nothing and returns [False]. *)
Theorem update_rank_math_keyword_other_bags
    (id keyword : value) (s : state) :
  let read := record_call (Http (Get_post_edit id)) s in
  match fst (get_rank_math_data id s) with
  | Ok VNone =>
      calls (snd (update_rank_math_keyword id keyword s))
      = (calls read
         ++ [Http (Post_post id
                     (VDict [("meta",
                              meta_payload
                                (VDict [("focus_keyword", keyword)]))]))])%list
  | Ok (VDict _) => True
  | Ok _ => update_rank_math_keyword id keyword s = (Ok false, read)
  | Raise _ => False
  end.
Proof.
  destruct (get_rank_math_data_ok id s) as (v & G).
  cbv zeta. rewrite G. simpl fst.
  unfold update_rank_math_keyword, try_except, bind. rewrite G.
  destruct v; try reflexivity; try exact I.
  unfold lift, requests_send, ret. simpl.
  now destruct (requests _ _).
Qed.

(** X8: [get_all_published_posts] has no [try]: after any number of full
    pages, a request that fails, a 200 response whose body is no JSON, and
    a 200 response whose body is a number other than 0 each make it raise,
    and the posts of the earlier pages are not returned. *)
Theorem get_all_published_posts_propagates
    (pages : list (list value)) (fuel : nat) (s : state) :
  serves_full_pages pages 1 s ->
  List.length pages < fuel ->
  let page := Z.of_nat (S (List.length pages)) in
  let s' := after_pages (List.length pages) 1 s in
  let final := record_call (Http (Get_posts 100 page)) s' in
  match requests (calls s') (Get_posts 100 page) with
  | Raise e => get_all_published_posts fuel s = (Raise e, final)
  | Ok r =>
      status_code r = 200%Z ->
      match json r with
      | Raise e => get_all_published_posts fuel s = (Raise e, final)
      | Ok (VInt n) =>
          n <> 0%Z -> get_all_published_posts fuel s = (Raise TypeError, final)
      | Ok _ => True
      end
  end.
Proof.
  intros Full Fuel page s' final.
  assert (E : get_all_published_posts fuel s
              = get_all_published_posts_loop
                  (S (fuel - S (List.length pages)))
                  (List.concat pages) page s').
  { unfold get_all_published_posts.
    replace fuel
      with (List.length pages + S (fuel - S (List.length pages))) at 1
      by lia.
    rewrite (loop_full_pages _ _ _ _ _ Full). simpl app. f_equal.
    unfold page. lia. }
  rewrite E, loop_unfold. change 100%Z with per_page in *.
  destruct (requests (calls s') (Get_posts per_page page)) as [r|e];
    [|reflexivity].
  intros St. cbv zeta. rewrite St. simpl negb. cbv iota.
  destruct (json r) as [batch|e]; [|reflexivity].
  destruct batch; try exact I.
  intros N. simpl.
  destruct (Z.eqb_spec n 0); [contradiction | reflexivity].
Qed.

(** ** Which parts of the state a step touches *)

Lemma bind_ok {A B} (m : M A) (f : A -> M B) (s s' : state) (b : B) :
  bind m f s = (Ok b, s') ->
  exists a s1, m s = (Ok a, s1) /\ f a s1 = (Ok b, s').
Proof.
  unfold bind. destruct (m s) as [[a|e] s1]; [|discriminate].
  intros H. now exists a, s1.
Qed.

Lemma keeps_ret {F A} (proj : state -> F) (a : A) : keeps proj (ret a).
Proof. now intros s. Qed.

Lemma keeps_raise {F A} (proj : state -> F) (e : exn) :
  keeps proj (@raise A e).
Proof. now intros s. Qed.

Lemma keeps_lift {F A} (proj : state -> F) (r : result A) :
  keeps proj (lift r).
Proof. now intros s. Qed.

Lemma keeps_bind {F A B} (proj : state -> F) (m : M A) (f : A -> M B) :
  keeps proj m -> (forall a, keeps proj (f a)) -> keeps proj (bind m f).
Proof.
  intros Hm Hf s. unfold bind. specialize (Hm s).
  destruct (m s) as [[a|e] s1]; simpl in *; [|exact Hm].
  now rewrite (Hf a s1).
Qed.

Lemma keeps_try_except {F A} (proj : state -> F) (body : M A)
    (handler : exn -> M A) :
  keeps proj body -> (forall e, keeps proj (handler e)) ->
  keeps proj (try_except body handler).
Proof.
  intros Hb Hh s. unfold try_except. specialize (Hb s).
  destruct (body s) as [[a|e] s1]; simpl in *; [exact Hb|].
  now rewrite (Hh e s1).
Qed.

(** Takes a computation apart down to the steps that change the state. *)
Ltac keeps_steps :=
  repeat
    first
      [ apply keeps_ret | apply keeps_raise | apply keeps_lift
      | solve [intros ?; reflexivity]
      | apply keeps_bind; [|intros ?]
      | apply keeps_try_except; [|intros ?]
      | match goal with
        | |- keeps _ (if ?c then _ else _) => destruct c
        | |- keeps _ (match ?x with _ => _ end) => destruct x
        end ].

Ltac unfold_helpers :=
  unfold generate_meta_description, generate_keyword, update_post_title,
    update_first_paragraph, update_rank_math_keyword, get_rank_math_data.

(** The helpers that talk to the two services change nothing but the
    calls: they write no log line and leave the running entry alone. *)
Lemma helpers_keep_entry :
  (forall id, keeps report_entry (get_rank_math_data id))
  /\ (forall id k, keeps report_entry (update_rank_math_keyword id k))
  /\ (forall c t, keeps report_entry (generate_keyword c t))
  /\ (forall c k n, keeps report_entry (generate_meta_description c k n))
  /\ (forall t k, keeps report_entry (update_post_title t k))
  /\ (forall c k, keeps report_entry (update_first_paragraph c k)).
Proof.
  repeat split; intros; unfold_helpers; unfold get_rank_math_data;
    keeps_steps.
Qed.

Lemma helpers_keep_log :
  (forall id, keeps log_data (get_rank_math_data id))
  /\ (forall id k, keeps log_data (update_rank_math_keyword id k))
  /\ (forall c t, keeps log_data (generate_keyword c t))
  /\ (forall c k n, keeps log_data (generate_meta_description c k n))
  /\ (forall t k, keeps log_data (update_post_title t k))
  /\ (forall c k, keeps log_data (update_first_paragraph c k)).
Proof.
  repeat split; intros; unfold_helpers; unfold get_rank_math_data;
    keeps_steps.
Qed.

(** ** The report flags *)

Lemma process_post_try_unfold (post id title content : value) (s : state) :
  process_post_try post id title content s
  = match read_yoast post with
    | Raise e => (Raise e, s)
    | Ok yoast =>
        match get_rank_math_data id s with
        | (Raise e, s1) => (Raise e, s1)
        | (Ok rmd, s1) =>
            match read_rank_math rmd (fst yoast) (snd yoast) with
            | Raise e => (Raise e, s1)
            | Ok (md, mde, kw, ke) =>
                match ensure_keyword id title content kw ke s1 with
                | (Raise e, s2) => (Raise e, s2)
                | (Ok (kw', ke'), s2) =>
                    finish_post id title content md mde rmd kw' ke' s2
                end
            end
        end
    end.
Proof.
  unfold process_post_try, finish_post, bind, lift.
  destruct (read_yoast post) as [yoast|e]; [|reflexivity].
  destruct (get_rank_math_data id s) as [[rmd|e] s1]; [|reflexivity].
  destruct (read_rank_math rmd (fst yoast) (snd yoast))
    as [[[[md mde] kw] ke]|e]; [|reflexivity].
  destruct (ensure_keyword id title content kw ke s1) as [[[kw' ke']|e] s2];
    reflexivity.
Qed.

Lemma frame_finish_post
    (id title content md : value) (mde : bool) (rmd kw : value) (ke : bool) :
  frame 4 true (finish_post id title content md mde rmd kw ke).
Proof.
  unfold finish_post.
  apply (frame_bind 1 3);
    [now apply frame_ensure_meta_description | intros md' | lia].
  apply (frame_bind 2 1); [now apply frame_prepare_update | intros prepared | lia].
  apply (frame_bind 1 0); [now apply frame_submit_update | intros _ | lia].
  apply frame_append_report.
Qed.

Lemma finish_post_keeps_keyword_added
    (id title content md : value) (mde : bool) (rmd kw : value) (ke : bool) :
  keeps (fun s => keyword_added (report_entry s))
    (finish_post id title content md mde rmd kw ke).
Proof.
  unfold finish_post, ensure_meta_description, write_meta_description,
    prepare_update, submit_update. unfold_helpers. keeps_steps.
Qed.

Lemma update_rank_math_keyword_outcome (id keyword : value) (s : state) :
  exists ok s',
    update_rank_math_keyword id keyword s = (Ok ok, s')
    /\ report_entry s' = report_entry s
    /\ (ok = true ->
        exists bag r,
          calls s'
          = ((calls s ++ [Http (Get_post_edit id)])
             ++ [Http (Post_post id
                         (VDict [("meta", meta_payload (VDict bag))]))])%list
          /\ Py.dict_get "focus_keyword" bag = Some keyword
          /\ requests (calls s ++ [Http (Get_post_edit id)])%list
               (Post_post id (VDict [("meta", meta_payload (VDict bag))]))
             = Ok r
          /\ status_code r = 200%Z).
Proof.
  destruct (get_rank_math_data_ok id s) as (v & G).
  unfold update_rank_math_keyword, try_except, bind. rewrite G.
  unfold lift.
  destruct (Py.setitem match v with VNone => VDict [] | _ => v end
              "focus_keyword" keyword) as [bag|e] eqn:S; simpl.
  2:{ exists false. eexists. repeat split. discriminate. }
  assert (B : exists d, bag = VDict d
                        /\ Py.dict_get "focus_keyword" d = Some keyword).
  { destruct v; simpl in S; try discriminate; injection S as <-;
      eexists; (split; [reflexivity|]);
      first [apply dict_get_set_same | reflexivity]. }
  destruct B as (d & -> & D).
  unfold requests_send, ret. simpl.
  destruct (requests _ _) as [r|e] eqn:R; simpl.
  - exists (status_code r =? 200)%Z. eexists.
    split; [reflexivity|]. split; [reflexivity|].
    intros St. exists d, r. repeat split; try assumption.
    now apply Z.eqb_eq.
  - exists false. eexists. repeat split. discriminate.
Qed.

(** A keyword generation that returns has sent its one request. *)
Lemma generate_keyword_call
    (content title keyword : value) (s s1 : state) :
  generate_keyword content title s = (Ok keyword, s1) ->
  exists sample,
    sample_of content = Ok sample
    /\ s1 = record_call (Gemini (Prompt_keyword title sample)) s.
Proof.
  unfold generate_keyword. run.
  destruct (sample_of content) as [sample|e]; simpl; [|discriminate].
  intros E. exists sample. split; [reflexivity|].
  destruct (generate_content _ _) as [response_text|e]; simpl in E;
    [|now injection E].
  destruct (PyStr.contains _ _); [|now injection E].
  destruct (PyStr.split1 ":" (PyStr.strip response_text)) as [|? [|? ?]];
    now injection E.
Qed.

(** The keyword step sets [keyword_added] only after a write of the
    keyword that the content API answered with 200: the third of its
    calls. *)
Lemma ensure_keyword_added
    (id title content kw0 : value) (ke : bool) (s : state) :
  keyword_added (report_entry s) = false ->
  keyword_added
    (report_entry (snd (ensure_keyword id title content kw0 ke s))) = true ->
  exists keyword bag r sample,
    let before :=
      [Gemini (Prompt_keyword title sample); Http (Get_post_edit id)] in
    let update :=
      Post_post id (VDict [("meta", meta_payload (VDict bag))]) in
    Py.truthy keyword = true
    /\ sample_of content = Ok sample
    /\ calls (snd (ensure_keyword id title content kw0 ke s))
       = (calls s ++ before ++ [Http update])%list
    /\ Py.dict_get "focus_keyword" bag = Some keyword
    /\ requests (calls s ++ before)%list update = Ok r
    /\ status_code r = 200%Z.
Proof.
  intros F0.
  remember (ensure_keyword id title content kw0 ke s) as out eqn:E.
  unfold ensure_keyword in E.
  destruct (negb ke); [|subst out; simpl; congruence].
  unfold bind, log in E. simpl in E.
  destruct helpers_keep_entry as (_ & _ & Hk & _).
  match type of E with
  | context [generate_keyword content title ?s0] =>
      pose proof (Hk content title s0) as Ke;
      destruct (generate_keyword content title s0) as [[keyword|e] s1] eqn:G
  end; simpl in Ke; [|subst out; simpl; congruence].
  apply generate_keyword_call in G as (sample & Sm & ->). clear Ke.
  destruct (Py.truthy keyword) eqn:T; [|subst out; simpl; congruence].
  match type of E with
  | context [update_rank_math_keyword id keyword ?st] =>
      destruct (update_rank_math_keyword_outcome id keyword st)
        as (ok & s2 & U & E2 & P); rewrite U in E
  end.
  simpl in E2. destruct ok; subst out; simpl.
  - destruct (P eq_refl) as (bag & r & C & D & R & St). intros _.
    simpl in C, R. rewrite <- !app_assoc in C. rewrite <- !app_assoc in R.
    simpl in C, R. exists keyword, bag, r, sample. cbv zeta.
    split; [exact T|]. split; [exact Sm|]. split; [exact C|].
    repeat split; assumption.
  - rewrite E2. simpl. congruence.
Qed.

(** X9: the entry that [process_post] returns has [keyword_added] set
    only if, in this call, after the first read and the keyword request,
    a second read was followed by an update of the post whose bag has a
    non-empty keyword under [focus_keyword], and the content API answered
    that update with status 200. *)
Theorem process_post_keyword_added (post : value) (s : state) :
  match process_post post s with
  | (Raise _, _) => True
  | (Ok e, s') =>
      keyword_added e = true ->
      exists keyword bag r sample rest,
        let before :=
          [Http (Get_post_edit (post_id e));
           Gemini (Prompt_keyword (original_title e) sample);
           Http (Get_post_edit (post_id e))] in
        let update :=
          Post_post (post_id e) (VDict [("meta", meta_payload (VDict bag))]) in
        Py.truthy keyword = true
        /\ Py.dict_get "focus_keyword" bag = Some keyword
        /\ calls s' = (calls s ++ before ++ Http update :: rest)%list
        /\ requests (calls s ++ before)%list update = Ok r
        /\ status_code r = 200%Z
  end.
Proof.
  destruct (process_post_cases post s)
    as [(e & E)|(id & t & title & c & content & slug
                 & _ & _ & _ & _ & _ & _ & E)];
    rewrite E; [exact I|].
  set (s0 := snd (set_entry _ s)).
  assert (W : forall out,
             process_post_try post id title content s0 = out ->
             keyword_added (report_entry (snd out)) = true ->
             post_id (report_entry (snd out)) = id
             /\ original_title (report_entry (snd out)) = title
             /\ exists keyword bag r sample rest,
                  Py.truthy keyword = true
                  /\ Py.dict_get "focus_keyword" bag = Some keyword
                  /\ calls (snd out)
                     = (calls s
                        ++ [Http (Get_post_edit id);
                            Gemini (Prompt_keyword title sample);
                            Http (Get_post_edit id)]
                        ++ Http (Post_post id
                                   (VDict [("meta",
                                            meta_payload (VDict bag))]))
                           :: rest)%list
                  /\ requests
                       (calls s
                        ++ [Http (Get_post_edit id);
                            Gemini (Prompt_keyword title sample);
                            Http (Get_post_edit id)])%list
                       (Post_post id
                          (VDict [("meta", meta_payload (VDict bag))]))
                     = Ok r
                  /\ status_code r = 200%Z).
  { intros out <- F.
    destruct (frame_process_post_try post id title content s0)
      as ((_ & _ & Id & _ & Ti) & _).
    split; [exact Id|]. split; [exact Ti|]. clear Id Ti.
    rewrite process_post_try_unfold in F |- *.
    destruct (read_yoast post) as [yoast|e]; [|discriminate F].
    destruct (get_rank_math_data_ok id s0) as (rmd & G).
    rewrite G in F |- *.
    destruct (read_rank_math rmd (fst yoast) (snd yoast))
      as [[[[md mde] kw] ke]|e]; [|discriminate F].
    set (s1 := record_call (Http (Get_post_edit id)) s0) in *.
    pose proof (ensure_keyword_added id title content kw ke s1 eq_refl) as K.
    cbv zeta in K.
    destruct (ensure_keyword id title content kw ke s1) as [[[kw' ke']|e] s2];
      simpl in K.
    - rewrite (finish_post_keeps_keyword_added id title content md mde rmd
                 kw' ke' s2) in F.
      destruct (K F) as (keyword & bag & r & sample & T & _ & C & D & R & St).
      destruct (frame_finish_post id title content md mde rmd kw' ke' s2)
        as (((rest & Cr & _) & _) & _).
      rewrite <- app_assoc in C. rewrite <- app_assoc in R. simpl in C, R.
      exists keyword, bag, r, sample, rest. repeat split; try assumption.
      rewrite Cr, C, <- app_assoc. reflexivity.
    - simpl in F.
      destruct (K F) as (keyword & bag & r & sample & T & _ & C & D & R & St).
      rewrite <- app_assoc in C. rewrite <- app_assoc in R. simpl in C, R.
      exists keyword, bag, r, sample, []. repeat split; assumption. }
  destruct (process_post_try post id title content s0) as [[u|x] s1] eqn:P;
    intros F.
  - destruct (W _ eq_refl F) as (Id & Ti & H). simpl in Id, Ti, H.
    cbv zeta. now rewrite Id, Ti.
  - destruct (W _ eq_refl F) as (Id & Ti & H). simpl in Id, Ti, H |- *.
    now rewrite Id, Ti.
Qed.

(** ** The bag of the final update *)

(** The payload that [prepare_update] builds has a [meta] entry exactly
    when there is a description, and the entry is the bag it was given
    with the description set. *)
Lemma prepare_update_meta
    (id title content md keyword : value) (ke : bool) (rmd : value)
    (s s' : state) (update_data : Py.dict) (updates_needed : bool) :
  prepare_update id title content md keyword ke rmd s
  = (Ok (update_data, updates_needed), s') ->
  Py.dict_get "meta" update_data
  = if Py.truthy md
    then Some (meta_payload
                 (VDict (Py.dict_set "description" md (bag_of rmd))))
    else None.
Proof.
  unfold prepare_update. intros H.
  apply bind_ok in H as (entry & s1 & _ & H). cbv zeta in H.
  apply bind_ok in H as (title_lacks & s2 & _ & H).
  apply bind_ok in H as (un & s3 & _ & H).
  apply bind_ok in H as (entry' & s4 & _ & H).
  apply bind_ok in H as (content_lacks & s5 & _ & H).
  apply bind_ok in H as (ud1 & s6 & H6 & H).
  apply bind_ok in H as (ud2 & s7 & H7 & H).
  injection H as <- _ _.
  set (ud0 := if Py.truthy (updated_title entry')
              then Py.dict_set "title" (updated_title entry') []
              else []) in *.
  assert (M0 : Py.dict_get "meta" ud0 = None)
    by (unfold ud0; now destruct (Py.truthy (updated_title entry'))).
  assert (M1 : Py.dict_get "meta" ud1 = None).
  { destruct content_lacks; [|injection H6 as <- _; exact M0].
    destruct content; try discriminate. destruct keyword; try discriminate.
    apply bind_ok in H6 as (new_content & sx & _ & H6).
    destruct (negb _); [|injection H6 as <- _; exact M0].
    apply bind_ok in H6 as (u & sy & _ & H6). injection H6 as <- _.
    now rewrite dict_get_set_other by discriminate. }
  destruct (Py.truthy md); [|injection H7 as <- _; exact M1].
  apply bind_ok in H7 as (bag & sb & S & H7). injection H7 as <- _.
  rewrite dict_get_set_same. f_equal. f_equal.
  unfold lift in S. injection S as S _.
  destruct rmd as [| | | | |fields]; simpl in S;
    try (destruct (negb _); simpl in S; (discriminate || now injection S as <-)).
  - now injection S as <-.
  - destruct fields; simpl in S; now injection S as <-.
Qed.

(** The description step sets [meta_description_added] only when it
    returns a description. *)
Lemma ensure_meta_description_added
    (id content md0 : value) (mde : bool) (kw : value) (ke : bool)
    (s : state) :
  meta_description_added (report_entry s) = false ->
  meta_description_added
    (report_entry (snd (ensure_meta_description id content md0 mde kw ke s)))
  = true ->
  exists md,
    fst (ensure_meta_description id content md0 mde kw ke s) = Ok md
    /\ Py.truthy md = true.
Proof.
  intros F0.
  assert (W : forall announce s0,
             meta_description_added (report_entry s0) = false ->
             meta_description_added
               (report_entry
                  (snd (write_meta_description id content kw announce s0)))
             = true ->
             exists md,
               fst (write_meta_description id content kw announce s0) = Ok md
               /\ Py.truthy md = true).
  { intros announce s0 F.
    remember (write_meta_description id content kw announce s0) as out eqn:E.
    unfold write_meta_description, bind in E.
    destruct helpers_keep_entry as (_ & _ & _ & Hg & _).
    pose proof (Hg content kw max_length_default s0) as K.
    destruct (generate_meta_description content kw max_length_default s0)
      as [[md|e] s1]; simpl in K; [|subst out; simpl; congruence].
    destruct (Py.truthy md) eqn:T; subst out; simpl; [|congruence].
    intros _. now exists md. }
  remember (ensure_meta_description id content md0 mde kw ke s) as out eqn:E.
  unfold ensure_meta_description in E. destruct (negb mde).
  - unfold bind at 1 in E. unfold log at 1 in E. cbv beta iota in E.
    subst out. now apply W.
  - unfold bind at 1 in E.
    destruct ((if ke
               then lift (d <~ Py.str_method md0 ;;
                          found <~ Py.in_str kw (PyStr.lower d) ;;
                          Ok (negb found))
               else ret false) s) as [[lacks|e] s1] eqn:L.
    + assert (s1 = s) by (destruct ke; unfold lift, ret in L; congruence).
      subst s1. destruct lacks.
      * unfold bind at 1 in E. unfold log at 1 in E. cbv beta iota in E.
        subst out. now apply W.
      * subst out. simpl. congruence.
    + assert (s1 = s) by (destruct ke; unfold lift, ret in L; congruence).
      subst out s1. simpl. congruence.
Qed.

Lemma keeps_meta_description_added :
  (forall id title content kw ke,
      keeps (fun s => meta_description_added (report_entry s))
        (ensure_keyword id title content kw ke))
  /\ (forall id title content md kw ke rmd,
        keeps (fun s => meta_description_added (report_entry s))
          (prepare_update id title content md kw ke rmd))
  /\ (forall id update_data,
        keeps (fun s => meta_description_added (report_entry s))
          (submit_update id update_data)).
Proof.
  repeat split; intros;
    unfold ensure_keyword, prepare_update, submit_update; unfold_helpers;
    unfold get_rank_math_data; keeps_steps.
Qed.

(** X10: when the [try] block of [process_post] completes and has flagged
    a description as added, its last call is the final update, and the bag
    in it is the bag of the first read with the description set: on every
    other key, [focus_keyword] included, it has what the first read had,
    whatever was stored in between. *)
Theorem description_update_from_first_read
    (post id title content rmd : value) (s s1 s' : state) :
  meta_description_added (report_entry s) = false ->
  get_rank_math_data id s = (Ok rmd, s1) ->
  process_post_try post id title content s = (Ok tt, s') ->
  meta_description_added (report_entry s') = true ->
  exists pre update_data bag md,
    calls s' = (pre ++ [Http (Post_post id (VDict update_data))])%list
    /\ Py.dict_get "meta" update_data = Some (meta_payload (VDict bag))
    /\ Py.dict_get "description" bag = Some md
    /\ Py.truthy md = true
    /\ forall key,
         key <> "description" ->
         Py.dict_get key bag = Py.dict_get key (bag_of rmd).
Proof.
  intros F0 G P F.
  destruct keeps_meta_description_added as (Kk & Kp & Ks).
  destruct helpers_keep_entry as (Kg & _).
  rewrite process_post_try_unfold in P.
  destruct (read_yoast post) as [yoast|e]; [|discriminate].
  rewrite G in P.
  destruct (read_rank_math rmd (fst yoast) (snd yoast))
    as [[[[md0 mde] kw] ke]|e]; [|discriminate].
  pose proof (Kk id title content kw ke s1) as F2.
  destruct (ensure_keyword id title content kw ke s1) as [[[kw' ke']|e] s2];
    [|discriminate].
  simpl in F2. unfold finish_post in P.
  apply bind_ok in P as (md & s3 & Em & P).
  apply bind_ok in P as ([update_data un] & s4 & Ep & P).
  apply bind_ok in P as (u & s5 & Es & P).
  unfold append_report in P. injection P as <-.
  simpl in F, Es |- *.
  pose proof (Kp id title content md kw' ke' rmd s3) as F4.
  pose proof (Ks id update_data s4) as F5.
  rewrite Ep in F4. rewrite Es in F5. simpl in F4, F5, Es.
  assert (F1 : meta_description_added (report_entry s1) = false).
  { pose proof (Kg id s) as K1. rewrite G in K1. simpl in K1.
    now rewrite K1. }
  destruct (ensure_meta_description_added id content md0 mde kw' ke' s2)
    as (md' & Emd & T); rewrite ?Em; simpl; try congruence.
  rewrite Em in Emd. simpl in Emd. injection Emd as <-.
  pose proof (prepare_update_meta _ _ _ _ _ _ _ _ _ _ _ Ep) as M.
  rewrite T in M.
  assert (N : update_data <> []) by (intros ->; discriminate).
  destruct (submit_update_sends id update_data s4 N) as (_ & C & _).
  rewrite Es in C. simpl in C.
  exists (calls s4), update_data,
    (Py.dict_set "description" md (bag_of rmd)), md.
  repeat split; try assumption.
  - apply dict_get_set_same.
  - intros key Nk. now apply dict_get_set_other.
Qed.

(** ** The workflow while the text generator is down *)







Section Down.

Hypothesis down : forall history p, exists e, generate_content history p = Raise e.












End Down.

(** ** The generation client at its edges *)

Lemma take_length_le (n : nat) (s : string) :
  String.length (PyStr.take n s) <= n.
Proof.
  revert s; induction n as [|n IH]; intros s.
  - destruct s; simpl; lia.
  - destruct s as [|c s]; simpl; [lia|]. specialize (IH s). lia.
Qed.

(** X12: both generators send one request whose content sample has at
    most 1500 characters, and the description prompt names the keyword or,
    for an empty one, the placeholder; content that is no string makes
    them raise before any request, outside their [try]. *)
Theorem generation_prompts (content keyword title : value) (n : Z)
    (s : state) :
  match content with
  | VStr c =>
      exists sample,
        String.length sample <= 1500
        /\ calls (snd (generate_meta_description content keyword n s))
           = (calls s
              ++ [Gemini
                    (Prompt_meta_description sample
                       (if Py.truthy keyword then keyword
                        else VStr "[generate appropriate keyword]"))])%list
        /\ calls (snd (generate_keyword content title s))
           = (calls s ++ [Gemini (Prompt_keyword title sample)])%list
  | _ =>
      generate_meta_description content keyword n s = (Raise TypeError, s)
      /\ generate_keyword content title s = (Raise TypeError, s)
  end.
Proof.
  destruct content as [| | |c| |]; try (split; reflexivity).
  exists (sample_text c). split; [apply take_length_le|].
  unfold generate_meta_description, generate_keyword, sample_of. run.
  split.
  - now destruct (generate_content _ _).
  - destruct (generate_content _ _) as [text|e]; simpl; [|reflexivity].
    destruct (PyStr.contains ":" (PyStr.strip text)); [|reflexivity].
    now destruct (PyStr.split1 ":" (PyStr.strip text)) as [|? [|? ?]].
Qed.

Lemma lstrip_start (s : string) :
  match PyStr.lstrip s with
  | EmptyString => True
  | String c _ => PyStr.is_space c = false
  end.
Proof.
  induction s as [|c s IH]; simpl; [exact I|].
  destruct (PyStr.is_space c) eqn:E; [exact IH | exact E].
Qed.

Lemma rstrip_start (s : string) :
  match s with
  | EmptyString => True
  | String c _ => PyStr.is_space c = false
  end ->
  match PyStr.rstrip s with
  | EmptyString => True
  | String c _ => PyStr.is_space c = false
  end.
Proof.
  destruct s as [|c s]; simpl; [auto|]. intros E.
  destruct (PyStr.rstrip s); [now rewrite E | exact E].
Qed.

Lemma lstrip_fixed (s : string) :
  match s with
  | EmptyString => True
  | String c _ => PyStr.is_space c = false
  end ->
  PyStr.lstrip s = s.
Proof.
  destruct s as [|c s]; simpl; [reflexivity|]. now intros ->.
Qed.

Lemma rstrip_rstrip (s : string) :
  PyStr.rstrip (PyStr.rstrip s) = PyStr.rstrip s.
Proof.
  induction s as [|c s IH]; simpl; [reflexivity|].
  destruct (PyStr.rstrip s) as [|d r] eqn:R.
  - destruct (PyStr.is_space c) eqn:E; simpl; [reflexivity | now rewrite E].
  - simpl in IH |- *. now rewrite IH.
Qed.

Lemma strip_strip (s : string) : PyStr.strip (PyStr.strip s) = PyStr.strip s.
Proof.
  unfold PyStr.strip.
  rewrite (lstrip_fixed (PyStr.rstrip (PyStr.lstrip s))).
  - apply rstrip_rstrip.
  - apply rstrip_start, lstrip_start.
Qed.

(** X13: [generate_keyword] returns [None] or a string without white
    space at either end (the empty string included); the only exception it
    lets out is the [TypeError] for content that is no string. *)
Theorem generate_keyword_trimmed (content title : value) (s : state) :
  match fst (generate_keyword content title s) with
  | Ok (VStr k) => PyStr.strip k = k
  | Ok VNone => True
  | Ok _ => False
  | Raise e =>
      e = TypeError /\ match content with VStr _ => False | _ => True end
  end.
Proof.
  unfold generate_keyword, sample_of.
  destruct content as [| | |c| |]; try (simpl; now split).
  run. destruct (generate_content _ _) as [text|e]; simpl; [|exact I].
  destruct (PyStr.contains ":" (PyStr.strip text)); simpl;
    [|apply strip_strip].
  destruct (PyStr.split1 ":" (PyStr.strip text)) as [|? [|? ?]]; simpl;
    exact I || apply strip_strip.
Qed.

Lemma replace_from_same (old s : string) :
  old <> "" ->
  forall skip,
    skip <= String.length s ->
    PyStr.replace_from old old s skip = PyStr.drop skip s.
Proof.
  intros Ne. induction s as [|c s IH]; intros skip L.
  - now destruct skip.
  - destruct skip as [|k].
    + change (PyStr.replace_from old old (String c s) 0)
        with (if prefix old (String c s)
              then old ++ PyStr.replace_from old old s (String.length old - 1)
              else String c (PyStr.replace_from old old s 0)).
      destruct (prefix old (String c s)) eqn:P.
      * pose proof (prefix_drop _ _ P) as D.
        destruct old as [|o old']; [now elim Ne|].
        change (String.length (String o old') - 1)
          with (String.length old' - 0).
        rewrite Nat.sub_0_r.
        assert (Lo : String.length old' <= String.length s).
        { apply (f_equal String.length) in D.
          rewrite append_length in D. simpl in D. lia. }
        rewrite (IH _ Lo). simpl in D |- *. exact (eq_sym D).
      * rewrite (IH 0 (Nat.le_0_l _)). now destruct s.
    + simpl in L |- *. apply IH. lia.
Qed.

Lemma intersperse_empty (s : string) : PyStr.intersperse "" s = s.
Proof. induction s as [|c s IH]; simpl; [reflexivity | now rewrite IH]. Qed.

(** X14: when the backend gives the first paragraph back as it is,
    [update_first_paragraph] returns the content unchanged, so
    [process_post] has no new content to send. *)
Theorem update_first_paragraph_echo
    (content keyword first_para response_text : string) (s : state) :
  PyStr.search_first_paragraph content = Some first_para ->
  generate_content (calls s)
    (Prompt_paragraph keyword (PyStr.strip_tags first_para))
  = Ok response_text ->
  PyStr.strip response_text = first_para ->
  fst (update_first_paragraph content keyword s) = Ok content.
Proof.
  intros F G E. unfold update_first_paragraph. rewrite F.
  destruct (PyStr.contains _ _); [reflexivity|].
  run. rewrite G. simpl. rewrite E. f_equal.
  unfold PyStr.replace. destruct first_para as [|c p].
  - apply intersperse_empty.
  - rewrite replace_from_same by (discriminate || lia). now destruct content.
Qed.

(** ** The address of the content API *)

Lemma rstrip_slash_slashes (n : nat) : rstrip_slash (slashes n) = "".
Proof. induction n as [|n IH]; simpl; [reflexivity | now rewrite IH]. Qed.

Lemma rstrip_slash_append (s : string) (n : nat) :
  rstrip_slash (s ++ slashes n) = rstrip_slash s.
Proof.
  induction s as [|c s IH]; simpl; [apply rstrip_slash_slashes|].
  now rewrite IH.
Qed.

Lemma rstrip_slash_end (s b : string) : rstrip_slash s <> b ++ "/".
Proof.
  revert b; induction s as [|c s IH]; intros b; simpl.
  - now destruct b.
  - destruct (rstrip_slash s) as [|d r] eqn:R.
    + destruct (Ascii.eqb_spec c "/") as [->|N].
      * now destruct b.
      * destruct b as [|x b]; simpl; [congruence|].
        intros [= _ H]. now destruct b.
    + destruct b as [|x b]; simpl; [discriminate|].
      intros [= _ H]. exact (IH b H).
Qed.

(** X15: [__init__] builds the same API address whether or not the site
    address ends in slashes, and the site address it keeps never ends in
    one, so the join has a single slash. *)
Theorem api_url_trailing_slashes (base_url : string) (n : nat) :
  api_url_of (base_url ++ slashes n) = api_url_of base_url
  /\ (forall b, base_url_of base_url <> b ++ "/")
  /\ exists k, base_url = base_url_of base_url ++ slashes k.
Proof.
  unfold api_url_of, base_url_of. split; [|split].
  - now rewrite rstrip_slash_append.
  - apply rstrip_slash_end.
  - induction base_url as [|c s (k & IH)]; simpl.
    + now exists 0.
    + destruct (rstrip_slash s) as [|d r] eqn:R.
      * destruct (Ascii.eqb_spec c "/") as [->|N].
        -- exists (S k). simpl. f_equal. exact IH.
        -- exists k. simpl. f_equal. exact IH.
      * exists k. simpl. f_equal. exact IH.
Qed.

(** ** A post without its fields *)

Lemma run_posts_app (good rest : list value) (s : state) :
  Forall (fun post => content_item post = true) good ->
  run_posts (good ++ rest) s = run_posts rest (snd (run_posts good s)).
Proof.
  intros All. revert s. induction All as [|post good C _ IH]; intros s.
  - reflexivity.
  - destruct (process_post_catches post s C)
      as (id & title & content & slug & Eid & H).
    cbv zeta in H. simpl. unfold bind at 1 3. unfold lift.
    rewrite Eid. unfold bind at 1 2.
    destruct (process_post_try _ _ _ _ _) as [[u|e] s1]; rewrite H; apply IH.
Qed.

(** X16: a post that lacks one of the four fields stops the loop of [run]
    where it stands: the posts before it are processed, the exception
    leaves the loop, and no later post is looked at. *)
Theorem run_posts_stops_at_missing_field
    (good rest : list value) (bad : value) (s : state) :
  Forall (fun post => content_item post = true) good ->
  content_item bad = false ->
  exists e,
    run_posts (good ++ bad :: rest) s = (Raise e, snd (run_posts good s)).
Proof.
  intros All Bad. rewrite (run_posts_app _ _ _ All).
  set (s1 := snd (run_posts good s)). clearbody s1.
  simpl. unfold bind at 1. unfold lift.
  destruct (Py.getitem bad "id") as [id|e] eqn:Eid; [|now exists e].
  unfold bind at 1.
  destruct (process_post_cases bad s1)
    as [(e & ->)|(id' & t & title & c & content & slug
                  & Gi & Gt & Gtr & Gc & Gcr & Gs & _)];
    [now exists e|].
  exfalso. unfold content_item in Bad.
  destruct bad as [| | | | |fields]; try discriminate.
  unfold Py.getitem in Gi, Gt, Gc, Gs.
  destruct (Py.dict_get "id" fields); [|discriminate].
  destruct (Py.dict_get "title" fields) as [t'|]; [|discriminate].
  destruct (Py.dict_get "content" fields) as [c'|]; [|discriminate].
  destruct (Py.dict_get "slug" fields); [|discriminate].
  injection Gt as ->. injection Gc as ->.
  destruct t as [| | | | |tf]; try discriminate.
  destruct c as [| | | | |cf]; try discriminate.
  unfold Py.getitem in Gtr, Gcr.
  destruct (Py.dict_get "rendered" tf); [|discriminate].
  destruct (Py.dict_get "rendered" cf); discriminate.
Qed.

End Optimizer.

(** ** The workflow on concrete posts *)

(** C1: [widget_post] satisfies every presence check (it has a description
    and a keyword, the keyword is in the description, in the title and in
    the body), and nothing is added or changed for it; [process_post] still
    sends an update, which carries the bag it has just read. *)
Theorem process_post_writes_settled_post
    (json_dumps : value -> string) (json_loads : string -> result value)
    (html_unescape : string -> string)
    (generate_content : list call -> prompt -> result string) :
  let entry :=
    {| post_id := VInt 7; post_slug := VStr "blue-widgets";
       original_title := VStr "Blue Widgets for Beginners";
       updated_title := VNone; meta_description_added := false;
       keyword_added := false |} in
  process_post json_dumps json_loads html_unescape widget_requests
    generate_content widget_post initial_state
  = (Ok entry,
     {| calls :=
          [Http (Get_post_edit (VInt 7));
           Http (Post_post (VInt 7)
                   (VDict [("meta",
                            VDict [("rank_math_data",
                                    VStr (json_dumps (VDict widget_bag)))])]))];
        log_data := [(VInt 7, Successfully_updated_post)];
        report_data := [entry];
        report_entry := entry |}).
Proof. reflexivity. Qed.

(** The payload of that update is not empty although [updates_needed] is
    false. *)
Example prepare_update_settled_post
    (json_dumps : value -> string)
    (generate_content : list call -> prompt -> result string) :
  fst (prepare_update json_dumps generate_content (VInt 7)
         (VStr "Blue Widgets for Beginners")
         (VStr "<p>All about blue widgets.</p>")
         (VStr "learn how blue widgets work") (VStr "blue widgets") true
         (VDict widget_bag) initial_state)
  = Ok ([("meta",
          VDict [("rank_math_data", VStr (json_dumps (VDict widget_bag)))])],
        false).
Proof. reflexivity. Qed.

(** [widget_post] is one of the posts [process_post_try_settled] is
    about. *)
Example process_post_try_settled_widget :
  exists bag s',
    VDict widget_bag = VDict bag
    /\ process_post_try demo_dumps demo_loads demo_unescape widget_requests
         no_generate widget_post (VInt 7) (VStr "Blue Widgets for Beginners")
         (VStr "<p>All about blue widgets.</p>") initial_state
       = (Ok tt, s')
    /\ calls s'
       = [Http (Get_post_edit (VInt 7));
          Http (Post_post (VInt 7)
                  (VDict [("meta",
                           meta_payload demo_dumps
                             (VDict (Py.dict_set "description"
                                       (VStr "learn how blue widgets work")
                                       bag)))]))]
    /\ report_entry s' = empty_entry.
Proof.
  apply (process_post_try_settled demo_dumps demo_loads demo_unescape
           widget_requests no_generate widget_post (VInt 7)
           "Blue Widgets for Beginners" "<p>All about blue widgets.</p>"
           "learn how blue widgets work" "blue widgets" (VDict widget_bag)
           (VNone, false) initial_state
           (record_call (Http (Get_post_edit (VInt 7))) initial_state));
    reflexivity || discriminate.
Qed.

(** C4 on a backend text of 181 characters after trimming. *)
Lemma generate_meta_description_length_witness :
  exists d,
    fst (generate_meta_description demo_unescape long_generate
           (VStr "<p>All about blue widgets.</p>") VNone max_length_default
           initial_state)
    = Ok (VStr d)
    /\ String.length d <= 160
    /\ (160 < String.length (PyStr.strip long_text) ->
        String.length d = 160 /\ exists p, d = p ++ "...").
Proof.
  apply (generate_meta_description_length demo_unescape long_generate).
  reflexivity.
Defined.

Example generate_meta_description_long :
  fst (generate_meta_description demo_unescape long_generate
         (VStr "<p>All about blue widgets.</p>") VNone max_length_default
         initial_state)
  = Ok (VStr (PyStr.take 157 (PyStr.strip long_text) ++ "..."))
  /\ String.length (PyStr.strip long_text) = 181.
Proof. split; reflexivity. Qed.

Example generate_keyword_labelled :
  fst (generate_keyword demo_unescape label_generate
         (VStr "<p>Old cameras.</p>") (VStr "Cameras") initial_state)
  = Ok (VStr "vintage cameras").
Proof. reflexivity. Qed.

Example generate_keyword_backend_down :
  fst (generate_keyword demo_unescape no_generate
         (VStr "<p>Old cameras.</p>") (VStr "Cameras") initial_state)
  = Ok VNone.
Proof. reflexivity. Qed.

Example update_post_title_accepts :
  fst (update_post_title (fun _ _ => Ok "My Great Widgets Post")
         "My Great Post" "widgets" initial_state)
  = Ok "My Great Widgets Post".
Proof. reflexivity. Qed.

Example update_post_title_rejects :
  fst (update_post_title (fun _ _ => Ok "Something Else Entirely")
         "My Great Post" "widgets" initial_state)
  = Ok "My Great Post".
Proof. reflexivity. Qed.

Example update_first_paragraph_no_paragraph :
  update_first_paragraph long_generate "<div>No paragraph here</div>"
    "widgets" initial_state
  = (Ok "<div>No paragraph here</div>", initial_state).
Proof. reflexivity. Qed.

Example update_first_paragraph_rewrites :
  fst (update_first_paragraph (fun _ _ => Ok " Widgets are <new>. ")
         "<h1>T</h1><p>Things are <b>old</b>.</p><p>More.</p>" "widgets"
         initial_state)
  = Ok "<h1>T</h1><p>Widgets are <new>.</p><p>More.</p>".
Proof. reflexivity. Qed.

(** C7 on a listing with one full page and a short one. *)
Lemma get_all_published_posts_stops_witness :
  get_all_published_posts paged_requests 5 initial_state
  = (Ok (Some (full_batch ++ last_batch)%list),
     record_call (Http (Get_posts 100 2))
       (record_call (Http (Get_posts 100 1)) initial_state))
  /\ calls (record_call (Http (Get_posts 100 2))
              (record_call (Http (Get_posts 100 1)) initial_state))
     = [Http (Get_posts 100 1); Http (Get_posts 100 2)].
Proof.
  destruct (get_all_published_posts_stops paged_requests [full_batch] 5
              initial_state
              {| status_code := 200; text := "";
                 json := Ok (VList last_batch) |})
    as (_ & _ & H & C).
  - split; [|exact I].
    exists {| status_code := 200; text := ""; json := Ok (VList full_batch) |},
      (VList full_batch), 100%Z.
    repeat split; reflexivity || discriminate.
  - simpl. lia.
  - reflexivity.
  - split.
    + rewrite (H eq_refl (VList last_batch) last_batch 2%Z);
        reflexivity.
    + exact C.
Defined.

Example get_all_published_posts_error :
  get_all_published_posts
    (fun _ _ => Ok {| status_code := 503; text := "Service Unavailable";
                      json := Raise (RemoteError "Expecting value") |})
    3 initial_state
  = (Ok (Some []), record_call (Http (Get_posts 100 1)) initial_state).
Proof. reflexivity. Qed.

(** C10 on the bag of [widget_requests]. *)
Lemma update_rank_math_keyword_frame_witness :
  exists bag',
    calls (snd (update_rank_math_keyword demo_dumps demo_loads widget_requests
                  (VInt 7) (VStr "red widgets") initial_state))
    = (calls (record_call (Http (Get_post_edit (VInt 7))) initial_state)
       ++ [Http (Post_post (VInt 7)
                   (VDict [("meta",
                            VDict [("rank_math_data",
                                    VStr (demo_dumps (VDict bag')))])]))])%list
    /\ Py.dict_get "focus_keyword" bag' = Some (VStr "red widgets")
    /\ forall key,
         key <> "focus_keyword" ->
         Py.dict_get key bag' = Py.dict_get key widget_bag.
Proof.
  apply (update_rank_math_keyword_frame demo_dumps demo_loads widget_requests
           (VInt 7) (VStr "red widgets") initial_state).
  reflexivity.
Defined.



Example process_post_odd_post :
  let entry :=
    {| post_id := VInt 8; post_slug := VStr "odd";
       original_title := VStr "Odd"; updated_title := VNone;
       meta_description_added := false; keyword_added := false |} in
  process_post demo_dumps demo_loads demo_unescape widget_requests no_generate
    odd_post initial_state
  = (Ok entry,
     {| calls := []; log_data := [(VInt 8, Error_processing_post TypeError)];
        report_data := []; report_entry := entry |}).
Proof. reflexivity. Qed.


(** ** More of the workflow on concrete posts *)

(** [fresh_post] uses the whole budget of eight calls; the last one is the
    final update, whose bag has the description alone although the keyword
    was stored two calls into the run. *)
Example process_post_fresh_post :
  let out :=
    process_post demo_dumps demo_loads demo_unescape fresh_requests
      fresh_generate fresh_post initial_state in
  List.length (calls (snd out)) = 8
  /\ keyword_added (report_entry (snd out)) = true
  /\ meta_description_added (report_entry (snd out)) = true
  /\ nth_error (calls (snd out)) 3
     = Some (Http (Post_post (VInt 11)
                     (VDict [("meta",
                              meta_payload demo_dumps
                                (VDict [("focus_keyword",
                                         VStr "vintage cameras")]))])))
  /\ nth_error (calls (snd out)) 7
     = Some (Http (Post_post (VInt 11)
                     (VDict [("title",
                              VStr "Collecting Vintage Cameras and Old Film Gear");
                             ("content",
                              VStr "<p>Vintage cameras and film gear of the last century are fun to collect.</p>");
                             ("meta",
                              meta_payload demo_dumps
                                (VDict [("description",
                                         VStr "Explore the world of vintage cameras.")]))]))).
Proof. repeat split. Qed.

(** X5 on the encoded [widget_bag]. *)
Lemma get_rank_math_data_decodes_witness :
  fst (get_rank_math_data widget_loads encoded_requests (VInt 7) initial_state)
  = Ok (VDict widget_bag).
Proof.
  apply (get_rank_math_data_decodes demo_dumps widget_loads encoded_requests
           (VInt 7) (VDict widget_bag) initial_state
           {| status_code := 200; text := "";
              json := Ok (VDict [("id", VInt 7);
                                 ("meta",
                                  VDict [("rank_math_data",
                                          VStr (demo_dumps
                                                  (VDict widget_bag)))])]) |}
           [("id", VInt 7);
            ("meta",
             VDict [("rank_math_data", VStr (demo_dumps (VDict widget_bag)))])]
           [("rank_math_data", VStr (demo_dumps (VDict widget_bag)))]);
    reflexivity.
Defined.

(** X8 on a listing whose second request fails. *)
Lemma get_all_published_posts_propagates_witness :
  get_all_published_posts failing_requests 5 initial_state
  = (Raise (RemoteError "connection reset"),
     record_call (Http (Get_posts 100 2))
       (record_call (Http (Get_posts 100 1)) initial_state)).
Proof.
  apply (get_all_published_posts_propagates failing_requests [full_batch] 5
           initial_state).
  - split; [|exact I].
    exists {| status_code := 200; text := ""; json := Ok (VList full_batch) |},
      (VList full_batch), 100%Z.
    repeat split; reflexivity || discriminate.
  - simpl. lia.
Defined.

(** X9 on [fresh_post]. *)
Lemma process_post_keyword_added_witness :
  exists keyword bag r sample rest,
    let before :=
      [Http (Get_post_edit (VInt 11));
       Gemini (Prompt_keyword (VStr "Collecting Old Film Gear") sample);
       Http (Get_post_edit (VInt 11))] in
    let update :=
      Post_post (VInt 11)
        (VDict [("meta", meta_payload demo_dumps (VDict bag))]) in
    Py.truthy keyword = true
    /\ Py.dict_get "focus_keyword" bag = Some keyword
    /\ calls (snd (process_post demo_dumps demo_loads demo_unescape
                     fresh_requests fresh_generate fresh_post initial_state))
       = (calls initial_state ++ before ++ Http update :: rest)%list
    /\ fresh_requests (calls initial_state ++ before)%list update = Ok r
    /\ status_code r = 200%Z.
Proof.
  generalize (process_post_keyword_added demo_dumps demo_loads demo_unescape
                fresh_requests fresh_generate fresh_post initial_state).
  destruct (process_post demo_dumps demo_loads demo_unescape fresh_requests
              fresh_generate fresh_post initial_state) as [[e|x] s'] eqn:E;
    lazy in E; [|discriminate].
  injection E as <- <-. intros H. exact (H eq_refl).
Defined.

(** X10 on [fresh_post]: no bag is read, so the bag of the final update
    has nothing but the description. *)
Lemma description_update_from_first_read_witness :
  exists pre update_data bag md,
    calls (snd (process_post_try demo_dumps demo_loads demo_unescape
                  fresh_requests fresh_generate fresh_post (VInt 11)
                  (VStr "Collecting Old Film Gear")
                  (VStr "<p>Film gear of the last century is fun to collect.</p>")
                  initial_state))
    = (pre ++ [Http (Post_post (VInt 11) (VDict update_data))])%list
    /\ Py.dict_get "meta" update_data
       = Some (meta_payload demo_dumps (VDict bag))
    /\ Py.dict_get "description" bag = Some md
    /\ Py.truthy md = true
    /\ forall key,
         key <> "description" -> Py.dict_get key bag = Py.dict_get key [].
Proof.
  destruct (process_post_try demo_dumps demo_loads demo_unescape
              fresh_requests fresh_generate fresh_post (VInt 11)
              (VStr "Collecting Old Film Gear")
              (VStr "<p>Film gear of the last century is fun to collect.</p>")
              initial_state) as [[[]|x] s'] eqn:E.
  - apply (description_update_from_first_read demo_dumps demo_loads
             demo_unescape fresh_requests fresh_generate fresh_post (VInt 11)
             (VStr "Collecting Old Film Gear")
             (VStr "<p>Film gear of the last century is fun to collect.</p>")
             VNone initial_state
             (record_call (Http (Get_post_edit (VInt 11))) initial_state) s');
      try reflexivity; [exact E|].
    lazy in E. injection E as <-. reflexivity.
  - lazy in E. discriminate.
Defined.


(** X14 on a paragraph without inline markup. *)
Lemma update_first_paragraph_echo_witness :
  fst (update_first_paragraph echo_generate
         "<h2>Gardens</h2><p>Plain words about gardens.</p>" "roses"
         initial_state)
  = Ok "<h2>Gardens</h2><p>Plain words about gardens.</p>".
Proof.
  apply (update_first_paragraph_echo echo_generate
           "<h2>Gardens</h2><p>Plain words about gardens.</p>" "roses"
           "Plain words about gardens." " Plain words about gardens. "
           initial_state);
    reflexivity.
Defined.

(** X16 on a run that meets a post without a title. *)
Lemma run_posts_stops_at_missing_field_witness :
  exists e,
    run_posts demo_dumps demo_loads demo_unescape widget_requests no_generate
      ([widget_post] ++ untitled_post :: [odd_post]) initial_state
    = (Raise e,
       snd (run_posts demo_dumps demo_loads demo_unescape widget_requests
              no_generate [widget_post] initial_state)).
Proof.
  apply (run_posts_stops_at_missing_field demo_dumps demo_loads demo_unescape
           widget_requests no_generate [widget_post] [odd_post] untitled_post
           initial_state).
  - repeat constructor.
  - reflexivity.
Defined.

(** The loop on a post whose [try] block raises between two others: two
    rows, and the calls of the first and the third post. *)
Example run_posts_rows :
  let s' :=
    snd (run_posts demo_dumps demo_loads demo_unescape widget_requests
           no_generate [widget_post; odd_post; widget_post] initial_state) in
  map post_id (report_data s') = [VInt 7; VInt 7]
  /\ List.length (calls s') = 4
  /\ map fst (log_data s') = [VInt 7; VInt 8; VInt 7].
Proof. vm_compute. repeat split. Qed.

(** ** The keyword test of the description step beyond Latin-1 *)

(** C2 as the specification words it does not hold for every capital
    letter: U+211D, the double-struck capital R, is an uppercase letter
    that [str.lower] leaves alone.  A keyword with it occurs in the
    lower-cased description, so the test of line 338 is false and nothing is
    generated again. *)
Lemma uppercase_keyword_kept :
  PyUnicode.is_upper 0x211D = true
  /\ PyUnicode.lower
       (PyUnicode.of_latin1 "An Introduction to "
        ++ 0x211D%N :: PyUnicode.of_latin1 "-Trees")%list
     = (PyUnicode.of_latin1 "an introduction to "
        ++ 0x211D%N :: PyUnicode.of_latin1 "-trees")%list
  /\ lacks_keyword (0x211D%N :: PyUnicode.of_latin1 "-trees")
       (PyUnicode.of_latin1 "An Introduction to "
        ++ 0x211D%N :: PyUnicode.of_latin1 "-Trees")%list
     = false.
Proof. vm_compute. repeat split. Qed.

(** The capital sigma takes its final form at the end of a word. *)
Example lower_final_sigma :
  PyUnicode.lower [0x39F; 0x394; 0x39F; 0x3A3; 0x20; 0x3A3; 0x395]%N
  = [0x3BF; 0x3B4; 0x3BF; 0x3C2; 0x20; 0x3C3; 0x3B5]%N.
Proof. vm_compute. reflexivity. Qed.

(** C2 on a keyword with a capital A-Z: the description has the keyword in
    lower case only and is generated again. *)
Example description_regenerated_capital :
  let out :=
    ensure_meta_description demo_unescape fresh_generate (VInt 7)
      (VStr "<p>All about blue widgets.</p>")
      (VStr "learn how blue widgets work") true (VStr "Blue widgets") true
      initial_state in
  lacks_keyword (PyUnicode.of_latin1 "Blue widgets")
    (PyUnicode.of_latin1 "learn how blue widgets work") = true
  /\ fst out = Ok (VStr "Explore the world of vintage cameras.")
  /\ meta_description_added (report_entry (snd out)) = true
  /\ log_data (snd out)
     = [(VInt 7, Meta_description_lacks_keyword (VStr "Blue widgets"));
        (VInt 7,
         Updated_meta_description
           (VStr "Explore the world of vintage cameras."))].
Proof. vm_compute. repeat split. Qed.
